(** * AOFlagger: the public facade, the default-strategy builder and the
    statistical flag action

    A shallow embedding of
    - [src/interface/aoflagger.h], [src/interface/aoflagger.cpp]
      (namespace [aoflagger]: [StrategyFlags], [ImageSet], [Strategy],
      [FlagMask], [QualityStatistics], [AOFlagger::Run]),
    - [src/strategy/control/defaultstrategy.cpp]
      ([rfiStrategy::DefaultStrategy]),
    - [src/strategy/actions/statisticalflagaction.cpp]
      ([rfiStrategy::StatisticalFlagAction::Perform]).

    Conventions.
    - [unsigned] and [int] values are integers in [Z]; the only operation
      the embedded code performs on flag words is the bitwise and,
      [Z.land].
    - [float] pixels and [double] parameters are real numbers; the only
      arithmetic the embedded code performs on them is
      [2.0 * pow(2.0, n/2.0)].
    - Objects reached through pointers live in an explicit [Memory]; a
      method that allocates, reads or writes them is a computation in the
      monad [M], which also carries C++ exceptions and undefined
      behaviour.
    - What the sources use but do not contain (the action classes'
      constructors, three flag constants, the image, mask and
      time-frequency classes, the flagging algorithms and the [Perform]
      of the other actions) is a parameter, or is modelled from the spec
      where a definition says so. *)

From Stdlib Require Import ZArith List String Reals Lra Lia.
From stdpp Require Import base option list gmap.

Set Default Proof Using "Type".
Set Warnings "-register-all".

(** ** [aoflagger::StrategyFlags] (aoflagger.cpp, lines 24-34) *)

Module StrategyFlags.
Definition NONE             : Z := 0x00.
Definition LOW_FREQUENCY    : Z := 0x01.
Definition HIGH_FREQUENCY   : Z := 0x02.
Definition TRANSIENTS       : Z := 0x04.
Definition ROBUST           : Z := 0x08.
Definition FAST             : Z := 0x10.
Definition OFF_AXIS_SOURCES : Z := 0x20.
Definition UNSENSITIVE      : Z := 0x40.
Definition SENSITIVE        : Z := 0x80.
Definition GUI_FRIENDLY     : Z := 0x100.
Definition CLEAR_FLAGS      : Z := 0x200.

(** The named flags the facade declares (aoflagger.h, class
    [StrategyFlags]), in declaration order, [NONE] excluded. *)
Definition named : list Z :=
  [LOW_FREQUENCY; HIGH_FREQUENCY; TRANSIENTS; ROBUST; FAST;
   OFF_AXIS_SOURCES; UNSENSITIVE; SENSITIVE; GUI_FRIENDLY; CLEAR_FLAGS].
End StrategyFlags.

(** [flags & f] is non-zero: the test the builder applies to every flag. *)
Definition flag_set (flags f : Z) : bool := negb (Z.land flags f =? 0)%Z.

(** ** [aoflagger::TelescopeId] (aoflagger.h, lines 24-33)

    The builder's own enumeration ([rfiStrategy::DefaultStrategy], with
    [MWA_TELESCOPE]) is declared in a header that is not part of the
    sources; the facade casts its enumeration to the builder's, and the
    two are identified here. *)
Inductive TelescopeId :=
| GENERIC_TELESCOPE
| LOFAR_TELESCOPE
| MWA_TELESCOPE
| WSRT_TELESCOPE.

Definition TelescopeId_eqb (a b : TelescopeId) : bool :=
  match a, b with
  | GENERIC_TELESCOPE, GENERIC_TELESCOPE
  | LOFAR_TELESCOPE, LOFAR_TELESCOPE
  | MWA_TELESCOPE, MWA_TELESCOPE
  | WSRT_TELESCOPE, WSRT_TELESCOPE => true
  | _, _ => false
  end.

(** ** The action classes the builder instantiates

    Each class is a record of the members the builder sets (through the
    setters below); the classes themselves are declared in headers under
    [strategy/actions/] that are not part of the sources. *)

Definition double := R.
Definition float := R.

(** [SetFlaggingAction::NewFlagging].  Modelled from the spec: the modes
    of SetFlagging, "PolarisationsEqual", "OrOriginal" and "None"
    (clear); the builder names the first two. *)
Inductive NewFlagging := FlaggingNone | PolarisationsEqual | OrOriginal.

Record SetFlaggingAction := { _newFlagging : NewFlagging }.

Definition SetNewFlagging (v : NewFlagging) (a : SetFlaggingAction) :
  SetFlaggingAction := {| _newFlagging := v |}.

Record ForEachComplexComponentAction := {
  _onAmplitude : bool;
  _onPhase : bool;
  _onReal : bool;
  _onImaginary : bool;
  _restoreFromAmplitude : bool
}.

Definition SetOnAmplitude (v : bool) (a : ForEachComplexComponentAction) :=
  {| _onAmplitude := v; _onPhase := _onPhase a; _onReal := _onReal a;
     _onImaginary := _onImaginary a;
     _restoreFromAmplitude := _restoreFromAmplitude a |}.
Definition SetOnImaginary (v : bool) (a : ForEachComplexComponentAction) :=
  {| _onAmplitude := _onAmplitude a; _onPhase := _onPhase a;
     _onReal := _onReal a; _onImaginary := v;
     _restoreFromAmplitude := _restoreFromAmplitude a |}.
Definition SetOnReal (v : bool) (a : ForEachComplexComponentAction) :=
  {| _onAmplitude := _onAmplitude a; _onPhase := _onPhase a; _onReal := v;
     _onImaginary := _onImaginary a;
     _restoreFromAmplitude := _restoreFromAmplitude a |}.
Definition SetOnPhase (v : bool) (a : ForEachComplexComponentAction) :=
  {| _onAmplitude := _onAmplitude a; _onPhase := v; _onReal := _onReal a;
     _onImaginary := _onImaginary a;
     _restoreFromAmplitude := _restoreFromAmplitude a |}.
Definition SetRestoreFromAmplitude (v : bool)
  (a : ForEachComplexComponentAction) :=
  {| _onAmplitude := _onAmplitude a; _onPhase := _onPhase a;
     _onReal := _onReal a; _onImaginary := _onImaginary a;
     _restoreFromAmplitude := v |}.

Record IterationBlock := {
  _iterationCount : Z;
  _sensitivityStart : double
}.

Definition SetIterationCount (v : Z) (a : IterationBlock) :=
  {| _iterationCount := v; _sensitivityStart := _sensitivityStart a |}.
Definition SetSensitivityStart (v : double) (a : IterationBlock) :=
  {| _iterationCount := _iterationCount a; _sensitivityStart := v |}.

Record SumThresholdAction := {
  _baseSensitivity : double;
  _frequencyDirectionFlagging : bool
}.

Definition SetBaseSensitivity (v : double) (a : SumThresholdAction) :=
  {| _baseSensitivity := v;
     _frequencyDirectionFlagging := _frequencyDirectionFlagging a |}.
Definition SetFrequencyDirectionFlagging (v : bool) (a : SumThresholdAction) :=
  {| _baseSensitivity := _baseSensitivity a;
     _frequencyDirectionFlagging := v |}.

Record ChangeResolutionAction := {
  _timeDecreaseFactor : Z;
  _frequencyDecreaseFactor : Z
}.

Definition SetTimeDecreaseFactor (v : Z) (a : ChangeResolutionAction) :=
  {| _timeDecreaseFactor := v;
     _frequencyDecreaseFactor := _frequencyDecreaseFactor a |}.
Definition SetFrequencyDecreaseFactor (v : Z) (a : ChangeResolutionAction) :=
  {| _timeDecreaseFactor := _timeDecreaseFactor a;
     _frequencyDecreaseFactor := v |}.

(** [HighPassFilterAction::Mode].  The builder names [StoreRevised]; the
    spec lists the two output modes. *)
Inductive HighPassFilterMode := StoreContaminated | StoreRevised.

Record HighPassFilterAction := {
  _windowWidth : Z;
  _windowHeight : Z;
  _hKernelSigmaSq : double;
  _vKernelSigmaSq : double;
  _mode : HighPassFilterMode
}.

Definition SetWindowWidth (v : Z) (a : HighPassFilterAction) :=
  {| _windowWidth := v; _windowHeight := _windowHeight a;
     _hKernelSigmaSq := _hKernelSigmaSq a;
     _vKernelSigmaSq := _vKernelSigmaSq a; _mode := _mode a |}.
Definition SetWindowHeight (v : Z) (a : HighPassFilterAction) :=
  {| _windowWidth := _windowWidth a; _windowHeight := v;
     _hKernelSigmaSq := _hKernelSigmaSq a;
     _vKernelSigmaSq := _vKernelSigmaSq a; _mode := _mode a |}.
Definition SetHKernelSigmaSq (v : double) (a : HighPassFilterAction) :=
  {| _windowWidth := _windowWidth a; _windowHeight := _windowHeight a;
     _hKernelSigmaSq := v; _vKernelSigmaSq := _vKernelSigmaSq a;
     _mode := _mode a |}.
Definition SetVKernelSigmaSq (v : double) (a : HighPassFilterAction) :=
  {| _windowWidth := _windowWidth a; _windowHeight := _windowHeight a;
     _hKernelSigmaSq := _hKernelSigmaSq a; _vKernelSigmaSq := v;
     _mode := _mode a |}.
Definition SetMode (v : HighPassFilterMode) (a : HighPassFilterAction) :=
  {| _windowWidth := _windowWidth a; _windowHeight := _windowHeight a;
     _hKernelSigmaSq := _hKernelSigmaSq a;
     _vKernelSigmaSq := _vKernelSigmaSq a; _mode := v |}.

(** [PlotAction::PlotKind]: the enumerators the builder names. *)
Inductive PlotKind :=
| AntennaFlagCountPlot
| FrequencyFlagCountPlot
| PolarizationStatisticsPlot.

Record PlotAction := { _plotKind : PlotKind }.

Definition SetPlotKind (v : PlotKind) (a : PlotAction) : PlotAction :=
  {| _plotKind := v |}.

(** The four members [StatisticalFlagAction::Perform] reads. *)
Record StatisticalFlagAction := {
  _enlargeTimeSize : nat;
  _enlargeFrequencySize : nat;
  _minimumGoodTimeRatio : double;
  _minimumGoodFrequencyRatio : double
}.

Record BaselineSelectionAction := { _preparationStep : bool }.

Definition SetPreparationStep (v : bool) (a : BaselineSelectionAction) :
  BaselineSelectionAction := {| _preparationStep := v |}.

(** The action tree.  A block ([ActionBlock] and its subclasses) owns the
    ordered list of its children; [SetImageAction],
    [FrequencySelectionAction], [TimeSelectionAction],
    [CalibratePassbandAction] and [WriteFlagsAction] are only ever
    default-constructed by the builder and carry no member here. *)
Inductive Action :=
| Action_Strategy (children : list Action)
| Action_ForEachBaseline (children : list Action)
| Action_ForEachPolarisationBlock (children : list Action)
| Action_ForEachComplexComponent
    (self : ForEachComplexComponentAction) (children : list Action)
| Action_IterationBlock (self : IterationBlock) (children : list Action)
| Action_CombineFlagResults (children : list Action)
| Action_ChangeResolution
    (self : ChangeResolutionAction) (children : list Action)
| Action_SetImage
| Action_SetFlagging (self : SetFlaggingAction)
| Action_SumThreshold (self : SumThresholdAction)
| Action_FrequencySelection
| Action_TimeSelection
| Action_HighPassFilter (self : HighPassFilterAction)
| Action_CalibratePassband
| Action_Plot (self : PlotAction)
| Action_StatisticalFlag (self : StatisticalFlagAction)
| Action_BaselineSelection (self : BaselineSelectionAction)
| Action_WriteFlags.

(** The children of a block, in order; a leaf has none. *)
Definition children_of (a : Action) : list Action :=
  match a with
  | Action_Strategy cs
  | Action_ForEachBaseline cs
  | Action_ForEachPolarisationBlock cs
  | Action_ForEachComplexComponent _ cs
  | Action_IterationBlock _ cs
  | Action_CombineFlagResults cs
  | Action_ChangeResolution _ cs => cs
  | _ => []
  end.

(** Every action of a tree, the root first, depth-first and left to
    right. *)
Fixpoint subactions (a : Action) : list Action :=
  a :: match a with
       | Action_Strategy cs
       | Action_ForEachBaseline cs
       | Action_ForEachPolarisationBlock cs
       | Action_ForEachComplexComponent _ cs
       | Action_IterationBlock _ cs
       | Action_CombineFlagResults cs
       | Action_ChangeResolution _ cs => flat_map subactions cs
       | _ => []
       end.

Definition is_SumThreshold (a : Action) : bool :=
  match a with Action_SumThreshold _ => true | _ => false end.
Definition is_CalibratePassband (a : Action) : bool :=
  match a with Action_CalibratePassband => true | _ => false end.
Definition is_IterationBlock (a : Action) : bool :=
  match a with Action_IterationBlock _ _ => true | _ => false end.
Definition is_SetFlagging_OrOriginal (a : Action) : bool :=
  match a with
  | Action_SetFlagging {| _newFlagging := OrOriginal |} => true
  | _ => false
  end.

(** What the default constructors of the action classes produce: the
    classes are declared in headers that are not part of the sources, so
    the initial value of every member is a parameter. *)
Record Constructors := {
  SetFlaggingAction_new : SetFlaggingAction;
  ForEachComplexComponentAction_new : ForEachComplexComponentAction;
  IterationBlock_new : IterationBlock;
  SumThresholdAction_new : SumThresholdAction;
  ChangeResolutionAction_new : ChangeResolutionAction;
  HighPassFilterAction_new : HighPassFilterAction;
  PlotAction_new : PlotAction;
  StatisticalFlagAction_new : StatisticalFlagAction;
  BaselineSelectionAction_new : BaselineSelectionAction
}.

(** The three constants [defaultstrategy.cpp] reads from
    [aoflagger::StrategyFlags] that the facade does not define. *)
Record UndeclaredFlags := {
  LARGE_BANDWIDTH : Z;
  SMALL_BANDWIDTH : Z;
  AUTO_CORRELATION : Z
}.

Section DefaultStrategy.

Variable new : Constructors.
Variable undeclared : UndeclaredFlags.

(** ** [rfiStrategy::DefaultStrategy] (defaultstrategy.cpp) *)

(** Lines 27-41. *)
Definition FLAG_NONE             := StrategyFlags.NONE.
Definition FLAG_LOW_FREQUENCY    := StrategyFlags.LOW_FREQUENCY.
Definition FLAG_HIGH_FREQUENCY   := StrategyFlags.HIGH_FREQUENCY.
Definition FLAG_LARGE_BANDWIDTH  := LARGE_BANDWIDTH undeclared.
Definition FLAG_SMALL_BANDWIDTH  := SMALL_BANDWIDTH undeclared.
Definition FLAG_TRANSIENTS       := StrategyFlags.TRANSIENTS.
Definition FLAG_ROBUST           := StrategyFlags.ROBUST.
Definition FLAG_FAST             := StrategyFlags.FAST.
Definition FLAG_OFF_AXIS_SOURCES := StrategyFlags.OFF_AXIS_SOURCES.
Definition FLAG_UNSENSITIVE      := StrategyFlags.UNSENSITIVE.
Definition FLAG_SENSITIVE        := StrategyFlags.SENSITIVE.
Definition FLAG_GUI_FRIENDLY     := StrategyFlags.GUI_FRIENDLY.
Definition FLAG_CLEAR_FLAGS      := StrategyFlags.CLEAR_FLAGS.
Definition FLAG_AUTO_CORRELATION := AUTO_CORRELATION undeclared.

(** [ActionBlock::Add]: append a child. *)
Definition Add (block : list Action) (a : Action) : list Action :=
  block ++ [a].

(** [pow(2.0, y)] of the C library, on reals. *)
Definition pow (x y : double) : double := Rpower x y.

(** [DefaultStrategy::LoadSingleStrategy], lines 68-192.  [block] is the
    child list of the block the actions are added to; the result is that
    list afterwards.  The source fills the nested blocks through the
    pointer [current] after it has added them to their parent; here each
    block's child list is built first, in the same order of [Add]s, and
    the block is added where the source adds it. *)
Definition LoadSingleStrategy (block : list Action) (iterationCount : Z)
  (keepTransients calPassband clearFlags resetContaminated : bool) :
  list Action :=
  (* 72-75 *)
  let block :=
    if resetContaminated then Add block Action_SetImage else block in
  let block :=
    Add block (Action_SetFlagging (SetFlaggingAction_new new)) in
  (* 81-86 *)
  let focAction :=
    SetRestoreFromAmplitude false
      (SetOnPhase false
        (SetOnReal false
          (SetOnImaginary false
            (SetOnAmplitude true
              (ForEachComplexComponentAction_new new))))) in
  (* 90-92 *)
  let iteration :=
    SetSensitivityStart
      (2 * pow 2 (IZR iterationCount / 2))%R
      (SetIterationCount iterationCount (IterationBlock_new new)) in
  (* 96-100: the children of [iteration] *)
  let t1 := SetBaseSensitivity 1%R (SumThresholdAction_new new) in
  let t1 :=
    if keepTransients then SetFrequencyDirectionFlagging false t1 else t1 in
  let iteration_children := Add [] (Action_SumThreshold t1) in
  (* 102-107 *)
  let cfr1 := Add [] Action_FrequencySelection in
  let cfr1 :=
    if negb keepTransients then Add cfr1 Action_TimeSelection else cfr1 in
  let iteration_children :=
    Add iteration_children (Action_CombineFlagResults cfr1) in
  (* 109-115 *)
  let iteration_children := Add iteration_children Action_SetImage in
  let changeResAction :=
    if keepTransients
    then SetTimeDecreaseFactor 1 (ChangeResolutionAction_new new)
    else SetTimeDecreaseFactor 3 (ChangeResolutionAction_new new) in
  let changeResAction := SetFrequencyDecreaseFactor 3 changeResAction in
  (* 133-146 *)
  let hpAction := HighPassFilterAction_new new in
  let hpAction :=
    if keepTransients
    then SetWindowWidth 1 hpAction
    else SetWindowWidth 21 (SetHKernelSigmaSq 2.5%R hpAction) in
  let hpAction :=
    SetMode StoreRevised
      (SetWindowHeight 31 (SetVKernelSigmaSq 5%R hpAction)) in
  let changeRes_children := Add [] (Action_HighPassFilter hpAction) in
  let iteration_children :=
    Add iteration_children
      (Action_ChangeResolution changeResAction changeRes_children) in
  (* 93, 148-157: the children of [focAction] *)
  let foc_children :=
    Add [] (Action_IterationBlock iteration iteration_children) in
  let foc_children :=
    if calPassband then Add foc_children Action_CalibratePassband
    else foc_children in
  let t2 := SumThresholdAction_new new in
  let t2 :=
    if keepTransients then SetFrequencyDirectionFlagging false t2 else t2 in
  let foc_children := Add foc_children (Action_SumThreshold t2) in
  (* 77-78, 87: the polarisation block and its only child *)
  let fep_children :=
    Add [] (Action_ForEachComplexComponent focAction foc_children) in
  let block := Add block (Action_ForEachPolarisationBlock fep_children) in
  (* 159-167 *)
  let plotPolarizationStatistics :=
    SetPlotKind PolarizationStatisticsPlot (PlotAction_new new) in
  let block := Add block (Action_Plot plotPolarizationStatistics) in
  let setFlagsInAllPolarizations :=
    SetNewFlagging PolarisationsEqual (SetFlaggingAction_new new) in
  let block := Add block (Action_SetFlagging setFlagsInAllPolarizations) in
  let block :=
    Add block (Action_StatisticalFlag (StatisticalFlagAction_new new)) in
  (* 169-180 *)
  let pedantic := false in
  let block :=
    if pedantic then
      let cfr2 := Add [] Action_FrequencySelection in
      let cfr2 :=
        if negb keepTransients then Add cfr2 Action_TimeSelection
        else cfr2 in
      Add block (Action_CombineFlagResults cfr2)
    else
      if negb keepTransients then Add block Action_TimeSelection
      else block in
  (* 182-184 *)
  let baselineSelection :=
    SetPreparationStep true (BaselineSelectionAction_new new) in
  let block := Add block (Action_BaselineSelection baselineSelection) in
  (* 186-191 *)
  if negb clearFlags then
    let orWithOriginals :=
      SetNewFlagging OrOriginal (SetFlaggingAction_new new) in
    Add block (Action_SetFlagging orWithOriginals)
  else block.

(** The five decisions of [DefaultStrategy::LoadStrategy], lines 52-63. *)
Definition calPassband_of (telescopeId : TelescopeId) (flags : Z) : bool :=
  (TelescopeId_eqb telescopeId MWA_TELESCOPE
   && (Z.land flags FLAG_SMALL_BANDWIDTH =? 0)%Z)
  || negb (Z.land flags FLAG_LARGE_BANDWIDTH =? 0)%Z.
Definition keepTransients_of (flags : Z) : bool :=
  negb (Z.land flags FLAG_TRANSIENTS =? 0)%Z.
Definition clearFlags_of (flags : Z) : bool :=
  negb (Z.land flags FLAG_CLEAR_FLAGS =? 0)%Z
  || negb (Z.land flags FLAG_GUI_FRIENDLY =? 0)%Z.
Definition resetContaminated_of (flags : Z) : bool :=
  negb (Z.land flags FLAG_GUI_FRIENDLY =? 0)%Z.
Definition iterationCount_of (flags : Z) : Z :=
  if (Z.land flags FLAG_ROBUST =? 0)%Z then 2%Z else 4%Z.

(** [DefaultStrategy::LoadStrategy], lines 50-66. *)
Definition LoadStrategy (strategy : list Action) (telescopeId : TelescopeId)
  (flags : Z) (frequency timeRes frequencyRes : double) : list Action :=
  let calPassband := calPassband_of telescopeId flags in
  let keepTransients := keepTransients_of flags in
  let clearFlags := clearFlags_of flags in
  let resetContaminated := resetContaminated_of flags in
  let iterationCount := iterationCount_of flags in
  LoadSingleStrategy strategy iterationCount keepTransients calPassband
    clearFlags resetContaminated.

(** [DefaultStrategy::CreateStrategy], lines 43-48: a new, empty
    [Strategy] root, loaded. *)
Definition CreateStrategy (telescopeId : TelescopeId) (flags : Z)
  (frequency timeRes frequencyRes : double) : Action :=
  Action_Strategy
    (LoadStrategy [] telescopeId flags frequency timeRes frequencyRes).

(** [DefaultStrategy::LoadFullStrategy], lines 194-214. *)
Definition LoadFullStrategy (destination : list Action)
  (telescopeId : TelescopeId) (flags : Z)
  (frequency timeRes frequencyRes : double) : list Action :=
  let feBaseBlock :=
    LoadStrategy [] telescopeId flags frequency timeRes frequencyRes in
  let feBaseBlock := Add feBaseBlock Action_WriteFlags in
  let antennaPlotAction :=
    SetPlotKind AntennaFlagCountPlot (PlotAction_new new) in
  let feBaseBlock := Add feBaseBlock (Action_Plot antennaPlotAction) in
  let frequencyPlotAction :=
    SetPlotKind FrequencyFlagCountPlot (PlotAction_new new) in
  let feBaseBlock := Add feBaseBlock (Action_Plot frequencyPlotAction) in
  let destination := Add destination (Action_ForEachBaseline feBaseBlock) in
  let baselineSelection :=
    SetPreparationStep false (BaselineSelectionAction_new new) in
  Add destination (Action_BaselineSelection baselineSelection).

End DefaultStrategy.

(** ** Memory

    Images and masks are held through shared pointers ([Image2DPtr],
    [Mask2DPtr]); the facade classes hold their implementation object
    through a plain pointer obtained from [new] and released by
    [delete].  A shared pointer is an optional address (none: the null
    pointer); what a shared pointer points to is never released here. *)

Abbreviation addr := positive.

(** Modelled from the spec: Image, "width x height grid of 32-bit
    floats, row-major" ([msio/image2d.h] is not part of the sources); the
    padding of rows to the stride is left out. *)
Record Image2D := {
  image_width : nat;
  image_height : nat;
  image_values : list (list float)
}.

(** Modelled from the spec: Mask, "same shape/stride model, one boolean
    per pixel; true = flagged" ([msio/mask2d.h] is not part of the
    sources). *)
Record Mask2D := {
  mask_width : nat;
  mask_height : nat;
  mask_values : list (list bool)
}.

Abbreviation Image2DPtr := (option addr).
Abbreviation Mask2DPtr := (option addr).

(** aoflagger.cpp, lines 37-54. *)
Record ImageSetData := { images : list Image2DPtr }.

(** aoflagger.cpp, lines 125-143.  The shared [rfiStrategy::Strategy]
    the pointer refers to is the action tree itself. *)
Record StrategyData := { strategyPtr : Action }.

(** aoflagger.cpp, lines 178-195. *)
Record FlagMaskData := { mask : Mask2DPtr }.

(** aoflagger.cpp, lines 250-262; the shared implementation object is
    identified by its address. *)
Record QualityStatisticsData := { _implementation : addr }.

Inductive Object :=
| Obj_ImageSetData (d : ImageSetData)
| Obj_StrategyData (d : StrategyData)
| Obj_FlagMaskData (d : FlagMaskData)
| Obj_QualityStatisticsData (d : QualityStatisticsData).

Record Memory := {
  mem_images : gmap addr Image2D;
  mem_masks : gmap addr Mask2D;
  mem_objects : gmap addr Object
}.

Definition empty_memory : Memory :=
  {| mem_images := ∅; mem_masks := ∅; mem_objects := ∅ |}.

(** ** Computations *)

(** [std::runtime_error], and the two exceptions with which the
    standard library refuses to build a vector. *)
Inductive exception :=
| runtime_error (what : string)
| length_error
| bad_alloc.

Inductive outcome (A : Type) :=
| Returns (a : A) (m : Memory)
| Throws (e : exception) (m : Memory)
| Undefined.
Arguments Returns {A} a m.
Arguments Throws {A} e m.
Arguments Undefined {A}.

Definition M (A : Type) : Type := Memory -> outcome A.

#[global] Instance M_ret : MRet M := fun A a m => Returns a m.
#[global] Instance M_bind : MBind M := fun A B f c m =>
  match c m with
  | Returns a m' => f a m'
  | Throws e m' => Throws e m'
  | Undefined => Undefined
  end.

Definition throw {A} (e : exception) : M A := fun m => Throws e m.
Definition undefined {A} : M A := fun _ => Undefined.

(** [for(size_t i = start; i != start + n; ++i) body(i)]. *)
Fixpoint for_loop (start n : nat) (body : nat -> M unit) : M unit :=
  match n with
  | O => mret tt
  | S n' => body start ;; for_loop (S start) n' body
  end.

(** [new], [delete] and the accesses through a pointer. *)
Definition new_image (i : Image2D) : M addr := fun m =>
  let p := fresh (dom (mem_images m)) in
  Returns p {| mem_images := <[p := i]> (mem_images m);
               mem_masks := mem_masks m; mem_objects := mem_objects m |}.

Definition new_mask (k : Mask2D) : M addr := fun m =>
  let p := fresh (dom (mem_masks m)) in
  Returns p {| mem_images := mem_images m;
               mem_masks := <[p := k]> (mem_masks m);
               mem_objects := mem_objects m |}.

Definition new_object (o : Object) : M addr := fun m =>
  let p := fresh (dom (mem_objects m)) in
  Returns p {| mem_images := mem_images m; mem_masks := mem_masks m;
               mem_objects := <[p := o]> (mem_objects m) |}.

(** Deleting what is not allocated (a second [delete] of the same
    pointer) is undefined behaviour. *)
Definition delete_object (p : addr) : M unit := fun m =>
  match mem_objects m !! p with
  | Some _ =>
      Returns tt {| mem_images := mem_images m; mem_masks := mem_masks m;
                    mem_objects := delete p (mem_objects m) |}
  | None => Undefined
  end.

Definition read_image (p : Image2DPtr) : M Image2D := fun m =>
  match p ≫= fun a => mem_images m !! a with
  | Some i => Returns i m
  | None => Undefined
  end.

Definition read_mask (p : Mask2DPtr) : M Mask2D := fun m =>
  match p ≫= fun a => mem_masks m !! a with
  | Some k => Returns k m
  | None => Undefined
  end.

Definition read_object (p : addr) : M Object := fun m =>
  match mem_objects m !! p with
  | Some o => Returns o m
  | None => Undefined
  end.

Definition write_object (p : addr) (o : Object) : M unit := fun m =>
  match mem_objects m !! p with
  | Some _ =>
      Returns tt {| mem_images := mem_images m; mem_masks := mem_masks m;
                    mem_objects := <[p := o]> (mem_objects m) |}
  | None => Undefined
  end.

(** An algorithm that rewrites the mask behind a [Mask2DPtr] in place. *)
Definition update_mask (p : Mask2DPtr) (f : Mask2D -> Mask2D) : M unit :=
  fun m =>
  match p with
  | Some a =>
      match mem_masks m !! a with
      | Some k =>
          Returns tt {| mem_images := mem_images m;
                        mem_masks := <[a := f k]> (mem_masks m);
                        mem_objects := mem_objects m |}
      | None => Undefined
      end
  | None => Undefined
  end.

Definition get_ImageSetData (p : addr) : M ImageSetData :=
  o ← read_object p;
  match o with Obj_ImageSetData d => mret d | _ => undefined end.
Definition get_StrategyData (p : addr) : M StrategyData :=
  o ← read_object p;
  match o with Obj_StrategyData d => mret d | _ => undefined end.
Definition get_FlagMaskData (p : addr) : M FlagMaskData :=
  o ← read_object p;
  match o with Obj_FlagMaskData d => mret d | _ => undefined end.
Definition get_QualityStatisticsData (p : addr) : M QualityStatisticsData :=
  o ← read_object p;
  match o with Obj_QualityStatisticsData d => mret d | _ => undefined end.

(** [v[i]] on a [std::vector]: out of range is undefined behaviour. *)
Definition at_index {A} (v : list A) (i : nat) : M A :=
  match v !! i with
  | Some x => mret x
  | None => undefined
  end.

(** ** [TimeFrequencyData] and [ArtifactSet]

    Both classes are declared in headers that are not part of the
    sources. *)

Inductive PhaseRepresentation := AmplitudePart | ComplexRepresentation.

Inductive PolarisationType :=
| SinglePolarisation
| AutoDipolePolarisation
| DipolePolarisation.

Inductive FlagCoverage :=
| NoFlagCoverage
| GlobalFlagCoverage
| IndividualPolarisationFlagCoverage.

(** Modelled from the spec: TimeFrequencyData, "a bundle containing a
    kind [...] determining image layout; 1, 2, 4 or 8 Image handles;
    either one global mask or one mask per polarization pair".  The kind
    is kept as the two enumerations the constructors in [Run] are called
    with. *)
Record TimeFrequencyData := {
  _phaseRepresentation : PhaseRepresentation;
  _polarisationType : PolarisationType;
  _flagCoverage : FlagCoverage;
  _images : list Image2DPtr;
  _flagging : list Mask2DPtr
}.

(** The spec's four kinds. *)
Inductive Kind := Amplitude | Complex | Dipole2Pol | Dipole4Pol.

Definition kind_of (d : TimeFrequencyData) : Kind :=
  match _polarisationType d, _phaseRepresentation d with
  | SinglePolarisation, AmplitudePart => Amplitude
  | SinglePolarisation, ComplexRepresentation => Complex
  | AutoDipolePolarisation, _ => Dipole2Pol
  | DipolePolarisation, _ => Dipole4Pol
  end.

(** The four constructors [Run] calls, by their number of images; a
    fresh bundle has no mask. *)
Definition TimeFrequencyData_1 (phase : PhaseRepresentation)
  (pol : PolarisationType) (image : Image2DPtr) : TimeFrequencyData :=
  {| _phaseRepresentation := phase; _polarisationType := pol;
     _flagCoverage := NoFlagCoverage; _images := [image];
     _flagging := [] |}.

Definition TimeFrequencyData_2 (phase : PhaseRepresentation)
  (pol : PolarisationType) (real imag : Image2DPtr) : TimeFrequencyData :=
  {| _phaseRepresentation := phase; _polarisationType := pol;
     _flagCoverage := NoFlagCoverage; _images := [real; imag];
     _flagging := [] |}.

Definition TimeFrequencyData_4 (pol : PolarisationType)
  (real0 imag0 real1 imag1 : Image2DPtr) : TimeFrequencyData :=
  {| _phaseRepresentation := ComplexRepresentation;
     _polarisationType := pol; _flagCoverage := NoFlagCoverage;
     _images := [real0; imag0; real1; imag1]; _flagging := [] |}.

Definition TimeFrequencyData_8
  (real0 imag0 real1 imag1 real2 imag2 real3 imag3 : Image2DPtr) :
  TimeFrequencyData :=
  {| _phaseRepresentation := ComplexRepresentation;
     _polarisationType := DipolePolarisation;
     _flagCoverage := NoFlagCoverage;
     _images := [real0; imag0; real1; imag1; real2; imag2; real3; imag3];
     _flagging := [] |}.

Definition with_flagging (c : FlagCoverage) (ms : list Mask2DPtr)
  (d : TimeFrequencyData) : TimeFrequencyData :=
  {| _phaseRepresentation := _phaseRepresentation d;
     _polarisationType := _polarisationType d;
     _flagCoverage := c; _images := _images d; _flagging := ms |}.

Definition SetGlobalMask (k : Mask2DPtr) (d : TimeFrequencyData) :=
  with_flagging GlobalFlagCoverage [k] d.
Definition SetIndividualPolarisationMasks_2 (a b : Mask2DPtr)
  (d : TimeFrequencyData) :=
  with_flagging IndividualPolarisationFlagCoverage [a; b] d.
Definition SetIndividualPolarisationMasks_4 (a b c e : Mask2DPtr)
  (d : TimeFrequencyData) :=
  with_flagging IndividualPolarisationFlagCoverage [a; b; c; e] d.

(** Modelled from the spec: ArtifactSet, "three TimeFrequencyData slots
    - original, contaminated, revised"; the scratch slots and the mutex
    handle are left out. *)
Record ArtifactSet := {
  _originalData : TimeFrequencyData;
  _contaminatedData : TimeFrequencyData;
  _revisedData : TimeFrequencyData
}.

Definition OriginalData := _originalData.
Definition ContaminatedData := _contaminatedData.
Definition RevisedData := _revisedData.

Definition SetOriginalData (d : TimeFrequencyData) (a : ArtifactSet) :=
  {| _originalData := d; _contaminatedData := _contaminatedData a;
     _revisedData := _revisedData a |}.
Definition SetContaminatedData (d : TimeFrequencyData) (a : ArtifactSet) :=
  {| _originalData := _originalData a; _contaminatedData := d;
     _revisedData := _revisedData a |}.
Definition SetRevisedData (d : TimeFrequencyData) (a : ArtifactSet) :=
  {| _originalData := _originalData a; _contaminatedData := _contaminatedData a;
     _revisedData := d |}.

(** ** The facade classes (aoflagger.h): each holds [_data]. *)

Record ImageSet := { ImageSet_data : addr }.
Record Strategy := { Strategy_data : addr }.
(** [FlagMask::FlagMask()] sets [_data] to the null pointer. *)
Record FlagMask := { FlagMask_data : option addr }.
Record QualityStatistics := { QualityStatistics_data : addr }.

Definition invalid_count_message : string :=
  "Invalid count specified when creating image set for aoflagger; should be 1, 2, 4 or 8.".

(** Grids of a given size. *)
Definition grid {A} (width height : nat) (v : A) : list (list A) :=
  replicate height (replicate width v).

(** What [std::vector<Image2DPtr>(n)], the member of
    [new ImageSetData(n)], can hold.  The standard library is not part
    of the sources: [max_size] is [std::vector::max_size()], beyond which
    the constructor throws [std::length_error], and [available] is the
    largest number of entries the allocator provides storage for, beyond
    which it throws [std::bad_alloc].  As every other allocation of this
    memory, one of the eight entries of the largest valid image set
    succeeds. *)
Record VectorLimits := {
  max_size : nat;
  available : nat;
  max_size_at_least : 8 <= max_size;
  available_at_least : 8 <= available
}.

Section Facade.

(** What the parts of the repository that are not among the sources
    compute. *)

(** The limits of the vector of an [ImageSetData]. *)
Variable limits : VectorLimits.

(** The pixels of an image created by [Image2D::CreateUnsetImagePtr]. *)
Variable unset_values : nat -> nat -> list (list float).
(** [TimeFrequencyData::TimeFrequencyData()]. *)
Variable TimeFrequencyData_0 : TimeFrequencyData.
(** The single mask of a bundle that does not hold exactly one global
    mask, from the masks it holds. *)
Variable GetCombinedMask : FlagCoverage -> list Mask2D -> Mask2D.
(** [StatisticalFlagger::DilateFlags], [SIROperator::OperateHorizontally]
    and [SIROperator::OperateVertically], as functions of the mask they
    rewrite. *)
Variable DilateFlags : nat -> nat -> Mask2D -> Mask2D.
Variable OperateHorizontally : double -> Mask2D -> Mask2D.
Variable OperateVertically : double -> Mask2D -> Mask2D.
(** [Perform] of [rfiStrategy::Strategy], the root of an action tree, on
    an artifact set passed by reference. *)
Variable Perform : Action -> ArtifactSet -> M ArtifactSet.

(** *** Images and masks *)

Definition CreateUnsetImagePtr (width height : nat) : M Image2DPtr :=
  p ← new_image {| image_width := width; image_height := height;
                   image_values := unset_values width height |};
  mret (Some p).

Definition CreateSetImagePtr (width height : nat) (initialValue : float) :
  M Image2DPtr :=
  p ← new_image {| image_width := width; image_height := height;
                   image_values := grid width height initialValue |};
  mret (Some p).

Definition CreateZeroImagePtr (width height : nat) : M Image2DPtr :=
  p ← new_image {| image_width := width; image_height := height;
                   image_values := grid width height 0%R |};
  mret (Some p).

Definition CreateSetMaskPtr (value : bool) (width height : nat) :
  M Mask2DPtr :=
  p ← new_mask {| mask_width := width; mask_height := height;
                  mask_values := grid width height value |};
  mret (Some p).

(** [Mask2D::CreateCopy], of a mask given by its contents. *)
Definition CreateCopy (source : Mask2D) : M Mask2DPtr :=
  p ← new_mask source;
  mret (Some p).

(** The masks behind a list of pointers, in order. *)
Fixpoint read_masks (ps : list Mask2DPtr) : M (list Mask2D) :=
  match ps with
  | [] => mret []
  | p :: ps' => k ← read_mask p; ks ← read_masks ps'; mret (k :: ks)
  end.

(** [TimeFrequencyData::GetSingleMask], as the contents of the mask it
    returns.  Modelled from the spec: with "one global mask" the single
    mask is that mask. *)
Definition GetSingleMask (d : TimeFrequencyData) : M Mask2D :=
  match _flagCoverage d, _flagging d with
  | GlobalFlagCoverage, [p] => read_mask p
  | c, ps => ks ← read_masks ps; mret (GetCombinedMask c ks)
  end.

(** *** [ImageSet] (aoflagger.cpp, lines 56-122) *)

(** Lines 88-92. *)
Definition assertValidCount (count : nat) : M unit :=
  if negb (count =? 1) && negb (count =? 2) && negb (count =? 4)
     && negb (count =? 8)
  then throw (runtime_error invalid_count_message)
  else mret tt.

(** [new ImageSetData(initialSize)] (lines 37-54): the constructor
    builds [images(initialSize)], a vector of [initialSize] null
    pointers, or throws when the vector cannot be built. *)
Definition new_ImageSetData (initialSize : nat) : M addr :=
  if max_size limits <? initialSize then throw length_error
  else if available limits <? initialSize then throw bad_alloc
  else
    new_object (Obj_ImageSetData {| images := replicate initialSize None |}).

(** [_data->images[i] = image]. *)
Definition set_image (data : addr) (i : nat) (image : Image2DPtr) : M unit :=
  d ← get_ImageSetData data;
  _ ← at_index (images d) i;
  write_object data (Obj_ImageSetData {| images := <[i := image]> (images d) |}).

(** Lines 56-62. *)
Definition ImageSet_new (width height count : nat) : M ImageSet :=
  _data ← new_ImageSetData count;
  assertValidCount count;;
  for_loop 0 count (fun i =>
    image ← CreateUnsetImagePtr width height;
    set_image _data i image);;
  mret {| ImageSet_data := _data |}.

(** Lines 64-70. *)
Definition ImageSet_new_set (width height count : nat)
  (initialValue : float) : M ImageSet :=
  _data ← new_ImageSetData count;
  assertValidCount count;;
  for_loop 0 count (fun i =>
    image ← CreateSetImagePtr width height initialValue;
    set_image _data i image);;
  mret {| ImageSet_data := _data |}.

(** Lines 72-75: a [new ImageSetData], copy-constructed from what
    [sourceImageSet._data] points to. *)
Definition ImageSet_copy (sourceImageSet : ImageSet) : M ImageSet :=
  source ← get_ImageSetData (ImageSet_data sourceImageSet);
  _data ← new_object (Obj_ImageSetData {| images := images source |});
  mret {| ImageSet_data := _data |}.

(** Lines 77-80. *)
Definition ImageSet_destroy (self : ImageSet) : M unit :=
  delete_object (ImageSet_data self).

(** Lines 82-86. *)
Definition ImageSet_assign (self sourceImageSet : ImageSet) : M unit :=
  source ← get_ImageSetData (ImageSet_data sourceImageSet);
  _ ← get_ImageSetData (ImageSet_data self);
  write_object (ImageSet_data self)
    (Obj_ImageSetData {| images := images source |}).

(** Lines 104-122. *)
Definition ImageSet_Width (self : ImageSet) : M nat :=
  d ← get_ImageSetData (ImageSet_data self);
  p ← at_index (images d) 0;
  i ← read_image p;
  mret (image_width i).

Definition ImageSet_Height (self : ImageSet) : M nat :=
  d ← get_ImageSetData (ImageSet_data self);
  p ← at_index (images d) 0;
  i ← read_image p;
  mret (image_height i).

Definition ImageSet_ImageCount (self : ImageSet) : M nat :=
  d ← get_ImageSetData (ImageSet_data self);
  mret (length (images d)).

(** [input._data->images[i]]. *)
Definition ImageSet_image (self : ImageSet) (i : nat) : M Image2DPtr :=
  d ← get_ImageSetData (ImageSet_data self);
  at_index (images d) i.

(** *** [Strategy] (aoflagger.cpp, lines 145-175) *)

(** Lines 145-153.  The constructor passes four arguments,
    [telescopeId], [strategyFlags], [timeRes] and [frequencyRes], to
    [CreateStrategy]; [defaultResolution] stands for the default of the
    fifth. *)
Definition Strategy_new (new : Constructors) (undeclared : UndeclaredFlags)
  (defaultResolution : double)
  (telescopeId : TelescopeId) (strategyFlags : Z)
  (frequency timeRes frequencyRes : double) : M Strategy :=
  _data ← new_object (Obj_StrategyData
    {| strategyPtr :=
         CreateStrategy new undeclared telescopeId strategyFlags
           timeRes frequencyRes defaultResolution |});
  mret {| Strategy_data := _data |}.

(** Lines 161-164: [_data(sourceStrategy._data)]. *)
Definition Strategy_copy (sourceStrategy : Strategy) : M Strategy :=
  mret {| Strategy_data := Strategy_data sourceStrategy |}.

(** Lines 166-169. *)
Definition Strategy_destroy (self : Strategy) : M unit :=
  delete_object (Strategy_data self).

(** Lines 171-175. *)
Definition Strategy_assign (self sourceStrategy : Strategy) : M unit :=
  source ← get_StrategyData (Strategy_data sourceStrategy);
  _ ← get_StrategyData (Strategy_data self);
  write_object (Strategy_data self)
    (Obj_StrategyData {| strategyPtr := strategyPtr source |}).

(** *** [FlagMask] (aoflagger.cpp, lines 197-235) *)

(** Line 197. *)
Definition FlagMask_new : FlagMask := {| FlagMask_data := None |}.

(** Lines 201-204: a [new FlagMaskData], copy-constructed from what
    [sourceMask._data] points to. *)
Definition FlagMask_copy (sourceMask : FlagMask) : M FlagMask :=
  match FlagMask_data sourceMask with
  | Some p =>
      source ← get_FlagMaskData p;
      _data ← new_object (Obj_FlagMaskData {| mask := mask source |});
      mret {| FlagMask_data := Some _data |}
  | None => undefined
  end.

(** Lines 206-210: deleting the null pointer does nothing. *)
Definition FlagMask_destroy (self : FlagMask) : M unit :=
  match FlagMask_data self with
  | Some p => delete_object p
  | None => mret tt
  end.

(** Lines 212-235; [Buffer] is the grid of flags the returned pointer
    gives access to. *)
Definition FlagMask_Width (self : FlagMask) : M nat :=
  match FlagMask_data self with
  | Some p => d ← get_FlagMaskData p; k ← read_mask (mask d);
              mret (mask_width k)
  | None => undefined
  end.

Definition FlagMask_Height (self : FlagMask) : M nat :=
  match FlagMask_data self with
  | Some p => d ← get_FlagMaskData p; k ← read_mask (mask d);
              mret (mask_height k)
  | None => undefined
  end.

Definition FlagMask_Buffer (self : FlagMask) : M (list (list bool)) :=
  match FlagMask_data self with
  | Some p => d ← get_FlagMaskData p; k ← read_mask (mask d);
              mret (mask_values k)
  | None => undefined
  end.

(** *** [QualityStatistics] (aoflagger.cpp, lines 270-278) *)

Definition QualityStatistics_copy (sourceQS : QualityStatistics) :
  M QualityStatistics :=
  source ← get_QualityStatisticsData (QualityStatistics_data sourceQS);
  _data ← new_object (Obj_QualityStatisticsData
                        {| _implementation := _implementation source |});
  mret {| QualityStatistics_data := _data |}.

Definition QualityStatistics_destroy (self : QualityStatistics) : M unit :=
  delete_object (QualityStatistics_data self).

(** *** [AOFlagger] (aoflagger.cpp, lines 301-376) *)

Definition MakeImageSet (width height count : nat) : M ImageSet :=
  ImageSet_new width height count.

Definition MakeImageSet_set (width height count : nat)
  (initialValue : float) : M ImageSet :=
  ImageSet_new_set width height count initialValue.

(** [ArtifactSet artifacts(&mutex)]. *)
Definition ArtifactSet_new : ArtifactSet :=
  {| _originalData := TimeFrequencyData_0;
     _contaminatedData := TimeFrequencyData_0;
     _revisedData := TimeFrequencyData_0 |}.

(** Lines 327-366: the mask, the zero image and the two bundles. *)
Definition Run_wrap (input : ImageSet) :
  M (TimeFrequencyData * TimeFrequencyData) :=
  width ← ImageSet_Width input;
  height ← ImageSet_Height input;
  mask ← CreateSetMaskPtr false width height;
  let inputData := TimeFrequencyData_0 in
  let revisedData := TimeFrequencyData_0 in
  width ← ImageSet_Width input;
  height ← ImageSet_Height input;
  zeroImage ← CreateZeroImagePtr width height;
  count ← ImageSet_ImageCount input;
  match count with
  | 1 =>
      i0 ← ImageSet_image input 0;
      let inputData :=
        TimeFrequencyData_1 AmplitudePart SinglePolarisation i0 in
      let inputData := SetGlobalMask mask inputData in
      let revisedData :=
        TimeFrequencyData_1 AmplitudePart SinglePolarisation zeroImage in
      let revisedData := SetGlobalMask mask revisedData in
      mret (inputData, revisedData)
  | 2 =>
      i0 ← ImageSet_image input 0;
      i1 ← ImageSet_image input 1;
      let inputData :=
        TimeFrequencyData_2 ComplexRepresentation SinglePolarisation i0 i1 in
      let inputData := SetGlobalMask mask inputData in
      let revisedData :=
        TimeFrequencyData_2 ComplexRepresentation SinglePolarisation
          zeroImage zeroImage in
      let revisedData := SetGlobalMask mask revisedData in
      mret (inputData, revisedData)
  | 4 =>
      i0 ← ImageSet_image input 0;
      i1 ← ImageSet_image input 1;
      i2 ← ImageSet_image input 2;
      i3 ← ImageSet_image input 3;
      let inputData :=
        TimeFrequencyData_4 AutoDipolePolarisation i0 i1 i2 i3 in
      let inputData := SetIndividualPolarisationMasks_2 mask mask inputData in
      let revisedData :=
        TimeFrequencyData_4 AutoDipolePolarisation
          zeroImage zeroImage zeroImage zeroImage in
      let revisedData :=
        SetIndividualPolarisationMasks_2 mask mask revisedData in
      mret (inputData, revisedData)
  | 8 =>
      i0 ← ImageSet_image input 0;
      i1 ← ImageSet_image input 1;
      i2 ← ImageSet_image input 2;
      i3 ← ImageSet_image input 3;
      i4 ← ImageSet_image input 4;
      i5 ← ImageSet_image input 5;
      i6 ← ImageSet_image input 6;
      i7 ← ImageSet_image input 7;
      let inputData := TimeFrequencyData_8 i0 i1 i2 i3 i4 i5 i6 i7 in
      let inputData :=
        SetIndividualPolarisationMasks_4 mask mask mask mask inputData in
      let revisedData :=
        TimeFrequencyData_8 zeroImage zeroImage zeroImage zeroImage
          zeroImage zeroImage zeroImage zeroImage in
      let revisedData :=
        SetIndividualPolarisationMasks_4 mask mask mask mask revisedData in
      mret (inputData, revisedData)
  | _ => mret (inputData, revisedData)
  end.

(** Lines 321-369: the artifact set as it is when the root action is
    invoked. *)
Definition Run_install (input : ImageSet) : M ArtifactSet :=
  let artifacts := ArtifactSet_new in
  '(inputData, revisedData) ← Run_wrap input;
  let artifacts := SetOriginalData inputData artifacts in
  let artifacts := SetContaminatedData inputData artifacts in
  let artifacts := SetRevisedData revisedData artifacts in
  mret artifacts.

(** Lines 373-375. *)
Definition Run_result (artifacts : ArtifactSet) : M FlagMask :=
  let flagMask := FlagMask_new in
  single ← GetSingleMask (ContaminatedData artifacts);
  copy ← CreateCopy single;
  _data ← new_object (Obj_FlagMaskData {| mask := copy |});
  mret {| FlagMask_data := Some _data |}.

(** [AOFlagger::Run], lines 321-376. *)
Definition Run (strategy : Strategy) (input : ImageSet) : M FlagMask :=
  artifacts ← Run_install input;
  data ← get_StrategyData (Strategy_data strategy);
  artifacts ← Perform (strategyPtr data) artifacts;
  Run_result artifacts.

(** ** [StatisticalFlagAction::Perform]
    (statisticalflagaction.cpp, lines 12-22) *)
Definition StatisticalFlagAction_Perform (self : StatisticalFlagAction)
  (artifacts : ArtifactSet) : M ArtifactSet :=
  let data := ContaminatedData artifacts in
  single ← GetSingleMask data;
  mask ← CreateCopy single;
  update_mask mask
    (DilateFlags (_enlargeTimeSize self) (_enlargeFrequencySize self));;
  update_mask mask (OperateHorizontally (_minimumGoodTimeRatio self));;
  update_mask mask (OperateVertically (_minimumGoodFrequencyRatio self));;
  let data := SetGlobalMask mask data in
  mret (SetContaminatedData data artifacts).

End Facade.

(** ** Notions the properties are stated with *)

(** The counts [assertValidCount] accepts. *)
Definition valid_count (count : nat) : Prop :=
  count = 1 \/ count = 2 \/ count = 4 \/ count = 8.

(** An image set as the constructors leave it: [_data] points to a
    vector [L] of 1, 2, 4 or 8 images, all allocated and of one size. *)
Definition valid_ImageSet (m : Memory) (input : ImageSet)
  (L : list Image2DPtr) (width height : nat) : Prop :=
  mem_objects m !! ImageSet_data input =
    Some (Obj_ImageSetData {| images := L |}) /\
  valid_count (length L) /\
  forall (i : nat) (q : Image2DPtr), L !! i = Some q ->
    exists (p : addr) (I : Image2D),
      q = Some p /\ mem_images m !! p = Some I /\
      image_width I = width /\ image_height I = height.

(** The layout of the spec's section 6, by number of images. *)
Definition layout_kind (count : nat) : Kind :=
  match count with
  | 1 => Amplitude
  | 2 => Complex
  | 4 => Dipole2Pol
  | _ => Dipole4Pol
  end.
Definition layout_phase (count : nat) : PhaseRepresentation :=
  match count with 1 => AmplitudePart | _ => ComplexRepresentation end.
Definition layout_polarisation (count : nat) : PolarisationType :=
  match count with
  | 1 | 2 => SinglePolarisation
  | 4 => AutoDipolePolarisation
  | _ => DipolePolarisation
  end.
Definition layout_coverage (count : nat) : FlagCoverage :=
  match count with
  | 1 | 2 => GlobalFlagCoverage
  | _ => IndividualPolarisationFlagCoverage
  end.
(** One global mask, or one mask for every two images. *)
Definition layout_masks (count : nat) : nat :=
  match count with 1 | 2 => 1 | _ => count / 2 end.

Definition layout (images : list Image2DPtr) (count : nat) (k : Mask2DPtr) :
  TimeFrequencyData :=
  {| _phaseRepresentation := layout_phase count;
     _polarisationType := layout_polarisation count;
     _flagCoverage := layout_coverage count;
     _images := images;
     _flagging := replicate (layout_masks count) k |}.

(** What the image and mask handles of a bundle point to. *)
Definition image_contents (m : Memory) (d : TimeFrequencyData) :
  list (option Image2D) :=
  map (fun p : Image2DPtr => p ≫= fun a => mem_images m !! a) (_images d).
Definition mask_contents (m : Memory) (d : TimeFrequencyData) :
  list (option Mask2D) :=
  map (fun p : Mask2DPtr => p ≫= fun a => mem_masks m !! a) (_flagging d).

(** Every handle of the bundle points to an allocated image or mask. *)
Definition allocated (m : Memory) (d : TimeFrequencyData) : Prop :=
  Forall is_Some (image_contents m d) /\ Forall is_Some (mask_contents m d).

(** What the spec asks of [Perform], "any action may read original,
    mutate contaminated (image and/or mask) and revised", the original
    being "never mutated": an effect on an artifact set that leaves the
    original slot, and the images and masks it refers to, as they
    are. *)
Definition keeps_original (perform : ArtifactSet -> M ArtifactSet) : Prop :=
  forall (A A' : ArtifactSet) (m m' : Memory),
    allocated m (OriginalData A) ->
    perform A m = Returns A' m' ->
    OriginalData A' = OriginalData A /\
    image_contents m' (OriginalData A) = image_contents m (OriginalData A) /\
    mask_contents m' (OriginalData A) = mask_contents m (OriginalData A).

(** A block runs its children in order, an iteration block does so
    [n] times. *)
Definition sequence (f g : ArtifactSet -> M ArtifactSet) :
  ArtifactSet -> M ArtifactSet :=
  fun A => A' ← f A; g A'.
Fixpoint iterate (n : nat) (f : ArtifactSet -> M ArtifactSet) :
  ArtifactSet -> M ArtifactSet :=
  match n with
  | O => mret
  | S n' => sequence f (iterate n' f)
  end.

(** The memory when [Run] invokes the root action: the all-false mask
    and the zero image have been added. *)
Definition Run_memory (m : Memory) (width height : nat) : Memory :=
  {| mem_images :=
       <[fresh (dom (mem_images m)) :=
           {| image_width := width; image_height := height;
              image_values := grid width height 0%R |}]> (mem_images m);
     mem_masks :=
       <[fresh (dom (mem_masks m)) :=
           {| mask_width := width; mask_height := height;
              mask_values := grid width height false |}]> (mem_masks m);
     mem_objects := mem_objects m |}.

(** [new] is a wrapper newly allocated in [m'], holding [o], and apart
    from the wrapper at [old]. *)
Definition fresh_wrapper (m m' : Memory) (old new : addr) (o : Object) :
  Prop :=
  mem_objects m !! new = None /\ new <> old /\
  mem_objects m' = <[new := o]> (mem_objects m).

(** ** Sample parameters

    Concrete values for the parameters above, used by the worked
    examples that close the development. *)

Definition sample_constructors : Constructors :=
  {| SetFlaggingAction_new := {| _newFlagging := FlaggingNone |};
     ForEachComplexComponentAction_new :=
       {| _onAmplitude := false; _onPhase := false; _onReal := true;
          _onImaginary := true; _restoreFromAmplitude := false |};
     IterationBlock_new :=
       {| _iterationCount := 4; _sensitivityStart := 10%R |};
     SumThresholdAction_new :=
       {| _baseSensitivity := 1%R; _frequencyDirectionFlagging := true |};
     ChangeResolutionAction_new :=
       {| _timeDecreaseFactor := 10; _frequencyDecreaseFactor := 1 |};
     HighPassFilterAction_new :=
       {| _windowWidth := 22; _windowHeight := 45;
          _hKernelSigmaSq := 7.5%R; _vKernelSigmaSq := 15%R;
          _mode := StoreRevised |};
     PlotAction_new := {| _plotKind := FrequencyFlagCountPlot |};
     StatisticalFlagAction_new :=
       {| _enlargeTimeSize := 0; _enlargeFrequencySize := 0;
          _minimumGoodTimeRatio := 0.2%R;
          _minimumGoodFrequencyRatio := 0.2%R |};
     BaselineSelectionAction_new := {| _preparationStep := false |} |}.

Definition sample_undeclared : UndeclaredFlags :=
  {| LARGE_BANDWIDTH := 0x400; SMALL_BANDWIDTH := 0x800;
     AUTO_CORRELATION := 0x1000 |}.

(** A vector of at most 1000 entries, with storage for 100. *)
Definition sample_limits : VectorLimits :=
  {| max_size := 1000; available := 100;
     max_size_at_least := proj1 (Nat.leb_le 8 1000) eq_refl;
     available_at_least := proj1 (Nat.leb_le 8 100) eq_refl |}.

Definition sample_unset_values (width height : nat) : list (list float) :=
  grid width height 1%R.

Definition sample_TimeFrequencyData_0 : TimeFrequencyData :=
  {| _phaseRepresentation := AmplitudePart;
     _polarisationType := SinglePolarisation;
     _flagCoverage := NoFlagCoverage; _images := []; _flagging := [] |}.

Definition mask_or (a b : Mask2D) : Mask2D :=
  {| mask_width := mask_width a; mask_height := mask_height a;
     mask_values := zip_with (zip_with orb) (mask_values a) (mask_values b) |}.

Definition sample_GetCombinedMask (c : FlagCoverage) (ks : list Mask2D) :
  Mask2D :=
  match ks with
  | [] => {| mask_width := 0; mask_height := 0; mask_values := [] |}
  | k :: ks' => foldl mask_or k ks'
  end.

(** Three rewritings of a mask that do not commute: flag the first
    sample of every channel, flag nothing but what the first channel
    has flagged, and invert the flags. *)
Definition sample_DilateFlags (dt df : nat) (k : Mask2D) : Mask2D :=
  {| mask_width := mask_width k; mask_height := mask_height k;
     mask_values := map (fun row : list bool => <[0 := true]> row) (mask_values k) |}.

Definition sample_OperateHorizontally (eta : double) (k : Mask2D) : Mask2D :=
  {| mask_width := mask_width k; mask_height := mask_height k;
     mask_values :=
       replicate (length (mask_values k)) (default [] (head (mask_values k))) |}.

Definition sample_OperateVertically (eta : double) (k : Mask2D) : Mask2D :=
  {| mask_width := mask_width k; mask_height := mask_height k;
     mask_values := map (map negb) (mask_values k) |}.

(** A sample [Perform]: the actions of the tree in depth-first order,
    where the statistical flag action is the one of the sources and
    every other action does nothing. *)
Definition sample_action (a : Action) : ArtifactSet -> M ArtifactSet :=
  match a with
  | Action_StatisticalFlag self =>
      StatisticalFlagAction_Perform sample_GetCombinedMask sample_DilateFlags
        sample_OperateHorizontally sample_OperateVertically self
  | _ => mret
  end.

Definition sample_Perform (a : Action) : ArtifactSet -> M ArtifactSet :=
  fold_right (fun c k => sequence (sample_action c) k) mret (subactions a).

(** A sample memory: one image set of one 2 x 1 image, one strategy, one
    flag mask and one statistics object. *)
Definition sample_image : Image2D :=
  {| image_width := 2; image_height := 1; image_values := [[3%R; 4%R]] |}.

Definition sample_tree : Action :=
  CreateStrategy sample_constructors sample_undeclared LOFAR_TELESCOPE
    StrategyFlags.NONE 0%R 0%R 0%R.

Definition sample_memory : Memory :=
  {| mem_images := {[ 1%positive := sample_image ]};
     mem_masks :=
       {[ 1%positive := {| mask_width := 2; mask_height := 1;
                           mask_values := [[false; true]] |} ]};
     mem_objects :=
       <[ 1%positive := Obj_ImageSetData {| images := [Some 1%positive] |} ]>
       (<[ 2%positive := Obj_StrategyData {| strategyPtr := sample_tree |} ]>
       (<[ 3%positive := Obj_FlagMaskData {| mask := Some 1%positive |} ]>
       (<[ 4%positive :=
             Obj_QualityStatisticsData {| _implementation := 1%positive |} ]>
        ∅))) |}.

Definition sample_artifacts : ArtifactSet :=
  {| _originalData := layout [Some 1%positive] 1 (Some 1%positive);
     _contaminatedData := layout [Some 1%positive] 1 (Some 1%positive);
     _revisedData := layout [Some 1%positive] 1 (Some 1%positive) |}.

Definition sample_input : ImageSet := {| ImageSet_data := 1%positive |}.
Definition sample_strategy : Strategy := {| Strategy_data := 2%positive |}.
Definition sample_statistics : QualityStatistics :=
  {| QualityStatistics_data := 4%positive |}.

(** ** More of the builder and of the facade

    What follows models the parts of the three sources that the
    definitions above leave out: the kinds of action the builder's
    remaining statements add, [AOFlagger::MakeStrategy],
    [ImageSet::ImageBuffer] and the quality statistics. *)

Definition is_TimeSelection (a : Action) : bool :=
  match a with Action_TimeSelection => true | _ => false end.
Definition is_FrequencySelection (a : Action) : bool :=
  match a with Action_FrequencySelection => true | _ => false end.
Definition is_SetImage (a : Action) : bool :=
  match a with Action_SetImage => true | _ => false end.
Definition is_HighPassFilter (a : Action) : bool :=
  match a with Action_HighPassFilter _ => true | _ => false end.
Definition is_ChangeResolution (a : Action) : bool :=
  match a with Action_ChangeResolution _ _ => true | _ => false end.

(** [AOFlagger::MakeStrategy] (aoflagger.cpp, lines 311-314). *)
Definition MakeStrategy := Strategy_new.

(** [ImageSet::ImageBuffer] (aoflagger.cpp, lines 94-102): the buffer of
    an image is identified by the address of the image. *)
Definition ImageSet_ImageBuffer (self : ImageSet) (imageIndex : nat) :
  M addr :=
  d ← get_ImageSetData (ImageSet_data self);
  p ← at_index (images d) imageIndex;
  match p with
  | Some a => _ ← read_image p; mret a
  | None => undefined
  end.

(** The outcome of constructing, in [m], an image set of [count]
    images: a new wrapper, and [count] new, distinct images, each with
    the contents [I]; nothing else changes. *)
Definition constructed (m : Memory) (count : nat) (I : Image2D)
  (r : outcome ImageSet) : Prop :=
  exists ps : list addr,
    length ps = count /\ NoDup ps /\
    (forall p, p ∈ ps -> mem_images m !! p = None) /\
    mem_objects m !! fresh (dom (mem_objects m)) = None /\
    r = Returns {| ImageSet_data := fresh (dom (mem_objects m)) |}
          {| mem_images :=
               list_to_map ((fun p => (p, I)) <$> ps) ∪ mem_images m;
             mem_masks := mem_masks m;
             mem_objects :=
               <[fresh (dom (mem_objects m)) :=
                   Obj_ImageSetData {| images := Some <$> ps |}]>
                 (mem_objects m) |}.

(** ** Quality statistics (aoflagger.cpp, lines 238-290 and 378-414)

    [StatisticsCollection] ([quality/statisticscollection.h]) and the
    strides of images and masks are not part of the sources: the type,
    its constructor and the three of its methods the facade calls are
    parameters.  The implementation objects, shared between the copies
    of a [QualityStatistics], live in a store of their own, passed
    explicitly. *)

(** The arguments of one call of the thirteen-argument
    [StatisticsCollection::Add]; a pointer into a buffer is the address
    of the image or mask and an offset. *)
Record Sample := {
  sample_antenna1 : nat;
  sample_antenna2 : nat;
  sample_time : double;
  sample_band : nat;
  sample_polarization : nat;
  sample_reals : addr * nat;
  sample_imags : addr * nat;
  sample_isRFI : addr * nat;
  sample_origFlags : addr * nat;
  sample_nsamples : nat;
  sample_step : nat;
  sample_stepRFI : nat;
  sample_stepFlags : nat
}.

(** [for(size_t i = start; i != start + n; ++i) state = body(i, state)]. *)
Fixpoint for_loop_with {State : Type} (start n : nat)
  (body : nat -> State -> M State) (state : State) : M State :=
  match n with
  | O => mret state
  | S n' => state' ← body start state; for_loop_with (S start) n' body state'
  end.

(** The memory as it is, for a callee that reads buffers through the
    pointers it is given. *)
Definition current_memory : M Memory := fun m => Returns m m.

(** The address [FlagMask::Buffer] points into (lines 227-235). *)
Definition FlagMask_BufferAddress (self : FlagMask) : M addr :=
  match FlagMask_data self with
  | Some p =>
      d ← get_FlagMaskData p;
      match mask d with
      | Some a => _ ← read_mask (mask d); mret a
      | None => undefined
      end
  | None => undefined
  end.

Section Statistics.

Variable StatisticsCollection : Type.
(** [StatisticsCollection(nPolarizations)]. *)
Variable StatisticsCollection_new : nat -> StatisticsCollection.
(** [InitializeBand(band, frequencies, nChannels)], the array and its
    length given as a list. *)
Variable InitializeBand :
  nat -> list double -> StatisticsCollection -> StatisticsCollection.
(** The thirteen-argument [Add], which reads the buffers its pointers
    refer to. *)
Variable Add_sample :
  Memory -> Sample -> StatisticsCollection -> StatisticsCollection.
(** [Add(const StatisticsCollection&)]. *)
Variable Add_collection :
  StatisticsCollection -> StatisticsCollection -> StatisticsCollection.
(** [Image2D::Stride] and [Mask2D::Stride]. *)
Variable Image2D_Stride : Image2D -> nat.
Variable Mask2D_Stride : Mask2D -> nat.

(** Lines 238-248. *)
Record QualityStatisticsDataImp := {
  scanTimes : list double;
  statistics : StatisticsCollection
}.

Definition with_statistics (s : StatisticsCollection)
  (i : QualityStatisticsDataImp) : QualityStatisticsDataImp :=
  {| scanTimes := scanTimes i; statistics := s |}.

(** An access through [_data->_implementation]. *)
Definition get_implementation (imps : gmap addr QualityStatisticsDataImp)
  (self : QualityStatistics) : M (addr * QualityStatisticsDataImp) :=
  d ← get_QualityStatisticsData (QualityStatistics_data self);
  match imps !! _implementation d with
  | Some i => mret (_implementation d, i)
  | None => undefined
  end.

(** Lines 264-268; the two arrays and their lengths are given as
    lists. *)
Definition QualityStatistics_new (scanTimes channelFrequencies : list double)
  (nPolarizations : nat) (imps : gmap addr QualityStatisticsDataImp) :
  M (QualityStatistics * gmap addr QualityStatisticsDataImp) :=
  let implementation := fresh (dom imps) in
  let imps :=
    <[implementation :=
        {| scanTimes := scanTimes;
           statistics := StatisticsCollection_new nPolarizations |}]> imps in
  _data ← new_object
            (Obj_QualityStatisticsData {| _implementation := implementation |});
  let self := {| QualityStatistics_data := _data |} in
  '(a, i) ← get_implementation imps self;
  mret (self,
        <[a := with_statistics
                 (InitializeBand 0 channelFrequencies (statistics i)) i]>
          imps).

(** Lines 280-284. *)
Definition QualityStatistics_assign (self sourceQS : QualityStatistics) :
  M unit :=
  source ← get_QualityStatisticsData (QualityStatistics_data sourceQS);
  _ ← get_QualityStatisticsData (QualityStatistics_data self);
  write_object (QualityStatistics_data self)
    (Obj_QualityStatisticsData
       {| _implementation := _implementation source |}).

(** Lines 286-290. *)
Definition QualityStatistics_add (self rhs : QualityStatistics)
  (imps : gmap addr QualityStatisticsDataImp) :
  M (gmap addr QualityStatisticsDataImp) :=
  '(a, i) ← get_implementation imps self;
  '(_, r) ← get_implementation imps rhs;
  mret (<[a := with_statistics
                 (Add_collection (statistics i) (statistics r)) i]> imps).

(** Lines 119-122 and 222-225. *)
Definition ImageSet_HorizontalStride (self : ImageSet) : M nat :=
  d ← get_ImageSetData (ImageSet_data self);
  p ← at_index (images d) 0;
  i ← read_image p;
  mret (Image2D_Stride i).

Definition FlagMask_HorizontalStride (self : FlagMask) : M nat :=
  match FlagMask_data self with
  | Some p => d ← get_FlagMaskData p; k ← read_mask (mask d);
              mret (Mask2D_Stride k)
  | None => undefined
  end.

(** [AOFlagger::MakeQualityStatistics], lines 378-381. *)
Definition MakeQualityStatistics := QualityStatistics_new.

(** One call [stats.Add(antenna1, antenna2, times[t], 0, polarization,
    imageSet.ImageBuffer(real) + t, imageSet.ImageBuffer(imag) + t,
    rfiFlags.Buffer() + t, correlatorFlags.Buffer() + t, nChannels,
    imageStride, maskStride, maskStride)] of lines 395-398 and
    407-410. *)
Definition collect_time_step (times : list double) (imageSet : ImageSet)
  (rfiFlags correlatorFlags : FlagMask) (antenna1 antenna2 : nat)
  (nChannels imageStride maskStride : nat) (polarization real imag : nat)
  (t : nat) (stats : StatisticsCollection) : M StatisticsCollection :=
  time ← at_index times t;
  reals ← ImageSet_ImageBuffer imageSet real;
  imags ← ImageSet_ImageBuffer imageSet imag;
  isRFI ← FlagMask_BufferAddress rfiFlags;
  origFlags ← FlagMask_BufferAddress correlatorFlags;
  m ← current_memory;
  mret
      (Add_sample m
         {| sample_antenna1 := antenna1; sample_antenna2 := antenna2;
            sample_time := time; sample_band := 0;
            sample_polarization := polarization;
            sample_reals := (reals, t); sample_imags := (imags, t);
            sample_isRFI := (isRFI, t); sample_origFlags := (origFlags, t);
            sample_nsamples := nChannels; sample_step := imageStride;
            sample_stepRFI := maskStride; sample_stepFlags := maskStride |}
         stats).

(** [AOFlagger::CollectStatistics], lines 383-414.  The bound
    [imageSet.Width()] of the loops over [t] is read once for each loop:
    no statement of the loops writes what it reads. *)
Definition CollectStatistics (destination : QualityStatistics)
  (imageSet : ImageSet) (rfiFlags correlatorFlags : FlagMask)
  (antenna1 antenna2 : nat) (imps : gmap addr QualityStatisticsDataImp) :
  M (gmap addr QualityStatisticsDataImp) :=
  nChannels ← ImageSet_Height imageSet;
  imageStride ← ImageSet_HorizontalStride imageSet;
  maskStride ← FlagMask_HorizontalStride rfiFlags;
  '(a, i) ← get_implementation imps destination;
  let stats := statistics i in
  let times := scanTimes i in
  count ← ImageSet_ImageCount imageSet;
  stats ←
    (if count =? 1 then
       width ← ImageSet_Width imageSet;
       for_loop_with 0 width
         (collect_time_step times imageSet rfiFlags correlatorFlags
            antenna1 antenna2 nChannels imageStride maskStride 0 0 0)
         stats
     else
       let polarizationCount := count / 2 in
       for_loop_with 0 polarizationCount
         (fun polarization stats =>
            width ← ImageSet_Width imageSet;
            for_loop_with 0 width
              (collect_time_step times imageSet rfiFlags correlatorFlags
                 antenna1 antenna2 nChannels imageStride maskStride
                 polarization (polarization * 2) (polarization * 2 + 1))
              stats)
         stats);
  mret (<[a := with_statistics stats i]> imps).

End Statistics.

(** The calls of [Add] one [CollectStatistics] makes, in order: for an
    image set of one image, one call for each time step, with the image
    as both the real and the imaginary buffer; otherwise, for each pair
    of images, one call for each time step. *)
Definition expected_sample (times : list double) (images : list addr)
  (isRFI origFlags : addr) (antenna1 antenna2 : nat)
  (nChannels imageStride maskStride : nat) (polarization real imag t : nat) :
  Sample :=
  {| sample_antenna1 := antenna1; sample_antenna2 := antenna2;
     sample_time := default (0%R : double) (times !! t); sample_band := 0;
     sample_polarization := polarization;
     sample_reals := (images !!! real, t);
     sample_imags := (images !!! imag, t);
     sample_isRFI := (isRFI, t); sample_origFlags := (origFlags, t);
     sample_nsamples := nChannels; sample_step := imageStride;
     sample_stepRFI := maskStride; sample_stepFlags := maskStride |}.

Definition expected_samples (times : list double) (images : list addr)
  (isRFI origFlags : addr) (antenna1 antenna2 : nat)
  (nChannels imageStride maskStride width : nat) : list Sample :=
  if length images =? 1 then
    map (expected_sample times images isRFI origFlags antenna1 antenna2
           nChannels imageStride maskStride 0 0 0) (seq 0 width)
  else
    flat_map
      (fun polarization =>
         map (expected_sample times images isRFI origFlags antenna1 antenna2
                nChannels imageStride maskStride polarization
                (polarization * 2) (polarization * 2 + 1)) (seq 0 width))
      (seq 0 (length images / 2)).

(** Sample parameters for the statistics: a collection is the list of
    the samples added to it, and the stride of an image or mask is its
    width. *)
Definition sample_Add_sample (m : Memory) (x : Sample) (s : list Sample) :
  list Sample := s ++ [x].

Definition sample_implementations :
  gmap addr (QualityStatisticsDataImp (list Sample)) :=
  <[ 1%positive := {| scanTimes := [10%R; 20%R]; statistics := [] |} ]>
  (<[ 2%positive := {| scanTimes := [30%R]; statistics := [] |} ]> ∅).

(** The sample memory with a second statistics object. *)
Definition sample_memory_2 : Memory :=
  {| mem_images := mem_images sample_memory;
     mem_masks := mem_masks sample_memory;
     mem_objects :=
       <[ 5%positive :=
            Obj_QualityStatisticsData {| _implementation := 2%positive |} ]>
         (mem_objects sample_memory) |}.

(** A [Perform] under which no action does anything. *)
Definition sample_idle_Perform (a : Action) : ArtifactSet -> M ArtifactSet :=
  mret.

(** ** [Perform] of the action classes

    Of the action classes only [StatisticalFlagAction] is part of the
    sources.  What follows models the others from the spec. *)

(** The contents of a bundle, by value. *)
Record Contents := {
  contents_phase : PhaseRepresentation;
  contents_polarisation : PolarisationType;
  contents_coverage : FlagCoverage;
  contents_images : list Image2D;
  contents_masks : list Mask2D
}.

(** What one action writes: new contents for the contaminated slot, for
    the revised slot, for both or for neither. *)
Record Writes := {
  to_contaminated : option Contents;
  to_revised : option Contents
}.

(** What a bundle holds in [m]; a handle that points nowhere
    contributes nothing. *)
Definition contents_of (m : Memory) (d : TimeFrequencyData) : Contents :=
  {| contents_phase := _phaseRepresentation d;
     contents_polarisation := _polarisationType d;
     contents_coverage := _flagCoverage d;
     contents_images :=
       omap (fun i : option Image2D => i) (image_contents m d);
     contents_masks :=
       omap (fun k : option Mask2D => k) (mask_contents m d) |}.

Fixpoint new_images (contents : list Image2D) : M (list Image2DPtr) :=
  match contents with
  | [] => mret []
  | i :: contents' =>
      p ← new_image i; ps ← new_images contents'; mret (Some p :: ps)
  end.

Fixpoint new_masks (contents : list Mask2D) : M (list Mask2DPtr) :=
  match contents with
  | [] => mret []
  | k :: contents' =>
      p ← new_mask k; ps ← new_masks contents'; mret (Some p :: ps)
  end.

(** Modelled from the spec: a write to a bundle.  "Image buffers are
    reference-counted; copies share storage until written" (section 5):
    the bundle written gets buffers of its own, and the buffers it
    shared until then are left to the bundles that still refer to them.
    [StatisticalFlagAction::Perform] of the sources writes the mask in
    this way: [Mask2D::CreateCopy], then [SetGlobalMask]. *)
Definition store (c : Contents) : M TimeFrequencyData :=
  images ← new_images (contents_images c);
  masks ← new_masks (contents_masks c);
  mret {| _phaseRepresentation := contents_phase c;
          _polarisationType := contents_polarisation c;
          _flagCoverage := contents_coverage c;
          _images := images; _flagging := masks |}.

(** Modelled from the spec: the effect of an action on the artifact set
    it is given.  "Any action may read original, mutate contaminated
    (image and/or mask) and revised" (section 4.G). *)
Definition write (w : Writes) (A : ArtifactSet) : M ArtifactSet :=
  A1 ← match to_contaminated w with
       | Some c => d ← store c; mret (SetContaminatedData d A)
       | None => mret A
       end;
  match to_revised w with
  | Some c => d ← store c; mret (SetRevisedData d A1)
  | None => mret A1
  end.

(** "Each action's Perform is total: it either modifies the artifact and
    returns, or reports a fatal error" (section 4.H). *)
Definition act (r : exception + Writes) (A : ArtifactSet) : M ArtifactSet :=
  match r with
  | inl e => throw e
  | inr w => write w A
  end.

(** The rounds [start .. start + n - 1] of a block that runs its
    children more than once. *)
Fixpoint in_rounds (start n : nat)
  (body : nat -> ArtifactSet -> M ArtifactSet) :
  ArtifactSet -> M ArtifactSet :=
  match n with
  | O => mret
  | S n' => sequence (body start) (in_rounds (S start) n' body)
  end.

(** Where an action runs: the blocks around it, the innermost first,
    each with the round it is in. *)
Definition Position := list (Action * nat).

Section Actions.

Variable GetCombinedMask : FlagCoverage -> list Mask2D -> Mask2D.
Variable DilateFlags : nat -> nat -> Mask2D -> Mask2D.
Variable OperateHorizontally : double -> Mask2D -> Mask2D.
Variable OperateVertically : double -> Mask2D -> Mask2D.

(** The algorithms of the action classes that are not part of the
    sources: what an action without children computes from its
    position, its members and what it reads; how many rounds a block
    over polarisations or complex components makes; what such a block,
    and a block that works on scratch data, exposes to its children as
    "the active data"; and what it makes of their results. *)
Variable computes :
  Position -> Action -> Memory -> ArtifactSet -> exception + Writes.
Variable rounds : Action -> Memory -> ArtifactSet -> nat.
Variable exposes :
  Position -> Action -> Memory -> ArtifactSet ->
  Contents * Contents * Contents.
Variable merges :
  Position -> Action -> Memory -> ArtifactSet -> ArtifactSet ->
  exception + Writes.

(** Modelled from the spec: [Perform] of an action without children
    whose class is not part of the sources (SetImage, SetFlagging,
    SumThreshold, HighPassFilter and the like). *)
Definition Perform_leaf (position : Position) (a : Action) :
  ArtifactSet -> M ArtifactSet :=
  fun A => m ← current_memory; act (computes position a m A) A.

(** Modelled from the spec: one round of a block whose children work on
    data of their own: "exposing that pair as the active data"
    (ForEachPolarisationBlock), "temporarily downsample, run children,
    upsample results" (ChangeResolution), "execute children in order on
    a scratch mask and OR into the contaminated mask"
    (CombineFlagResults).  The children get an artifact set of their
    own; the block then writes to the one it was given. *)
Definition Perform_exposed (position : Position) (a : Action)
  (children : ArtifactSet -> M ArtifactSet) : ArtifactSet -> M ArtifactSet :=
  fun A =>
    m ← current_memory;
    original ← store (exposes position a m A).1.1;
    contaminated ← store (exposes position a m A).1.2;
    revised ← store (exposes position a m A).2;
    child ← children {| _originalData := original;
                        _contaminatedData := contaminated;
                        _revisedData := revised |};
    m' ← current_memory;
    act (merges position a m' A child) A.

(** Modelled from the spec: [Perform] of the action classes, none of
    which but [StatisticalFlagAction] is part of the sources.  "A block
    action owns an ordered sequence of child actions"; "within a single
    Run, actions execute strictly in tree order (depth-first,
    left-to-right)"; IterationBlock "runs children N times";
    ForEachPolarisationBlock "iterates children once per polarization
    pair"; ForEachComplexComponentBlock "iterates over amplitude, phase,
    real, imaginary according to flags". *)
Fixpoint Action_Perform (position : Position) (a : Action) {struct a} :
  ArtifactSet -> M ArtifactSet :=
  match a with
  | Action_Strategy cs
  | Action_ForEachBaseline cs =>
      fold_right
        (fun c k => sequence (Action_Perform ((a, 0) :: position) c) k)
        mret cs
  | Action_IterationBlock self cs =>
      in_rounds 0 (Z.to_nat (_iterationCount self))
        (fun i =>
           fold_right
             (fun c k => sequence (Action_Perform ((a, i) :: position) c) k)
             mret cs)
  | Action_ForEachPolarisationBlock cs
  | Action_ForEachComplexComponent _ cs =>
      fun A =>
        m ← current_memory;
        in_rounds 0 (rounds a m A)
          (fun i =>
             Perform_exposed ((a, i) :: position) a
               (fold_right
                  (fun c k =>
                     sequence (Action_Perform ((a, i) :: position) c) k)
                  mret cs))
          A
  | Action_CombineFlagResults cs
  | Action_ChangeResolution _ cs =>
      Perform_exposed ((a, 0) :: position) a
        (fold_right
           (fun c k => sequence (Action_Perform ((a, 0) :: position) c) k)
           mret cs)
  | Action_StatisticalFlag self =>
      StatisticalFlagAction_Perform GetCombinedMask DilateFlags
        OperateHorizontally OperateVertically self
  | _ => Perform_leaf position a
  end.

End Actions.

(** Every image and mask of [m] is, unchanged, an image or mask of
    [m']. *)
Definition extends (m m' : Memory) : Prop :=
  mem_images m ⊆ mem_images m' /\ mem_masks m ⊆ mem_masks m'.

(** An effect on an artifact set that leaves the original slot as it
    is and writes to no image or mask that exists. *)
Definition grows (perform : ArtifactSet -> M ArtifactSet) : Prop :=
  forall (A A' : ArtifactSet) (m m' : Memory),
    perform A m = Returns A' m' ->
    OriginalData A' = OriginalData A /\ extends m m'.

(** Sample algorithms for the modelled actions: SumThreshold and
    TimeSelection flag every sample, SetImage overwrites the images of
    the contaminated slot with those of the revised slot, HighPassFilter
    writes the images of the contaminated slot to the revised slot, and
    the other actions without children write nothing; a block that
    exposes data makes one round, exposes all of it and writes back what
    its children leave in their contaminated and revised slots. *)
Definition flag_all (c : Contents) : Contents :=
  {| contents_phase := contents_phase c;
     contents_polarisation := contents_polarisation c;
     contents_coverage := contents_coverage c;
     contents_images := contents_images c;
     contents_masks :=
       map (fun k : Mask2D =>
              {| mask_width := mask_width k; mask_height := mask_height k;
                 mask_values :=
                   map (map (fun _ : bool => true)) (mask_values k) |})
         (contents_masks c) |}.

Definition with_images_of (source c : Contents) : Contents :=
  {| contents_phase := contents_phase c;
     contents_polarisation := contents_polarisation c;
     contents_coverage := contents_coverage c;
     contents_images := contents_images source;
     contents_masks := contents_masks c |}.

Definition sample_computes (position : Position) (a : Action) (m : Memory)
  (A : ArtifactSet) : exception + Writes :=
  match a with
  | Action_SumThreshold _ | Action_TimeSelection =>
      inr {| to_contaminated :=
               Some (flag_all (contents_of m (ContaminatedData A)));
             to_revised := None |}
  | Action_SetImage =>
      inr {| to_contaminated :=
               Some (with_images_of (contents_of m (RevisedData A))
                       (contents_of m (ContaminatedData A)));
             to_revised := None |}
  | Action_HighPassFilter _ =>
      inr {| to_contaminated := None;
             to_revised :=
               Some (with_images_of (contents_of m (ContaminatedData A))
                       (contents_of m (RevisedData A))) |}
  | _ => inr {| to_contaminated := None; to_revised := None |}
  end.

Definition sample_rounds (a : Action) (m : Memory) (A : ArtifactSet) : nat :=
  1.

Definition sample_exposes (position : Position) (a : Action) (m : Memory)
  (A : ArtifactSet) : Contents * Contents * Contents :=
  (contents_of m (OriginalData A), contents_of m (ContaminatedData A),
   contents_of m (RevisedData A)).

Definition sample_merges (position : Position) (a : Action) (m : Memory)
  (A child : ArtifactSet) : exception + Writes :=
  inr {| to_contaminated := Some (contents_of m (ContaminatedData child));
         to_revised := Some (contents_of m (RevisedData child)) |}.

Definition sample_Action_Perform : Action -> ArtifactSet -> M ArtifactSet :=
  Action_Perform sample_GetCombinedMask sample_DilateFlags
    sample_OperateHorizontally sample_OperateVertically sample_computes
    sample_rounds sample_exposes sample_merges [].

(** A larger sample memory: beside what the two above hold, a second
    image set, of two 3 x 1 images, a second strategy, a second mask and
    a third statistics object. *)
Definition sample_wide_image (v : float) : Image2D :=
  {| image_width := 3; image_height := 1; image_values := [[v; v; v]] |}.

Definition sample_tree_2 : Action :=
  CreateStrategy sample_constructors sample_undeclared MWA_TELESCOPE
    StrategyFlags.TRANSIENTS 0%R 0%R 0%R.

Definition sample_memory_3 : Memory :=
  {| mem_images :=
       <[ 2%positive := sample_wide_image 5%R ]>
       (<[ 3%positive := sample_wide_image 6%R ]>
        (mem_images sample_memory));
     mem_masks :=
       <[ 2%positive := {| mask_width := 2; mask_height := 1;
                           mask_values := [[true; false]] |} ]>
         (mem_masks sample_memory);
     mem_objects :=
       <[ 6%positive :=
            Obj_ImageSetData
              {| images := [Some 2%positive; Some 3%positive] |} ]>
       (<[ 7%positive := Obj_StrategyData {| strategyPtr := sample_tree_2 |} ]>
       (<[ 8%positive :=
             Obj_QualityStatisticsData {| _implementation := 3%positive |} ]>
        (mem_objects sample_memory_2))) |}.

Definition sample_input_2 : ImageSet := {| ImageSet_data := 6%positive |}.
Definition sample_strategy_2 : Strategy := {| Strategy_data := 7%positive |}.

Definition sample_artifacts_2 : ArtifactSet :=
  {| _originalData := layout [Some 1%positive] 1 (Some 2%positive);
     _contaminatedData := layout [Some 1%positive] 1 (Some 2%positive);
     _revisedData := layout [Some 1%positive] 1 (Some 2%positive) |}.

(** Three collections that hold one sample each. *)
Definition sample_Sample (n : nat) : Sample :=
  {| sample_antenna1 := n; sample_antenna2 := n; sample_time := 0%R;
     sample_band := 0; sample_polarization := 0;
     sample_reals := (1%positive, 0); sample_imags := (1%positive, 0);
     sample_isRFI := (1%positive, 0); sample_origFlags := (1%positive, 0);
     sample_nsamples := 1; sample_step := 2; sample_stepRFI := 2;
     sample_stepFlags := 2 |}.

Definition sample_implementations_2 :
  gmap addr (QualityStatisticsDataImp (list Sample)) :=
  <[ 1%positive :=
       {| scanTimes := [10%R; 20%R]; statistics := [sample_Sample 1] |} ]>
  (<[ 2%positive :=
        {| scanTimes := [30%R]; statistics := [sample_Sample 2] |} ]>
  (<[ 3%positive :=
        {| scanTimes := [40%R]; statistics := [sample_Sample 3] |} ]> ∅)).

(** ** Properties of the flag constants *)

(** C1 (as amended).  The constants the facade defines have the values
    NONE=0x00, LOW_FREQUENCY=0x01, HIGH_FREQUENCY=0x02, TRANSIENTS=0x04,
    ROBUST=0x08, FAST=0x10, OFF_AXIS_SOURCES=0x20, UNSENSITIVE=0x40,
    SENSITIVE=0x80, GUI_FRIENDLY=0x100 and CLEAR_FLAGS=0x200; the ten
    named flags are the ten lowest bits, one each, in declaration
    order. *)
Theorem StrategyFlags_values :
  StrategyFlags.NONE = 0x00%Z /\
  StrategyFlags.LOW_FREQUENCY = 0x01%Z /\
  StrategyFlags.HIGH_FREQUENCY = 0x02%Z /\
  StrategyFlags.TRANSIENTS = 0x04%Z /\
  StrategyFlags.ROBUST = 0x08%Z /\
  StrategyFlags.FAST = 0x10%Z /\
  StrategyFlags.OFF_AXIS_SOURCES = 0x20%Z /\
  StrategyFlags.UNSENSITIVE = 0x40%Z /\
  StrategyFlags.SENSITIVE = 0x80%Z /\
  StrategyFlags.GUI_FRIENDLY = 0x100%Z /\
  StrategyFlags.CLEAR_FLAGS = 0x200%Z /\
  StrategyFlags.named = (fun k => 2 ^ Z.of_nat k)%Z <$> seq 0 10.
Proof. repeat split. Qed.

(** C1 (as stated) fails: none of the values the claim lists from
    TRANSIENTS on is the value of the facade's constant; TRANSIENTS is
    0x04 and not 0x010, and so on up to CLEAR_FLAGS, 0x200 and not
    0x800. *)
Lemma StrategyFlags_not_as_claimed :
  StrategyFlags.TRANSIENTS <> 0x010%Z /\
  StrategyFlags.ROBUST <> 0x020%Z /\
  StrategyFlags.FAST <> 0x040%Z /\
  StrategyFlags.OFF_AXIS_SOURCES <> 0x080%Z /\
  StrategyFlags.UNSENSITIVE <> 0x100%Z /\
  StrategyFlags.SENSITIVE <> 0x200%Z /\
  StrategyFlags.GUI_FRIENDLY <> 0x400%Z /\
  StrategyFlags.CLEAR_FLAGS <> 0x800%Z.
Proof. repeat split; discriminate. Qed.

(** Setting one named flag does not disturb the test of another. *)
Lemma named_flags_independent (flags f g : Z) :
  In f StrategyFlags.named -> In g StrategyFlags.named -> f <> g ->
  flag_set (Z.lor flags f) g = flag_set flags g.
Proof.
  intros Hf Hg Hne. unfold flag_set. f_equal.
  rewrite Z.land_lor_distr_l.
  assert (Z.land f g = 0%Z) as ->.
  { cbn in Hf, Hg.
    repeat (destruct Hf as [<- | Hf]; [|]);
      try contradiction;
      repeat (destruct Hg as [<- | Hg]; [|]);
      try contradiction; try reflexivity; contradiction Hne; reflexivity. }
  now rewrite Z.lor_0_r.
Qed.

(** ** Properties of the default-strategy builder *)

Section DefaultStrategy_properties.

Variable new : Constructors.
Variable undeclared : UndeclaredFlags.

(** The two SumThreshold actions of the tree, whatever the decisions. *)
Lemma LoadSingleStrategy_SumThreshold n kt cp cf rc :
  List.filter is_SumThreshold
    (flat_map subactions (LoadSingleStrategy new [] n kt cp cf rc)) =
  [Action_SumThreshold
     (let t1 := SetBaseSensitivity 1%R (SumThresholdAction_new new) in
      if kt then SetFrequencyDirectionFlagging false t1 else t1);
   Action_SumThreshold
     (let t2 := SumThresholdAction_new new in
      if kt then SetFrequencyDirectionFlagging false t2 else t2)].
Proof. destruct kt, cp, cf, rc; reflexivity. Qed.

(** The one iteration block of the tree. *)
Lemma LoadSingleStrategy_IterationBlock n kt cp cf rc :
  exists children,
    List.filter is_IterationBlock
      (flat_map subactions (LoadSingleStrategy new [] n kt cp cf rc)) =
    [Action_IterationBlock
       (SetSensitivityStart (2 * pow 2 (IZR n / 2))%R
          (SetIterationCount n (IterationBlock_new new)))
       children].
Proof. destruct kt, cp, cf, rc; eexists; reflexivity. Qed.

Lemma LoadSingleStrategy_CalibratePassband n kt cp cf rc :
  existsb is_CalibratePassband
    (flat_map subactions (LoadSingleStrategy new [] n kt cp cf rc)) = cp.
Proof. destruct kt, cp, cf, rc; reflexivity. Qed.

Lemma LoadSingleStrategy_last n kt cp cf rc :
  last (LoadSingleStrategy new [] n kt cp cf rc) =
  Some (if cf
        then Action_BaselineSelection
               (SetPreparationStep true (BaselineSelectionAction_new new))
        else Action_SetFlagging
               (SetNewFlagging OrOriginal (SetFlaggingAction_new new))).
Proof. destruct kt, cp, cf, rc; reflexivity. Qed.

Lemma sensitivityStart_2 : (2 * pow 2 (IZR 2 / 2) = 4)%R.
Proof.
  unfold pow. replace (IZR 2 / 2)%R with 1%R by lra.
  rewrite Rpower_1; lra.
Qed.

Lemma sensitivityStart_4 : (2 * pow 2 (IZR 4 / 2) = 8)%R.
Proof.
  unfold pow. replace (IZR 4 / 2)%R with (1 + 1)%R by lra.
  rewrite Rpower_plus, Rpower_1; lra.
Qed.

Lemma filter_In_SumThreshold (t : SumThresholdAction) (l : list Action) :
  In (Action_SumThreshold t) l ->
  In (Action_SumThreshold t) (List.filter is_SumThreshold l).
Proof. intros H. apply filter_In. split; [exact H | reflexivity]. Qed.

(** C2.  When the TRANSIENTS bit of [flags] is set, every SumThreshold
    action of the tree the builder produces has frequency-direction
    flagging disabled (and the tree has two of them). *)
Theorem transients_disable_frequency_direction
  (telescopeId : TelescopeId) (flags : Z)
  (frequency timeRes frequencyRes : double) :
  Z.land flags StrategyFlags.TRANSIENTS <> 0%Z ->
  let tree :=
    CreateStrategy new undeclared telescopeId flags frequency timeRes
      frequencyRes in
  length (List.filter is_SumThreshold (subactions tree)) = 2 /\
  forall t : SumThresholdAction,
    In (Action_SumThreshold t) (subactions tree) ->
    _frequencyDirectionFlagging t = false.
Proof.
  intros Hset tree.
  assert (List.filter is_SumThreshold (subactions tree) =
          List.filter is_SumThreshold
            (flat_map subactions
               (LoadStrategy new undeclared [] telescopeId flags frequency
                  timeRes frequencyRes))) as Htree by reflexivity.
  unfold LoadStrategy in Htree.
  rewrite LoadSingleStrategy_SumThreshold in Htree.
  assert (keepTransients_of flags = true) as Hkt.
  { unfold keepTransients_of, FLAG_TRANSIENTS.
    destruct (Z.eqb_spec (Z.land flags StrategyFlags.TRANSIENTS) 0);
      [contradiction | reflexivity]. }
  rewrite Hkt in Htree. split.
  - rewrite Htree. reflexivity.
  - intros t Hin. apply filter_In_SumThreshold in Hin.
    rewrite Htree in Hin.
    destruct Hin as [Heq | [Heq | []]]; inversion Heq; reflexivity.
Qed.

(** C7.  The tree has one iteration block; its iteration count is 4
    when the ROBUST bit of [flags] is set and 2 otherwise, and its
    starting sensitivity is 2 * 2^(count/2), which is 8 for four
    iterations and 4 for two. *)
Theorem iteration_count_and_sensitivity
  (telescopeId : TelescopeId) (flags : Z)
  (frequency timeRes frequencyRes : double) :
  exists (iteration : IterationBlock) (children : list Action),
    List.filter is_IterationBlock
      (subactions
         (CreateStrategy new undeclared telescopeId flags frequency timeRes
            frequencyRes)) =
    [Action_IterationBlock iteration children] /\
    _iterationCount iteration =
      (if flag_set flags StrategyFlags.ROBUST then 4 else 2)%Z /\
    _sensitivityStart iteration =
      (2 * Rpower 2 (IZR (_iterationCount iteration) / 2))%R /\
    _sensitivityStart iteration =
      (if flag_set flags StrategyFlags.ROBUST then 8 else 4)%R.
Proof.
  destruct (LoadSingleStrategy_IterationBlock (iterationCount_of flags)
              (keepTransients_of flags) (calPassband_of undeclared telescopeId flags)
              (clearFlags_of flags) (resetContaminated_of flags))
    as [children Hc].
  eexists _, children. split; [exact Hc |].
  unfold iterationCount_of, flag_set, FLAG_ROBUST. cbn.
  destruct (Z.land flags StrategyFlags.ROBUST =? 0)%Z; cbn.
  - repeat split. apply sensitivityStart_2.
  - repeat split. apply sensitivityStart_4.
Qed.

(** C8.  The tree contains a CalibratePassband action exactly when the
    telescope is MWA and the SMALL_BANDWIDTH flag is not set, or the
    LARGE_BANDWIDTH flag is set. *)
Theorem calibrate_passband_iff
  (telescopeId : TelescopeId) (flags : Z)
  (frequency timeRes frequencyRes : double) :
  existsb is_CalibratePassband
    (subactions
       (CreateStrategy new undeclared telescopeId flags frequency timeRes
          frequencyRes)) = true <->
  (telescopeId = MWA_TELESCOPE /\
   Z.land flags (SMALL_BANDWIDTH undeclared) = 0%Z) \/
  Z.land flags (LARGE_BANDWIDTH undeclared) <> 0%Z.
Proof.
  assert (existsb is_CalibratePassband
            (subactions
               (CreateStrategy new undeclared telescopeId flags frequency
                  timeRes frequencyRes)) =
          calPassband_of undeclared telescopeId flags) as ->.
  { unfold CreateStrategy, LoadStrategy.
    cbn [subactions existsb is_CalibratePassband orb].
    apply LoadSingleStrategy_CalibratePassband. }
  unfold calPassband_of, FLAG_SMALL_BANDWIDTH, FLAG_LARGE_BANDWIDTH.
  destruct (Z.eqb_spec (Z.land flags (SMALL_BANDWIDTH undeclared)) 0);
    destruct (Z.eqb_spec (Z.land flags (LARGE_BANDWIDTH undeclared)) 0);
    destruct telescopeId; cbn; intuition (congruence || discriminate).
Qed.

(** C9.  The last action of the tree is a SetFlagging(OrOriginal)
    exactly when neither the CLEAR_FLAGS nor the GUI_FRIENDLY bit of
    [flags] is set; otherwise the tree ends with the baseline
    selection. *)
Theorem ends_with_OrOriginal_iff
  (telescopeId : TelescopeId) (flags : Z)
  (frequency timeRes frequencyRes : double) :
  let tree :=
    CreateStrategy new undeclared telescopeId flags frequency timeRes
      frequencyRes in
  (exists a, last (children_of tree) = Some a /\
             is_SetFlagging_OrOriginal a = true) <->
  Z.land flags StrategyFlags.CLEAR_FLAGS = 0%Z /\
  Z.land flags StrategyFlags.GUI_FRIENDLY = 0%Z.
Proof.
  cbn. unfold LoadStrategy. rewrite LoadSingleStrategy_last.
  unfold clearFlags_of, FLAG_CLEAR_FLAGS, FLAG_GUI_FRIENDLY.
  destruct (Z.eqb_spec (Z.land flags StrategyFlags.CLEAR_FLAGS) 0);
    destruct (Z.eqb_spec (Z.land flags StrategyFlags.GUI_FRIENDLY) 0);
    cbn; split.
  all: try (intros (a & [= <-] & Ha); discriminate Ha).
  all: try (intros []; contradiction).
  - intros _. split; assumption.
  - intros _. eexists. split; reflexivity.
Qed.

End DefaultStrategy_properties.

(** ** The monad *)

Lemma bind_Returns {A B} (c : M A) (f : A -> M B) m a m' :
  c m = Returns a m' -> (c ≫= f) m = f a m'.
Proof. intros H. unfold mbind, M_bind. rewrite H. reflexivity. Qed.

Lemma bind_Throws {A B} (c : M A) (f : A -> M B) m e m' :
  c m = Throws e m' -> (c ≫= f) m = Throws e m'.
Proof. intros H. unfold mbind, M_bind. rewrite H. reflexivity. Qed.

Lemma bind_Undefined {A B} (c : M A) (f : A -> M B) m :
  c m = Undefined -> (c ≫= f) m = Undefined.
Proof. intros H. unfold mbind, M_bind. rewrite H. reflexivity. Qed.

Lemma bind_inv_Returns {A B} (c : M A) (f : A -> M B) m b m2 :
  (c ≫= f) m = Returns b m2 ->
  exists a m1, c m = Returns a m1 /\ f a m1 = Returns b m2.
Proof.
  unfold mbind, M_bind. destruct (c m) as [a m1 | |]; [| discriminate ..].
  intros H. exists a, m1. split; [reflexivity | exact H].
Qed.

(** ** Properties of the facade and of the statistical flag action *)

Section Facade_properties.

Variable limits : VectorLimits.
Variable unset_values : nat -> nat -> list (list float).
Variable TimeFrequencyData_0 : TimeFrequencyData.
Variable GetCombinedMask : FlagCoverage -> list Mask2D -> Mask2D.
Variable DilateFlags : nat -> nat -> Mask2D -> Mask2D.
Variable OperateHorizontally : double -> Mask2D -> Mask2D.
Variable OperateVertically : double -> Mask2D -> Mask2D.
Variable Perform : Action -> ArtifactSet -> M ArtifactSet.

Lemma assertValidCount_invalid count m :
  ~ valid_count count ->
  assertValidCount count m = Throws (runtime_error invalid_count_message) m.
Proof.
  intros H. unfold assertValidCount. unfold valid_count in H.
  destruct (Nat.eqb_spec count 1) as [E | _]; [contradiction H; auto |].
  destruct (Nat.eqb_spec count 2) as [E | _]; [contradiction H; auto |].
  destruct (Nat.eqb_spec count 4) as [E | _]; [contradiction H; auto |].
  destruct (Nat.eqb_spec count 8) as [E | _]; [contradiction H; auto 6 |].
  reflexivity.
Qed.

Lemma assertValidCount_valid count m :
  valid_count count -> assertValidCount count m = Returns tt m.
Proof. intros [-> | [-> | [-> | ->]]]; reflexivity. Qed.

(** [new ImageSetData(count)]: within the limits of the vector the
    wrapper is allocated; beyond them the vector's constructor throws
    and nothing is allocated. *)
Lemma new_ImageSetData_fits (count : nat) (m : Memory) :
  count <= max_size limits -> count <= available limits ->
  new_ImageSetData limits count m =
  Returns (fresh (dom (mem_objects m)))
    {| mem_images := mem_images m; mem_masks := mem_masks m;
       mem_objects :=
         <[fresh (dom (mem_objects m)) :=
             Obj_ImageSetData {| images := replicate count None |}]>
           (mem_objects m) |}.
Proof.
  intros Hmax Havailable. unfold new_ImageSetData.
  destruct (Nat.ltb_spec (max_size limits) count) as [H | _]; [lia |].
  destruct (Nat.ltb_spec (available limits) count) as [H | _]; [lia |].
  reflexivity.
Qed.

Lemma valid_count_fits (count : nat) :
  valid_count count ->
  count <= max_size limits /\ count <= available limits.
Proof.
  pose proof (max_size_at_least limits).
  pose proof (available_at_least limits).
  intros [-> | [-> | [-> | ->]]]; lia.
Qed.

Lemma new_ImageSetData_length_error (count : nat) (m : Memory) :
  max_size limits < count ->
  new_ImageSetData limits count m = Throws length_error m.
Proof.
  intros H. unfold new_ImageSetData.
  destruct (Nat.ltb_spec (max_size limits) count) as [_ | H']; [| lia].
  reflexivity.
Qed.

Lemma new_ImageSetData_bad_alloc (count : nat) (m : Memory) :
  count <= max_size limits -> available limits < count ->
  new_ImageSetData limits count m = Throws bad_alloc m.
Proof.
  intros Hmax H. unfold new_ImageSetData.
  destruct (Nat.ltb_spec (max_size limits) count) as [H' | _]; [lia |].
  destruct (Nat.ltb_spec (available limits) count) as [_ | H']; [| lia].
  reflexivity.
Qed.

(** The loop of the two constructors: it fills the entries
    [start .. start + n - 1] of the vector with newly allocated copies
    of [I] and leaves everything else as it is. *)
Lemma fill_loop (I : Image2D) (data : addr) (n : nat) :
  forall (start : nat) (m : Memory) (L : list Image2DPtr),
  mem_objects m !! data = Some (Obj_ImageSetData {| images := L |}) ->
  start + n <= length L ->
  exists (m' : Memory) (L' : list Image2DPtr),
    for_loop start n
      (fun i => image ← (p ← new_image I; mret (Some p));
                set_image data i image) m = Returns tt m' /\
    mem_objects m' =
      <[data := Obj_ImageSetData {| images := L' |}]> (mem_objects m) /\
    mem_masks m' = mem_masks m /\
    mem_images m ⊆ mem_images m' /\
    length L' = length L /\
    (forall i, i < start \/ start + n <= i -> L' !! i = L !! i) /\
    (forall i, start <= i < start + n ->
       exists p, L' !! i = Some (Some p) /\ mem_images m' !! p = Some I).
Proof.
  induction n as [|n IH]; intros start m L Hobj Hlen.
  - exists m, L. cbn. repeat split; try done.
    + rewrite insert_id; done.
    + intros i Hi. lia.
  - cbn [for_loop].
    set (p := fresh (dom (mem_images m))).
    assert (mem_images m !! p = None) as Hfresh.
    { apply not_elem_of_dom. apply is_fresh. }
    destruct (lookup_lt_is_Some_2 L start) as [q Hq]; [lia|].
    set (m2 := {| mem_images := <[p := I]> (mem_images m);
                  mem_masks := mem_masks m;
                  mem_objects :=
                    <[data := Obj_ImageSetData
                                {| images := <[start := Some p]> L |}]>
                      (mem_objects m) |}).
    assert ((image ← (p ← new_image I; mret (Some p));
             set_image data start image) m = Returns tt m2) as Hbody.
    { unfold set_image, get_ImageSetData, read_object, write_object,
        at_index, new_image.
      unfold mbind, M_bind, mret, M_ret. cbn.
      rewrite Hobj. cbn. rewrite Hq. cbn. rewrite Hobj. reflexivity. }
    destruct (IH (S start) m2 (<[start := Some p]> L))
      as (m' & L' & Hrun & Ho & Hm & Hi & Hl & Hout & Hin).
    { cbn. apply lookup_insert_eq. }
    { rewrite length_insert. lia. }
    exists m', L'. split; [| split; [| split; [| split; [| split; [| split]]]]].
    + erewrite bind_Returns by exact Hbody. exact Hrun.
    + rewrite Ho. cbn. apply insert_insert_eq.
    + rewrite Hm. reflexivity.
    + etrans; [| exact Hi]. cbn. apply insert_subseteq. exact Hfresh.
    + rewrite Hl. apply length_insert.
    + intros i Hi'. rewrite Hout by lia. apply list_lookup_insert_ne. lia.
    + intros i Hi'. destruct (decide (i = start)) as [-> | Hne].
      * exists p. split.
        -- rewrite Hout by lia. apply list_lookup_insert_eq. lia.
        -- eapply lookup_weaken; [| exact Hi]. cbn. apply lookup_insert_eq.
      * apply Hin. lia.
Qed.

(** Both constructors, for a valid count: [I] is the image every entry
    is set to. *)
Lemma construct_valid (I : Image2D) (count : nat) (m : Memory) :
  valid_count count ->
  exists (s : ImageSet) (m' : Memory) (L : list Image2DPtr),
    (_data ← new_ImageSetData limits count;
     assertValidCount count;;
     for_loop 0 count
       (fun i => image ← (p ← new_image I; mret (Some p));
                 set_image _data i image);;
     mret {| ImageSet_data := _data |}) m = Returns s m' /\
    valid_ImageSet m' s L (image_width I) (image_height I) /\
    length L = count /\
    mem_images m ⊆ mem_images m' /\
    mem_masks m' = mem_masks m.
Proof.
  intros Hc.
  set (d := fresh (dom (mem_objects m))).
  set (m1 := {| mem_images := mem_images m; mem_masks := mem_masks m;
                mem_objects :=
                  <[d := Obj_ImageSetData {| images := replicate count None |}]>
                    (mem_objects m) |}).
  destruct (fill_loop I d count 0 m1 (replicate count None))
    as (m' & L & Hrun & Ho & Hm & Hi & Hl & _ & Hin).
  { cbn. apply lookup_insert_eq. }
  { rewrite length_replicate. lia. }
  rewrite length_replicate in Hl.
  exists {| ImageSet_data := d |}, m', L.
  split; [| split; [| split; [| split]]].
  - erewrite bind_Returns
      by (apply new_ImageSetData_fits; apply valid_count_fits; exact Hc).
    erewrite bind_Returns by (apply assertValidCount_valid; exact Hc).
    erewrite bind_Returns by exact Hrun.
    reflexivity.
  - split; [| split].
    + cbn. rewrite Ho. apply lookup_insert_eq.
    + rewrite Hl. exact Hc.
    + intros i q Hq.
      destruct (Hin i) as (p & Hp & HI).
      { apply lookup_lt_Some in Hq. lia. }
      exists p, I. rewrite Hp in Hq. injection Hq as <-. auto.
  - exact Hl.
  - exact Hi.
  - exact Hm.
Qed.

(** Both constructors, for a count the vector cannot hold: the
    allocation throws before the count is checked, and nothing is
    allocated. *)
Lemma construct_refused (body : addr -> nat -> M unit) (count : nat)
  (e : exception) (m : Memory) :
  new_ImageSetData limits count m = Throws e m ->
  (_data ← new_ImageSetData limits count;
   assertValidCount count;;
   for_loop 0 count (body _data);;
   mret {| ImageSet_data := _data |}) m = Throws e m.
Proof. intros H. apply bind_Throws. exact H. Qed.

(** Both constructors, for an invalid count the vector can hold: the
    exception leaves the newly allocated [ImageSetData] behind. *)
Lemma construct_invalid (body : addr -> nat -> M unit) (count : nat)
  (m : Memory) :
  count <= max_size limits -> count <= available limits ->
  ~ valid_count count ->
  (_data ← new_ImageSetData limits count;
   assertValidCount count;;
   for_loop 0 count (body _data);;
   mret {| ImageSet_data := _data |}) m =
  Throws (runtime_error invalid_count_message)
    {| mem_images := mem_images m; mem_masks := mem_masks m;
       mem_objects :=
         <[fresh (dom (mem_objects m)) :=
             Obj_ImageSetData {| images := replicate count None |}]>
           (mem_objects m) |}.
Proof.
  intros Hmax Havailable Hc.
  erewrite bind_Returns by (apply new_ImageSetData_fits; assumption).
  erewrite bind_Throws by (apply assertValidCount_invalid; exact Hc).
  reflexivity.
Qed.

(** What the two forms of [MakeImageSet], and a [Run] over the image
    set made, do for a count that is refused with [e], leaving [m']. *)
Lemma MakeImageSet_refused (width height count : nat)
  (initialValue : float) (strategy : Strategy) (e : exception)
  (m m' : Memory) :
  (forall body : addr -> nat -> M unit,
     (_data ← new_ImageSetData limits count;
      assertValidCount count;;
      for_loop 0 count (body _data);;
      mret {| ImageSet_data := _data |}) m = Throws e m') ->
  MakeImageSet limits unset_values width height count m = Throws e m' /\
  MakeImageSet_set limits width height count initialValue m =
    Throws e m' /\
  (input ← MakeImageSet limits unset_values width height count;
   Run TimeFrequencyData_0 GetCombinedMask Perform strategy input) m =
    Throws e m'.
Proof.
  intros H.
  pose proof (H (fun d i =>
                   image ← CreateUnsetImagePtr unset_values width height;
                   set_image d i image)) as Hunset.
  pose proof (H (fun d i =>
                   image ← CreateSetImagePtr width height initialValue;
                   set_image d i image)) as Hset.
  split; [exact Hunset |]. split; [exact Hset |].
  apply bind_Throws. exact Hunset.
Qed.

Lemma valid_ImageSet_mono m m' input L w h :
  valid_ImageSet m input L w h ->
  mem_objects m' = mem_objects m ->
  mem_images m ⊆ mem_images m' ->
  valid_ImageSet m' input L w h.
Proof.
  intros (Ho & Hc & Hi) Heq Hsub. split; [| split].
  - rewrite Heq. exact Ho.
  - exact Hc.
  - intros i q Hq. destruct (Hi i q Hq) as (p & I & -> & Hp & Hw & Hh).
    exists p, I. repeat split; try done.
    eapply lookup_weaken; eassumption.
Qed.

Lemma ImageSet_Width_valid m input L w h :
  valid_ImageSet m input L w h -> ImageSet_Width input m = Returns w m.
Proof.
  intros (Ho & Hc & Hi).
  destruct (lookup_lt_is_Some_2 L 0) as [q Hq].
  { destruct Hc as [-> | [-> | [-> | ->]]]; lia. }
  destruct (Hi 0 q Hq) as (p & I & -> & Hp & <- & _).
  unfold ImageSet_Width, get_ImageSetData, read_object, at_index, read_image.
  unfold mbind, M_bind, mret, M_ret. rewrite Ho. cbn. rewrite Hq. cbn.
  rewrite Hp. reflexivity.
Qed.

Lemma ImageSet_Height_valid m input L w h :
  valid_ImageSet m input L w h -> ImageSet_Height input m = Returns h m.
Proof.
  intros (Ho & Hc & Hi).
  destruct (lookup_lt_is_Some_2 L 0) as [q Hq].
  { destruct Hc as [-> | [-> | [-> | ->]]]; lia. }
  destruct (Hi 0 q Hq) as (p & I & -> & Hp & _ & <-).
  unfold ImageSet_Height, get_ImageSetData, read_object, at_index, read_image.
  unfold mbind, M_bind, mret, M_ret. rewrite Ho. cbn. rewrite Hq. cbn.
  rewrite Hp. reflexivity.
Qed.

Lemma ImageSet_ImageCount_valid m input L w h :
  valid_ImageSet m input L w h ->
  ImageSet_ImageCount input m = Returns (length L) m.
Proof.
  intros (Ho & _).
  unfold ImageSet_ImageCount, get_ImageSetData, read_object.
  unfold mbind, M_bind, mret, M_ret. rewrite Ho. reflexivity.
Qed.

Lemma ImageSet_image_valid m input L w h i q :
  valid_ImageSet m input L w h -> L !! i = Some q ->
  ImageSet_image input i m = Returns q m.
Proof.
  intros (Ho & _) Hq.
  unfold ImageSet_image, get_ImageSetData, read_object, at_index.
  unfold mbind, M_bind, mret, M_ret. rewrite Ho. cbn. rewrite Hq.
  reflexivity.
Qed.

(** Lists of 1, 2, 4 or 8 elements. *)
Lemma valid_count_cases {A} (L : list A) :
  valid_count (length L) ->
  (exists a, L = [a]) \/ (exists a b, L = [a; b]) \/
  (exists a b c d, L = [a; b; c; d]) \/
  (exists a b c d e f g h, L = [a; b; c; d; e; f; g; h]).
Proof.
  intros Hc.
  unfold valid_count in Hc.
  destruct L as [|a [|b [|c [|d [|e [|f [|g [|h [|i L]]]]]]]]];
    cbn in Hc; try (exfalso; lia); eauto 12.
Qed.

Lemma Run_wrap_valid m input L w h :
  valid_ImageSet m input L w h ->
  let mask := Some (fresh (dom (mem_masks m))) in
  let zeroImage := Some (fresh (dom (mem_images m))) in
  Run_wrap TimeFrequencyData_0 input m =
  Returns (layout L (length L) mask,
           layout (replicate (length L) zeroImage) (length L) mask)
    (Run_memory m w h).
Proof.
  intros Hv mask zeroImage.
  set (m1 := {| mem_images := mem_images m;
                mem_masks :=
                  <[fresh (dom (mem_masks m)) :=
                      {| mask_width := w; mask_height := h;
                         mask_values := grid w h false |}]> (mem_masks m);
                mem_objects := mem_objects m |}).
  assert (valid_ImageSet m1 input L w h) as Hv1.
  { eapply valid_ImageSet_mono; [exact Hv | reflexivity | reflexivity]. }
  assert (valid_ImageSet (Run_memory m w h) input L w h) as Hv2.
  { eapply valid_ImageSet_mono; [exact Hv | reflexivity |].
    cbn. apply insert_subseteq, not_elem_of_dom, is_fresh. }
  unfold Run_wrap.
  erewrite bind_Returns by (eapply ImageSet_Width_valid; exact Hv).
  erewrite bind_Returns by (eapply ImageSet_Height_valid; exact Hv).
  erewrite bind_Returns by reflexivity.
  erewrite bind_Returns by (eapply ImageSet_Width_valid; exact Hv1).
  erewrite bind_Returns by (eapply ImageSet_Height_valid; exact Hv1).
  erewrite bind_Returns by reflexivity.
  erewrite bind_Returns by (eapply ImageSet_ImageCount_valid; exact Hv2).
  destruct Hv as (_ & Hc & _).
  destruct (valid_count_cases L Hc)
    as [(a & ->) | [(a & b & ->) | [(a & b & c & d & ->) |
        (a & b & c & d & e & f & g & i & ->)]]]; cbn [length].
  all: repeat (erewrite bind_Returns
                 by (eapply ImageSet_image_valid; [exact Hv2 | reflexivity])).
  all: reflexivity.
Qed.
Lemma Run_install_valid m input L w h :
  valid_ImageSet m input L w h ->
  let mask := Some (fresh (dom (mem_masks m))) in
  let zeroImage := Some (fresh (dom (mem_images m))) in
  let inputData := layout L (length L) mask in
  Run_install TimeFrequencyData_0 input m =
  Returns {| _originalData := inputData; _contaminatedData := inputData;
             _revisedData :=
               layout (replicate (length L) zeroImage) (length L) mask |}
    (Run_memory m w h).
Proof.
  intros Hv. cbn zeta. unfold Run_install.
  erewrite bind_Returns by (apply Run_wrap_valid; exact Hv).
  reflexivity.
Qed.

Lemma layout_kind_of L k :
  valid_count (length L) ->
  kind_of (layout L (length L) k) = layout_kind (length L).
Proof.
  intros Hc.
  destruct (valid_count_cases L Hc)
    as [(a & ->) | [(a & b & ->) | [(a & b & c & d & ->) |
        (a & b & c & d & e & f & g & i & ->)]]]; reflexivity.
Qed.

(** C4.  On an image set of 1, 2, 4 or 8 images, [Run] adds an
    all-false mask and an all-zero image to the memory, installs the
    input images, laid out by their number (1: amplitude, 2: complex,
    4: two polarisations, 8: four polarisations) and with that mask, as
    the original and the contaminated data, the zero image in the same
    layout as the revised data, invokes the root action on this artifact
    set, and returns a flag mask holding a copy of the single mask of
    the contaminated data the root action leaves. *)
Theorem Run_spec (strategy : Strategy) (root : Action) (input : ImageSet)
  (L : list Image2DPtr) (width height : nat) (m : Memory) :
  valid_ImageSet m input L width height ->
  mem_objects m !! Strategy_data strategy =
    Some (Obj_StrategyData {| strategyPtr := root |}) ->
  exists (mask zeroImage : addr),
    mem_masks m !! mask = None /\ mem_images m !! zeroImage = None /\
    let m0 :=
      {| mem_images :=
           <[zeroImage :=
               {| image_width := width; image_height := height;
                  image_values := grid width height 0%R |}]> (mem_images m);
         mem_masks :=
           <[mask :=
               {| mask_width := width; mask_height := height;
                  mask_values := grid width height false |}]> (mem_masks m);
         mem_objects := mem_objects m |} in
    let inputData := layout L (length L) (Some mask) in
    let revisedData :=
      layout (replicate (length L) (Some zeroImage)) (length L) (Some mask) in
    let artifacts :=
      {| _originalData := inputData; _contaminatedData := inputData;
         _revisedData := revisedData |} in
    kind_of inputData = layout_kind (length L) /\
    kind_of revisedData = layout_kind (length L) /\
    Run TimeFrequencyData_0 GetCombinedMask Perform strategy input m =
      (artifacts' ← Perform root artifacts;
       single ← GetSingleMask GetCombinedMask (ContaminatedData artifacts');
       copy ← new_mask single;
       _data ← new_object (Obj_FlagMaskData {| mask := Some copy |});
       mret {| FlagMask_data := Some _data |}) m0 /\
    forall (artifacts' : ArtifactSet) (m1 : Memory) (single : Mask2D),
      Perform root artifacts m0 = Returns artifacts' m1 ->
      GetSingleMask GetCombinedMask (ContaminatedData artifacts') m1 =
        Returns single m1 ->
      exists (_data copy : addr) (m2 : Memory),
        Run TimeFrequencyData_0 GetCombinedMask Perform strategy input m =
          Returns {| FlagMask_data := Some _data |} m2 /\
        mem_objects m2 !! _data =
          Some (Obj_FlagMaskData {| mask := Some copy |}) /\
        mem_masks m2 !! copy = Some single.
Proof.
  intros Hv Hs.
  exists (fresh (dom (mem_masks m))), (fresh (dom (mem_images m))).
  split; [apply not_elem_of_dom, is_fresh |].
  split; [apply not_elem_of_dom, is_fresh |].
  cbn zeta.
  split; [apply layout_kind_of; apply Hv |].
  split.
  { destruct Hv as (_ & Hc & _).
    destruct Hc as [-> | [-> | [-> | ->]]]; reflexivity. }
  assert (Run TimeFrequencyData_0 GetCombinedMask Perform strategy input m =
          (artifacts' ← Perform root
             {| _originalData :=
                  layout L (length L) (Some (fresh (dom (mem_masks m))));
                _contaminatedData :=
                  layout L (length L) (Some (fresh (dom (mem_masks m))));
                _revisedData :=
                  layout
                    (replicate (length L)
                       (Some (fresh (dom (mem_images m)))))
                    (length L) (Some (fresh (dom (mem_masks m)))) |};
           Run_result GetCombinedMask artifacts')
            (Run_memory m width height)) as Hrun.
  { unfold Run.
    erewrite bind_Returns by (apply Run_install_valid; exact Hv).
    assert (get_StrategyData (Strategy_data strategy)
              (Run_memory m width height)
            = Returns {| strategyPtr := root |} (Run_memory m width height))
      as Hget.
    { unfold get_StrategyData, read_object, mbind, M_bind. cbn.
      rewrite Hs. reflexivity. }
    erewrite bind_Returns by exact Hget.
    reflexivity. }
  split; [exact Hrun |].
  intros A1 m1 single Hperform Hsingle.
  rewrite Hrun.
  erewrite bind_Returns by exact Hperform.
  unfold Run_result.
  erewrite bind_Returns by exact Hsingle.
  eexists _, _, _. split; [reflexivity |]. cbn.
  split; apply lookup_insert_eq.
Qed.

(** Reading masks does not change the memory. *)
Lemma read_mask_inv p m k m' :
  read_mask p m = Returns k m' ->
  m' = m /\ p ≫= (fun a => mem_masks m !! a) = Some k.
Proof.
  unfold read_mask. destruct (p ≫= _) as [k0|]; [| discriminate].
  intros [= -> ->]. auto.
Qed.

Lemma read_masks_inv ps : forall m ks m',
  read_masks ps m = Returns ks m' -> m' = m.
Proof.
  induction ps as [|p ps IH]; intros m ks m' H.
  - injection H as _ ->. reflexivity.
  - cbn [read_masks] in H.
    apply bind_inv_Returns in H as (k & m1 & Hk & H).
    apply read_mask_inv in Hk as [-> _].
    apply bind_inv_Returns in H as (ks' & m2 & Hks & H).
    apply IH in Hks as ->. injection H as _ ->. reflexivity.
Qed.

Lemma GetSingleMask_inv d m k m' :
  GetSingleMask GetCombinedMask d m = Returns k m' -> m' = m.
Proof.
  unfold GetSingleMask. intros H.
  assert (forall c, (ks ← read_masks (_flagging d); mret (GetCombinedMask c ks)) m
                    = Returns k m' -> m' = m) as Hgen.
  { intros c Hc. apply bind_inv_Returns in Hc as (ks & m1 & Hks & Hc).
    apply read_masks_inv in Hks as ->. injection Hc as _ ->. reflexivity. }
  destruct (_flagCoverage d); try (eapply Hgen; exact H).
  destruct (_flagging d) as [|p [|q ps]]; try (eapply Hgen; exact H).
  apply read_mask_inv in H as [-> _]. reflexivity.
Qed.
(** An in-place update of a newly allocated mask. *)
Lemma update_mask_insert (p : addr) (f : Mask2D -> Mask2D) (k : Mask2D)
  (im : gmap addr Image2D) (mm : gmap addr Mask2D) (om : gmap addr Object) :
  update_mask (Some p) f
    {| mem_images := im; mem_masks := <[p := k]> mm; mem_objects := om |} =
  Returns tt
    {| mem_images := im; mem_masks := <[p := f k]> mm; mem_objects := om |}.
Proof.
  unfold update_mask. cbn. rewrite lookup_insert_eq, insert_insert_eq.
  reflexivity.
Qed.

(** Allocation leaves the allocated handles of a bundle pointing to what
    they pointed to. *)
Lemma mask_contents_insert (m m' : Memory) (d : TimeFrequencyData)
  (p : addr) (k : Mask2D) :
  mem_masks m !! p = None ->
  mem_masks m' = <[p := k]> (mem_masks m) ->
  Forall is_Some (mask_contents m d) ->
  mask_contents m' d = mask_contents m d.
Proof.
  intros Hp Hm'. unfold mask_contents.
  induction (_flagging d) as [|q qs IH]; intros Ha; [reflexivity |].
  cbn in *. inversion Ha as [|? ? Hq Hqs]; subst. f_equal; [| auto].
  destruct q as [a|]; cbn in *; [| reflexivity].
  rewrite Hm'. apply lookup_insert_ne. intros ->.
  rewrite Hp in Hq. destruct Hq as [? [=]].
Qed.

Lemma image_contents_eq (m m' : Memory) (d : TimeFrequencyData) :
  mem_images m' = mem_images m -> image_contents m' d = image_contents m d.
Proof. intros H. unfold image_contents. rewrite H. reflexivity. Qed.

(** What [StatisticalFlagAction::Perform] returns, once the single mask
    of the contaminated data has been read. *)
Lemma StatisticalFlagAction_Perform_Returns (self : StatisticalFlagAction)
  (artifacts : ArtifactSet) (single : Mask2D) (m : Memory) :
  GetSingleMask GetCombinedMask (ContaminatedData artifacts) m =
    Returns single m ->
  StatisticalFlagAction_Perform GetCombinedMask DilateFlags
    OperateHorizontally OperateVertically self artifacts m =
  Returns
    (SetContaminatedData
       (SetGlobalMask (Some (fresh (dom (mem_masks m))))
          (ContaminatedData artifacts))
       artifacts)
    {| mem_images := mem_images m;
       mem_masks :=
         <[fresh (dom (mem_masks m)) :=
             OperateVertically (_minimumGoodFrequencyRatio self)
               (OperateHorizontally (_minimumGoodTimeRatio self)
                  (DilateFlags (_enlargeTimeSize self)
                     (_enlargeFrequencySize self) single))]> (mem_masks m);
       mem_objects := mem_objects m |}.
Proof.
  intros Hsingle. unfold StatisticalFlagAction_Perform.
  erewrite bind_Returns by exact Hsingle.
  erewrite bind_Returns by reflexivity.
  erewrite bind_Returns by apply update_mask_insert.
  erewrite bind_Returns by apply update_mask_insert.
  erewrite bind_Returns by apply update_mask_insert.
  reflexivity.
Qed.

(** A mask allocated at a fresh address leaves every allocated bundle
    as it is. *)
Lemma new_mask_frame (m : Memory) (k : Mask2D) (d : TimeFrequencyData) :
  let m' :=
    {| mem_images := mem_images m;
       mem_masks := <[fresh (dom (mem_masks m)) := k]> (mem_masks m);
       mem_objects := mem_objects m |} in
  allocated m d ->
  image_contents m' d = image_contents m d /\
  mask_contents m' d = mask_contents m d.
Proof.
  intros m' [Hi Hm]. split.
  - apply image_contents_eq. reflexivity.
  - eapply mask_contents_insert; [| reflexivity | exact Hm].
    apply not_elem_of_dom, is_fresh.
Qed.

(** C6.  Where the contaminated data has a single mask,
    [StatisticalFlagAction::Perform] returns, and the global mask of the
    contaminated data is then a newly allocated mask holding the
    vertical SIR (minimum good frequency ratio) of the horizontal SIR
    (minimum good time ratio) of the dilation (by the time and frequency
    enlargement sizes) of that single mask; the images of the
    contaminated data, the original and the revised slot, and every
    image and mask that was allocated are as before. *)
Theorem StatisticalFlagAction_Perform_spec (self : StatisticalFlagAction)
  (artifacts : ArtifactSet) (single : Mask2D) (m m0 : Memory) :
  GetSingleMask GetCombinedMask (ContaminatedData artifacts) m =
    Returns single m0 ->
  let mask := fresh (dom (mem_masks m)) in
  let result :=
    OperateVertically (_minimumGoodFrequencyRatio self)
      (OperateHorizontally (_minimumGoodTimeRatio self)
         (DilateFlags (_enlargeTimeSize self) (_enlargeFrequencySize self)
            single)) in
  let artifacts' :=
    {| _originalData := OriginalData artifacts;
       _contaminatedData :=
         {| _phaseRepresentation :=
              _phaseRepresentation (ContaminatedData artifacts);
            _polarisationType :=
              _polarisationType (ContaminatedData artifacts);
            _flagCoverage := GlobalFlagCoverage;
            _images := _images (ContaminatedData artifacts);
            _flagging := [Some mask] |};
       _revisedData := RevisedData artifacts |} in
  let m' :=
    {| mem_images := mem_images m;
       mem_masks := <[mask := result]> (mem_masks m);
       mem_objects := mem_objects m |} in
  mem_masks m !! mask = None /\
  StatisticalFlagAction_Perform GetCombinedMask DilateFlags
    OperateHorizontally OperateVertically self artifacts m =
    Returns artifacts' m' /\
  GetSingleMask GetCombinedMask (ContaminatedData artifacts') m' =
    Returns result m' /\
  forall d : TimeFrequencyData,
    allocated m d ->
    image_contents m' d = image_contents m d /\
    mask_contents m' d = mask_contents m d.
Proof.
  intros Hsingle mask result artifacts' m'.
  pose proof (GetSingleMask_inv _ _ _ _ Hsingle) as ->.
  split; [apply not_elem_of_dom, is_fresh |]. split; [| split].
  - apply StatisticalFlagAction_Perform_Returns. exact Hsingle.
  - unfold GetSingleMask, read_mask. cbn. rewrite lookup_insert_eq.
    reflexivity.
  - intros d. apply new_mask_frame.
Qed.

Lemma StatisticalFlagAction_keeps_original (self : StatisticalFlagAction) :
  keeps_original
    (StatisticalFlagAction_Perform GetCombinedMask DilateFlags
       OperateHorizontally OperateVertically self).
Proof.
  intros A A' m m' Ha Hrun.
  destruct (GetSingleMask GetCombinedMask (ContaminatedData A) m)
    as [single m0 | |] eqn:Hsingle.
  - pose proof (GetSingleMask_inv _ _ _ _ Hsingle) as ->.
    rewrite (StatisticalFlagAction_Perform_Returns self A single m Hsingle)
      in Hrun.
    injection Hrun as <- <-.
    split; [reflexivity |]. apply new_mask_frame. exact Ha.
  - unfold StatisticalFlagAction_Perform in Hrun.
    erewrite bind_Throws in Hrun by exact Hsingle. discriminate.
  - unfold StatisticalFlagAction_Perform in Hrun.
    erewrite bind_Undefined in Hrun by exact Hsingle. discriminate.
Qed.

Lemma keeps_original_mret : keeps_original mret.
Proof. intros A A' m m' _ [= <- <-]. auto. Qed.

Lemma keeps_original_allocated perform A A' m m' :
  keeps_original perform -> allocated m (OriginalData A) ->
  perform A m = Returns A' m' -> allocated m' (OriginalData A').
Proof.
  intros Hk Ha Hrun. destruct (Hk A A' m m' Ha Hrun) as (-> & Hi & Hm).
  unfold allocated. rewrite Hi, Hm. exact Ha.
Qed.

Lemma keeps_original_sequence f g :
  keeps_original f -> keeps_original g -> keeps_original (sequence f g).
Proof.
  intros Hf Hg A A2 m m2 Ha Hrun. unfold sequence in Hrun.
  apply bind_inv_Returns in Hrun as (A1 & m1 & H1 & H2).
  pose proof (keeps_original_allocated f A A1 m m1 Hf Ha H1) as Ha1.
  destruct (Hf A A1 m m1 Ha H1) as (Ho1 & Hi1 & Hm1).
  destruct (Hg A1 A2 m1 m2 Ha1 H2) as (Ho2 & Hi2 & Hm2).
  rewrite Ho1 in Ho2, Hi2, Hm2.
  split; [exact Ho2 |]. split; congruence.
Qed.

Lemma keeps_original_iterate n f :
  keeps_original f -> keeps_original (iterate n f).
Proof.
  intros Hf. induction n as [|n IH]; cbn [iterate].
  - apply keeps_original_mret.
  - apply keeps_original_sequence; assumption.
Qed.

Lemma allocated_Run_memory m input L w h k :
  valid_ImageSet m input L w h ->
  allocated (Run_memory m w h)
    (layout L k (Some (fresh (dom (mem_masks m))))) /\
  image_contents (Run_memory m w h)
    (layout L k (Some (fresh (dom (mem_masks m))))) =
  map (fun p : Image2DPtr => p ≫= fun a => mem_images m !! a) L.
Proof.
  intros (_ & _ & Hi).
  assert (forall q, q ∈ L ->
            is_Some (q ≫= fun a => mem_images m !! a) /\
            q ≫= (fun a => mem_images (Run_memory m w h) !! a) =
            q ≫= fun a => mem_images m !! a) as Hq.
  { intros q Hin. apply list_elem_of_lookup in Hin as [i Hin].
    destruct (Hi i q Hin) as (p & I & -> & Hp & _). cbn.
    split; [eauto |].
    apply lookup_insert_ne. intros <-.
    pose proof (is_fresh (dom (mem_images m))) as Hf.
    apply not_elem_of_dom in Hf. congruence. }
  assert (image_contents (Run_memory m w h)
            (layout L k (Some (fresh (dom (mem_masks m))))) =
          map (fun p : Image2DPtr => p ≫= fun a => mem_images m !! a) L) as Heq.
  { unfold image_contents. cbn [_images layout].
    apply map_ext_in. intros q Hin. apply Hq.
    apply list_elem_of_In. exact Hin. }
  split; [split |]; [| | exact Heq].
  - rewrite Heq. apply Forall_forall. intros x Hx.
    apply list_elem_of_In, in_map_iff in Hx as (q & <- & Hin).
    apply Hq. apply list_elem_of_In. exact Hin.
  - unfold mask_contents. cbn [_flagging layout].
    apply Forall_forall. intros x Hx.
    apply list_elem_of_In, in_map_iff in Hx as (q & <- & Hin).
    apply list_elem_of_In, elem_of_replicate in Hin as [-> _].
    cbn. rewrite lookup_insert_eq. eauto.
Qed.

(** [Run] around a root action that keeps to the contract
    [keeps_original]: the original slot [Run] installs (the input
    images, shared with the contaminated slot, and the all-false mask,
    shared with the contaminated and the revised slot) refers to the
    same images and mask, with the same contents, when the root action
    returns and when [Run] returns. *)
Lemma Run_under_contract (strategy : Strategy) (root : Action)
  (input : ImageSet) (L : list Image2DPtr) (width height : nat)
  (m : Memory) :
  keeps_original (Perform root) ->
  valid_ImageSet m input L width height ->
  mem_objects m !! Strategy_data strategy =
    Some (Obj_StrategyData {| strategyPtr := root |}) ->
  exists (artifacts : ArtifactSet) (m0 : Memory),
    Run_install TimeFrequencyData_0 input m = Returns artifacts m0 /\
    ContaminatedData artifacts = OriginalData artifacts /\
    _flagging (RevisedData artifacts) = _flagging (OriginalData artifacts) /\
    _images (OriginalData artifacts) = L /\
    allocated m0 (OriginalData artifacts) /\
    image_contents m0 (OriginalData artifacts) =
      map (fun p : Image2DPtr => p ≫= fun a => mem_images m !! a) L /\
    forall (artifacts' : ArtifactSet) (m1 : Memory),
      Perform root artifacts m0 = Returns artifacts' m1 ->
      OriginalData artifacts' = OriginalData artifacts /\
      image_contents m1 (OriginalData artifacts') =
        image_contents m0 (OriginalData artifacts) /\
      mask_contents m1 (OriginalData artifacts') =
        mask_contents m0 (OriginalData artifacts) /\
      forall (flagMask : FlagMask) (m2 : Memory),
        Run TimeFrequencyData_0 GetCombinedMask Perform strategy input m =
          Returns flagMask m2 ->
        image_contents m2 (OriginalData artifacts') =
          image_contents m0 (OriginalData artifacts) /\
        mask_contents m2 (OriginalData artifacts') =
          mask_contents m0 (OriginalData artifacts).
Proof.
  intros HP Hv Hs.
  pose proof (Run_install_valid m input L width height Hv)
    as Hinstall. cbn zeta in Hinstall.
  destruct (allocated_Run_memory m input L width height (length L) Hv)
    as [Halloc Himg].
  eexists _, _. split; [exact Hinstall |].
  split; [reflexivity |]. split; [reflexivity |]. split; [reflexivity |].
  split; [exact Halloc |]. split; [exact Himg |].
  intros A1 m1 Hperform.
  pose proof (fun H => HP _ _ _ _ H Hperform) as Hkeep.
  destruct (Hkeep Halloc) as (Ho & Hi & Hm). clear Hkeep.
  split; [exact Ho |]. rewrite Ho.
  split; [exact Hi |]. split; [exact Hm |].
  intros fm m2 Hrun.
  unfold Run in Hrun.
  erewrite bind_Returns in Hrun by exact Hinstall.
  assert (get_StrategyData (Strategy_data strategy) (Run_memory m width height)
          = Returns {| strategyPtr := root |} (Run_memory m width height))
    as Hget.
  { unfold get_StrategyData, read_object, mbind, M_bind. cbn.
    rewrite Hs. reflexivity. }
  erewrite bind_Returns in Hrun by exact Hget.
  erewrite bind_Returns in Hrun by exact Hperform.
  unfold Run_result in Hrun.
  apply bind_inv_Returns in Hrun as (single & m1' & Hsingle & Hrun).
  pose proof (GetSingleMask_inv _ _ _ _ Hsingle) as ->.
  unfold CreateCopy, new_mask, new_object, mbind, M_bind, mret, M_ret in Hrun.
  injection Hrun as _ <-.
  rewrite <- Hi, <- Hm. split.
  - apply image_contents_eq. reflexivity.
  - eapply mask_contents_insert.
    + apply not_elem_of_dom, is_fresh.
    + reflexivity.
    + rewrite Hm. apply Halloc.
Qed.
End Facade_properties.

Lemma new_object_Returns (o : Object) (m : Memory) :
  let p := fresh (dom (mem_objects m)) in
  mem_objects m !! p = None /\
  new_object o m =
    Returns p {| mem_images := mem_images m; mem_masks := mem_masks m;
                 mem_objects := <[p := o]> (mem_objects m) |}.
Proof. split; [apply not_elem_of_dom, is_fresh | reflexivity]. Qed.

(** Two wrappers at different addresses are released one after the
    other. *)
Lemma delete_both (p q : addr) (m : Memory) :
  p <> q -> is_Some (mem_objects m !! p) -> is_Some (mem_objects m !! q) ->
  exists m', (delete_object p;; delete_object q) m = Returns tt m' /\
             mem_objects m' = delete q (delete p (mem_objects m)).
Proof.
  intros Hne [o Ho] [o' Ho'].
  eexists. unfold mbind, M_bind, delete_object. rewrite Ho. cbn.
  rewrite lookup_delete_ne by exact Hne. rewrite Ho'. cbn.
  split; reflexivity.
Qed.

(** The second [delete] of one address is undefined. *)
Lemma delete_twice (p : addr) (m : Memory) :
  (delete_object p;; delete_object p) m = Undefined.
Proof.
  unfold mbind, M_bind, delete_object.
  destruct (mem_objects m !! p); [| reflexivity].
  cbn. rewrite lookup_delete_eq. reflexivity.
Qed.

(** C10.  The copy of a [Strategy] holds the address the source holds:
    no wrapper is allocated, the destructors of the two release the same
    wrapper, and running both is a second [delete] of one address.  The
    copies of an [ImageSet], a [FlagMask] and a [QualityStatistics] each
    hold a newly allocated wrapper with the contents of the source's,
    and the destructors of source and copy both return. *)
Theorem copy_constructors (m : Memory)
  (s : Strategy) (sd : StrategyData)
  (i : ImageSet) (id : ImageSetData)
  (f : addr) (fd : FlagMaskData)
  (q : QualityStatistics) (qd : QualityStatisticsData) :
  mem_objects m !! Strategy_data s = Some (Obj_StrategyData sd) ->
  mem_objects m !! ImageSet_data i = Some (Obj_ImageSetData id) ->
  mem_objects m !! f = Some (Obj_FlagMaskData fd) ->
  mem_objects m !! QualityStatistics_data q =
    Some (Obj_QualityStatisticsData qd) ->
  (exists t : Strategy,
     Strategy_copy s m = Returns t m /\
     Strategy_data t = Strategy_data s /\
     Strategy_destroy t = Strategy_destroy s /\
     (Strategy_destroy s;; Strategy_destroy t) m = Undefined) /\
  (exists (j : ImageSet) (m' : Memory),
     ImageSet_copy i m = Returns j m' /\
     fresh_wrapper m m' (ImageSet_data i) (ImageSet_data j)
       (Obj_ImageSetData id) /\
     exists m'', (ImageSet_destroy i;; ImageSet_destroy j) m' =
                 Returns tt m'') /\
  (exists (g : addr) (m' : Memory),
     FlagMask_copy {| FlagMask_data := Some f |} m =
       Returns {| FlagMask_data := Some g |} m' /\
     fresh_wrapper m m' f g (Obj_FlagMaskData fd) /\
     exists m'', (FlagMask_destroy {| FlagMask_data := Some f |};;
                  FlagMask_destroy {| FlagMask_data := Some g |}) m' =
                 Returns tt m'') /\
  (exists (r : QualityStatistics) (m' : Memory),
     QualityStatistics_copy q m = Returns r m' /\
     fresh_wrapper m m' (QualityStatistics_data q) (QualityStatistics_data r)
       (Obj_QualityStatisticsData qd) /\
     exists m'', (QualityStatistics_destroy q;;
                  QualityStatistics_destroy r) m' = Returns tt m'').
Proof.
  intros Hs Hi Hf Hq.
  assert (forall old o o',
            mem_objects m !! old = Some o ->
            exists m', new_object o' m =
                         Returns (fresh (dom (mem_objects m))) m' /\
                       fresh_wrapper m m' old (fresh (dom (mem_objects m))) o' /\
                       exists m'',
                         (delete_object old;;
                          delete_object (fresh (dom (mem_objects m)))) m' =
                         Returns tt m'')
    as Hnew.
  { intros old o o' Hold.
    destruct (new_object_Returns o' m) as [Hfresh Hrun].
    eexists. split; [exact Hrun |].
    assert (fresh (dom (mem_objects m)) <> old) as Hne by congruence.
    split; [split; [exact Hfresh | split; [exact Hne | reflexivity]] |].
    destruct (delete_both old (fresh (dom (mem_objects m)))
                {| mem_images := mem_images m; mem_masks := mem_masks m;
                   mem_objects :=
                     <[fresh (dom (mem_objects m)) := o']> (mem_objects m) |})
      as (m'' & Hd & _).
    - congruence.
    - cbn. rewrite lookup_insert_ne by exact Hne. eauto.
    - cbn. rewrite lookup_insert_eq. eauto.
    - exists m''. exact Hd. }
  split; [| split; [| split]].
  - exists {| Strategy_data := Strategy_data s |}.
    split; [reflexivity |]. split; [reflexivity |]. split; [reflexivity |].
    apply delete_twice.
  - destruct (Hnew _ _ (Obj_ImageSetData id) Hi) as (m' & Hrun & Hw & Hd).
    exists {| ImageSet_data := fresh (dom (mem_objects m)) |}, m'.
    split; [| split; [exact Hw | exact Hd]].
    unfold ImageSet_copy, get_ImageSetData, read_object.
    unfold mbind, M_bind, mret, M_ret. rewrite Hi. cbn.
    destruct id as [L]. cbn. unfold new_object in Hrun |- *.
    injection Hrun as <-. reflexivity.
  - destruct (Hnew _ _ (Obj_FlagMaskData fd) Hf) as (m' & Hrun & Hw & Hd).
    exists (fresh (dom (mem_objects m))), m'.
    split; [| split; [exact Hw | exact Hd]].
    unfold FlagMask_copy, get_FlagMaskData, read_object.
    unfold mbind, M_bind, mret, M_ret. cbn. rewrite Hf. cbn.
    destruct fd as [k]. cbn. unfold new_object in Hrun |- *.
    injection Hrun as <-. reflexivity.
  - destruct (Hnew _ _ (Obj_QualityStatisticsData qd) Hq)
      as (m' & Hrun & Hw & Hd).
    exists {| QualityStatistics_data := fresh (dom (mem_objects m)) |}, m'.
    split; [| split; [exact Hw | exact Hd]].
    unfold QualityStatistics_copy, get_QualityStatisticsData, read_object.
    unfold mbind, M_bind, mret, M_ret. rewrite Hq. cbn.
    destruct qd as [k]. cbn. unfold new_object in Hrun |- *.
    injection Hrun as <-. reflexivity.
Qed.

(** ** Properties of the modelled actions *)

Lemma Action_children_ind (P : Action -> Prop) :
  (forall a : Action, Forall P (children_of a) -> P a) ->
  forall a : Action, P a.
Proof.
  intros step. fix IH 1. intros a. apply step.
  destruct a as [cs | cs | cs | ? cs | ? cs | cs | ? cs | | | | | | | | | | |];
    cbn [children_of]; try (constructor; fail);
    (revert cs; fix IHcs 1; intros [|c cs];
     [constructor | constructor; [apply IH | apply IHcs]]).
Qed.

Lemma extends_refl (m : Memory) : extends m m.
Proof. split; reflexivity. Qed.

Lemma extends_trans (m1 m2 m3 : Memory) :
  extends m1 m2 -> extends m2 m3 -> extends m1 m3.
Proof. intros [H1 H2] [H3 H4]. split; etrans; eassumption. Qed.

Lemma new_image_extends (i : Image2D) (m : Memory) :
  exists (p : addr) (m' : Memory),
    new_image i m = Returns p m' /\ extends m m'.
Proof.
  eexists _, _. split; [reflexivity |]. split; cbn; [| reflexivity].
  apply insert_subseteq, not_elem_of_dom, is_fresh.
Qed.

Lemma new_mask_extends (k : Mask2D) (m : Memory) :
  exists (p : addr) (m' : Memory),
    new_mask k m = Returns p m' /\ extends m m'.
Proof.
  eexists _, _. split; [reflexivity |]. split; cbn; [reflexivity |].
  apply insert_subseteq, not_elem_of_dom, is_fresh.
Qed.

Lemma new_images_extends (contents : list Image2D) :
  forall m : Memory,
  exists (ps : list Image2DPtr) (m' : Memory),
    new_images contents m = Returns ps m' /\ extends m m'.
Proof.
  induction contents as [|i contents IH]; intros m; cbn [new_images].
  - exists [], m. split; [reflexivity | apply extends_refl].
  - destruct (new_image_extends i m) as (p & m1 & H1 & E1).
    destruct (IH m1) as (ps & m2 & H2 & E2).
    exists (Some p :: ps), m2. split.
    + erewrite bind_Returns by exact H1.
      erewrite bind_Returns by exact H2. reflexivity.
    + eapply extends_trans; eassumption.
Qed.

Lemma new_masks_extends (contents : list Mask2D) :
  forall m : Memory,
  exists (ps : list Mask2DPtr) (m' : Memory),
    new_masks contents m = Returns ps m' /\ extends m m'.
Proof.
  induction contents as [|k contents IH]; intros m; cbn [new_masks].
  - exists [], m. split; [reflexivity | apply extends_refl].
  - destruct (new_mask_extends k m) as (p & m1 & H1 & E1).
    destruct (IH m1) as (ps & m2 & H2 & E2).
    exists (Some p :: ps), m2. split.
    + erewrite bind_Returns by exact H1.
      erewrite bind_Returns by exact H2. reflexivity.
    + eapply extends_trans; eassumption.
Qed.

(** A bundle is stored in new buffers, whatever the memory holds. *)
Lemma store_extends (c : Contents) (m : Memory) :
  exists (d : TimeFrequencyData) (m' : Memory),
    store c m = Returns d m' /\ extends m m'.
Proof.
  destruct (new_images_extends (contents_images c) m)
    as (images & m1 & H1 & E1).
  destruct (new_masks_extends (contents_masks c) m1)
    as (masks & m2 & H2 & E2).
  eexists _, m2. split.
  - unfold store. erewrite bind_Returns by exact H1.
    erewrite bind_Returns by exact H2. reflexivity.
  - eapply extends_trans; eassumption.
Qed.

Lemma grows_mret : grows mret.
Proof. intros A A' m m' [= <- <-]. split; [reflexivity | apply extends_refl]. Qed.

Lemma grows_sequence (f g : ArtifactSet -> M ArtifactSet) :
  grows f -> grows g -> grows (sequence f g).
Proof.
  intros Hf Hg A A2 m m2 Hrun. unfold sequence in Hrun.
  apply bind_inv_Returns in Hrun as (A1 & m1 & H1 & H2).
  destruct (Hf _ _ _ _ H1) as [O1 E1]. destruct (Hg _ _ _ _ H2) as [O2 E2].
  split; [congruence | eapply extends_trans; eassumption].
Qed.

Lemma grows_in_rounds (body : nat -> ArtifactSet -> M ArtifactSet)
  (n : nat) :
  (forall i : nat, grows (body i)) ->
  forall start : nat, grows (in_rounds start n body).
Proof.
  intros Hbody. induction n as [|n IH]; intros start; cbn [in_rounds].
  - apply grows_mret.
  - apply grows_sequence; [apply Hbody | apply IH].
Qed.

Lemma grows_children (perform : Action -> ArtifactSet -> M ArtifactSet)
  (cs : list Action) :
  Forall (fun c => grows (perform c)) cs ->
  grows (fold_right (fun c k => sequence (perform c) k) mret cs).
Proof.
  induction 1 as [|c cs Hc _ IH]; cbn [fold_right].
  - apply grows_mret.
  - apply grows_sequence; assumption.
Qed.

(** A write leaves the original slot alone and stores what it writes in
    new buffers. *)
Lemma grows_write (w : Writes) : grows (write w).
Proof.
  intros A A' m m' Hrun. unfold write in Hrun.
  apply bind_inv_Returns in Hrun as (A1 & m1 & H1 & H2).
  assert (OriginalData A1 = OriginalData A /\ extends m m1) as [O1 E1].
  { destruct (to_contaminated w) as [c|].
    - destruct (store_extends c m) as (d & m0 & Hs & E).
      erewrite bind_Returns in H1 by exact Hs.
      injection H1 as <- <-. split; [reflexivity | exact E].
    - injection H1 as <- <-. split; [reflexivity | apply extends_refl]. }
  assert (OriginalData A' = OriginalData A1 /\ extends m1 m') as [O2 E2].
  { destruct (to_revised w) as [c|].
    - destruct (store_extends c m1) as (d & m0 & Hs & E).
      erewrite bind_Returns in H2 by exact Hs.
      injection H2 as <- <-. split; [reflexivity | exact E].
    - injection H2 as <- <-. split; [reflexivity | apply extends_refl]. }
  split; [congruence | eapply extends_trans; eassumption].
Qed.

Lemma grows_act (r : exception + Writes) : grows (act r).
Proof.
  destruct r as [e | w]; [| apply grows_write].
  intros A A' m m' Hrun. discriminate Hrun.
Qed.

(** What was allocated holds what it held. *)
Lemma contents_extends (m m' : Memory) (d : TimeFrequencyData) :
  extends m m' -> allocated m d ->
  image_contents m' d = image_contents m d /\
  mask_contents m' d = mask_contents m d.
Proof.
  intros [Hi Hm] [Ai Am]. unfold image_contents, mask_contents in *.
  split.
  - apply map_ext_in. intros q Hq.
    rewrite Forall_forall in Ai.
    destruct (Ai (q ≫= fun a => mem_images m !! a)) as [I HI].
    { apply list_elem_of_In, in_map_iff. eauto. }
    destruct q as [a|]; [| discriminate HI]. cbn in *.
    rewrite HI. eapply lookup_weaken; eassumption.
  - apply map_ext_in. intros q Hq.
    rewrite Forall_forall in Am.
    destruct (Am (q ≫= fun a => mem_masks m !! a)) as [k Hk].
    { apply list_elem_of_In, in_map_iff. eauto. }
    destruct q as [a|]; [| discriminate Hk]. cbn in *.
    rewrite Hk. eapply lookup_weaken; eassumption.
Qed.

(** An effect that grows the memory keeps to the contract of the
    spec. *)
Lemma grows_keeps_original (perform : ArtifactSet -> M ArtifactSet) :
  grows perform -> keeps_original perform.
Proof.
  intros Hg A A' m m' Ha Hrun. destruct (Hg _ _ _ _ Hrun) as [Ho E].
  split; [exact Ho |]. apply contents_extends; assumption.
Qed.

Section Actions_properties.

Variable GetCombinedMask : FlagCoverage -> list Mask2D -> Mask2D.
Variable DilateFlags : nat -> nat -> Mask2D -> Mask2D.
Variable OperateHorizontally : double -> Mask2D -> Mask2D.
Variable OperateVertically : double -> Mask2D -> Mask2D.
Variable computes :
  Position -> Action -> Memory -> ArtifactSet -> exception + Writes.
Variable rounds : Action -> Memory -> ArtifactSet -> nat.
Variable exposes :
  Position -> Action -> Memory -> ArtifactSet ->
  Contents * Contents * Contents.
Variable merges :
  Position -> Action -> Memory -> ArtifactSet -> ArtifactSet ->
  exception + Writes.

(** The action of the sources copies the mask before it rewrites it. *)
Lemma grows_StatisticalFlagAction (self : StatisticalFlagAction) :
  grows
    (StatisticalFlagAction_Perform GetCombinedMask DilateFlags
       OperateHorizontally OperateVertically self).
Proof.
  intros A A' m m' Hrun.
  destruct (GetSingleMask GetCombinedMask (ContaminatedData A) m)
    as [single m0 | |] eqn:Hsingle.
  - pose proof (GetSingleMask_inv _ _ _ _ _ Hsingle) as ->.
    rewrite (StatisticalFlagAction_Perform_Returns GetCombinedMask
               DilateFlags OperateHorizontally OperateVertically self A
               single m Hsingle) in Hrun.
    injection Hrun as <- <-.
    split; [reflexivity |]. split; cbn; [reflexivity |].
    apply insert_subseteq, not_elem_of_dom, is_fresh.
  - unfold StatisticalFlagAction_Perform in Hrun.
    erewrite bind_Throws in Hrun by exact Hsingle. discriminate.
  - unfold StatisticalFlagAction_Perform in Hrun.
    erewrite bind_Undefined in Hrun by exact Hsingle. discriminate.
Qed.

Lemma grows_Perform_leaf (position : Position) (a : Action) :
  grows (Perform_leaf computes position a).
Proof.
  intros A A' m m' Hrun. unfold Perform_leaf in Hrun.
  apply bind_inv_Returns in Hrun as (m0 & m1 & [= <- <-] & Hrun).
  exact (grows_act _ _ _ _ _ Hrun).
Qed.

(** The children of a block that exposes data work on an artifact set
    of their own; the block writes to the one it was given. *)
Lemma grows_Perform_exposed (position : Position) (a : Action)
  (children : ArtifactSet -> M ArtifactSet) :
  grows children -> grows (Perform_exposed exposes merges position a children).
Proof.
  intros Hc A A' m m' Hrun. unfold Perform_exposed in Hrun.
  apply bind_inv_Returns in Hrun as (m0 & ? & [= <- <-] & Hrun).
  apply bind_inv_Returns in Hrun as (o & m1 & H1 & Hrun).
  apply bind_inv_Returns in Hrun as (c & m2 & H2 & Hrun).
  apply bind_inv_Returns in Hrun as (r & m3 & H3 & Hrun).
  apply bind_inv_Returns in Hrun as (child & m4 & H4 & Hrun).
  apply bind_inv_Returns in Hrun as (m5 & ? & [= <- <-] & Hrun).
  destruct (store_extends (exposes position a m A).1.1 m)
    as (? & ? & H1' & E1). rewrite H1 in H1'. injection H1' as <- <-.
  destruct (store_extends (exposes position a m A).1.2 m1)
    as (? & ? & H2' & E2). rewrite H2 in H2'. injection H2' as <- <-.
  destruct (store_extends (exposes position a m A).2 m2)
    as (? & ? & H3' & E3). rewrite H3 in H3'. injection H3' as <- <-.
  destruct (Hc _ _ _ _ H4) as [_ E4].
  destruct (grows_act _ _ _ _ _ Hrun) as [Ho E5].
  split; [exact Ho |].
  eapply extends_trans; [exact E1 |]. eapply extends_trans; [exact E2 |].
  eapply extends_trans; [exact E3 |]. eapply extends_trans; [exact E4 |].
  exact E5.
Qed.

(** No action of a tree writes to a buffer that exists, and none
    replaces the original slot. *)
Lemma grows_Action_Perform (a : Action) :
  forall position : Position,
    grows
      (Action_Perform GetCombinedMask DilateFlags OperateHorizontally
         OperateVertically computes rounds exposes merges position a).
Proof.
  induction a as [a IH] using Action_children_ind. intros position.
  assert (forall position' : Position,
            grows
              (fold_right
                 (fun c k =>
                    sequence
                      (Action_Perform GetCombinedMask DilateFlags
                         OperateHorizontally OperateVertically computes
                         rounds exposes merges position' c) k)
                 mret (children_of a))) as Hchildren.
  { intros position'.
    apply (grows_children
             (Action_Perform GetCombinedMask DilateFlags
                OperateHorizontally OperateVertically computes rounds
                exposes merges position')).
    eapply Forall_impl; [exact IH |]. intros c Hc. apply Hc. }
  destruct a; cbn [Action_Perform children_of] in *;
    try apply grows_Perform_leaf.
  - apply Hchildren.
  - apply Hchildren.
  - intros A A' m m' Hrun.
    apply bind_inv_Returns in Hrun as (m0 & ? & [= <- <-] & Hrun).
    revert Hrun. apply grows_in_rounds. intros i.
    apply grows_Perform_exposed, Hchildren.
  - intros A A' m m' Hrun.
    apply bind_inv_Returns in Hrun as (m0 & ? & [= <- <-] & Hrun).
    revert Hrun. apply grows_in_rounds. intros i.
    apply grows_Perform_exposed, Hchildren.
  - apply grows_in_rounds. intros i. apply Hchildren.
  - apply grows_Perform_exposed, Hchildren.
  - apply grows_Perform_exposed, Hchildren.
  - apply grows_StatisticalFlagAction.
Qed.

End Actions_properties.

Section Run_original.

Variable TimeFrequencyData_0 : TimeFrequencyData.
Variable GetCombinedMask : FlagCoverage -> list Mask2D -> Mask2D.
Variable DilateFlags : nat -> nat -> Mask2D -> Mask2D.
Variable OperateHorizontally : double -> Mask2D -> Mask2D.
Variable OperateVertically : double -> Mask2D -> Mask2D.
Variable computes :
  Position -> Action -> Memory -> ArtifactSet -> exception + Writes.
Variable rounds : Action -> Memory -> ArtifactSet -> nat.
Variable exposes :
  Position -> Action -> Memory -> ArtifactSet ->
  Contents * Contents * Contents.
Variable merges :
  Position -> Action -> Memory -> ArtifactSet -> ArtifactSet ->
  exception + Writes.


End Run_original.

(** ** Worked examples *)

Lemma sample_Perform_keeps_original (a : Action) :
  keeps_original (sample_Perform a).
Proof.
  unfold sample_Perform.
  induction (subactions a) as [|c cs IH]; cbn [fold_right].
  - apply keeps_original_mret.
  - apply keeps_original_sequence; [| exact IH].
    destruct c; try apply keeps_original_mret.
    apply StatisticalFlagAction_keeps_original.
Qed.

Lemma sample_input_valid :
  valid_ImageSet sample_memory sample_input [Some 1%positive] 2 1.
Proof.
  split; [reflexivity |]. split; [left; reflexivity |].
  intros [|i] q Hq; [| destruct i; discriminate Hq].
  injection Hq as <-. exists 1%positive, sample_image.
  repeat split.
Qed.

(** The kinds of the root's children, for no flag and for TRANSIENTS
    with CLEAR_FLAGS. *)
Example default_tree_no_flags :
  children_of sample_tree =
  [Action_SetFlagging {| _newFlagging := FlaggingNone |};
   Action_ForEachPolarisationBlock
     [Action_ForEachComplexComponent
        {| _onAmplitude := true; _onPhase := false; _onReal := false;
           _onImaginary := false; _restoreFromAmplitude := false |}
        [Action_IterationBlock
           {| _iterationCount := 2;
              _sensitivityStart := (2 * pow 2 (IZR 2 / 2))%R |}
           [Action_SumThreshold
              {| _baseSensitivity := 1%R;
                 _frequencyDirectionFlagging := true |};
            Action_CombineFlagResults
              [Action_FrequencySelection; Action_TimeSelection];
            Action_SetImage;
            Action_ChangeResolution
              {| _timeDecreaseFactor := 3; _frequencyDecreaseFactor := 3 |}
              [Action_HighPassFilter
                 {| _windowWidth := 21; _windowHeight := 31;
                    _hKernelSigmaSq := 2.5%R; _vKernelSigmaSq := 5%R;
                    _mode := StoreRevised |}]];
         Action_SumThreshold
           {| _baseSensitivity := 1%R;
              _frequencyDirectionFlagging := true |}]];
   Action_Plot {| _plotKind := PolarizationStatisticsPlot |};
   Action_SetFlagging {| _newFlagging := PolarisationsEqual |};
   Action_StatisticalFlag (StatisticalFlagAction_new sample_constructors);
   Action_TimeSelection;
   Action_BaselineSelection {| _preparationStep := true |};
   Action_SetFlagging {| _newFlagging := OrOriginal |}].
Proof. reflexivity. Qed.

Example default_tree_transients_clear :
  children_of
    (CreateStrategy sample_constructors sample_undeclared MWA_TELESCOPE
       (Z.lor StrategyFlags.TRANSIENTS StrategyFlags.CLEAR_FLAGS)
       0%R 0%R 0%R) =
  [Action_SetFlagging {| _newFlagging := FlaggingNone |};
   Action_ForEachPolarisationBlock
     [Action_ForEachComplexComponent
        {| _onAmplitude := true; _onPhase := false; _onReal := false;
           _onImaginary := false; _restoreFromAmplitude := false |}
        [Action_IterationBlock
           {| _iterationCount := 2;
              _sensitivityStart := (2 * pow 2 (IZR 2 / 2))%R |}
           [Action_SumThreshold
              {| _baseSensitivity := 1%R;
                 _frequencyDirectionFlagging := false |};
            Action_CombineFlagResults [Action_FrequencySelection];
            Action_SetImage;
            Action_ChangeResolution
              {| _timeDecreaseFactor := 1; _frequencyDecreaseFactor := 3 |}
              [Action_HighPassFilter
                 {| _windowWidth := 1; _windowHeight := 31;
                    _hKernelSigmaSq := 7.5%R; _vKernelSigmaSq := 5%R;
                    _mode := StoreRevised |}]];
         Action_CalibratePassband;
         Action_SumThreshold
           {| _baseSensitivity := 1%R;
              _frequencyDirectionFlagging := false |}]];
   Action_Plot {| _plotKind := PolarizationStatisticsPlot |};
   Action_SetFlagging {| _newFlagging := PolarisationsEqual |};
   Action_StatisticalFlag (StatisticalFlagAction_new sample_constructors);
   Action_BaselineSelection {| _preparationStep := true |}].
Proof. reflexivity. Qed.

(** [MakeImageSet] with a count of 2, then [Run] with the sample
    actions: the flag mask that comes back is the all-false mask after
    the three sample rewritings. *)
Example Run_sample :
  (input ← MakeImageSet_set sample_limits 2 1 2 0%R;
   flagMask ← Run sample_TimeFrequencyData_0 sample_GetCombinedMask
                sample_Perform sample_strategy input;
   FlagMask_Buffer flagMask) sample_memory =
  (_ ← MakeImageSet_set sample_limits 2 1 2 0%R;
   _ ← new_image {| image_width := 2; image_height := 1;
                    image_values := [[0%R; 0%R]] |};
   _ ← new_mask {| mask_width := 2; mask_height := 1;
                   mask_values := [[false; false]] |};
   _ ← new_mask {| mask_width := 2; mask_height := 1;
                   mask_values := [[false; true]] |};
   copy ← new_mask {| mask_width := 2; mask_height := 1;
                      mask_values := [[false; true]] |};
   _ ← new_object (Obj_FlagMaskData {| mask := Some copy |});
   mret [[false; true]]) sample_memory.
Proof. vm_compute. reflexivity. Qed.

(** An image set of three images is refused. *)
Example MakeImageSet_3 :
  MakeImageSet sample_limits sample_unset_values 2 1 3 empty_memory =
  Throws (runtime_error invalid_count_message)
    {| mem_images := ∅; mem_masks := ∅;
       mem_objects :=
         {[ 1%positive :=
              Obj_ImageSetData {| images := [None; None; None] |} ]} |}.
Proof. reflexivity. Qed.

(** *** The theorems with a hypothesis, at the sample values *)

Lemma transients_witness :
  Z.land 0x04 StrategyFlags.TRANSIENTS <> 0%Z /\
  length
    (List.filter is_SumThreshold
       (subactions
          (CreateStrategy sample_constructors sample_undeclared
             LOFAR_TELESCOPE 0x04 0%R 0%R 0%R))) = 2 /\
  forall t : SumThresholdAction,
    In (Action_SumThreshold t)
       (subactions
          (CreateStrategy sample_constructors sample_undeclared
             LOFAR_TELESCOPE 0x04 0%R 0%R 0%R)) ->
    _frequencyDirectionFlagging t = false.
Proof.
  assert (Z.land 0x04 StrategyFlags.TRANSIENTS <> 0%Z) as H
    by (vm_compute; discriminate).
  split; [exact H |].
  apply (transients_disable_frequency_direction sample_constructors
           sample_undeclared LOFAR_TELESCOPE 0x04 0%R 0%R 0%R H).
Defined.



Lemma Run_witness :
  valid_ImageSet sample_memory sample_input [Some 1%positive] 2 1 /\
  mem_objects sample_memory !! Strategy_data sample_strategy =
    Some (Obj_StrategyData {| strategyPtr := sample_tree |}) /\
  exists (mask zeroImage : addr),
    let artifacts :=
      {| _originalData := layout [Some 1%positive] 1 (Some mask);
         _contaminatedData := layout [Some 1%positive] 1 (Some mask);
         _revisedData := layout [Some zeroImage] 1 (Some mask) |} in
    mem_masks sample_memory !! mask = None /\
    mem_images sample_memory !! zeroImage = None /\
    kind_of (OriginalData artifacts) = Amplitude.
Proof.
  split; [exact sample_input_valid |]. split; [reflexivity |].
  destruct (Run_spec sample_TimeFrequencyData_0 sample_GetCombinedMask
              sample_Perform sample_strategy sample_tree sample_input
              [Some 1%positive] 2 1 sample_memory sample_input_valid eq_refl)
    as (mask & zeroImage & Hm & Hz & Hk & _).
  exists mask, zeroImage. cbn zeta. auto.
Defined.


Lemma StatisticalFlagAction_witness :
  GetSingleMask sample_GetCombinedMask (ContaminatedData sample_artifacts)
    sample_memory =
    Returns {| mask_width := 2; mask_height := 1;
               mask_values := [[false; true]] |} sample_memory /\
  exists (artifacts' : ArtifactSet) (m' : Memory),
    StatisticalFlagAction_Perform sample_GetCombinedMask sample_DilateFlags
      sample_OperateHorizontally sample_OperateVertically
      (StatisticalFlagAction_new sample_constructors) sample_artifacts
      sample_memory = Returns artifacts' m' /\
    GetSingleMask sample_GetCombinedMask (ContaminatedData artifacts') m' =
      Returns {| mask_width := 2; mask_height := 1;
                 mask_values := [[false; false]] |} m'.
Proof.
  split; [reflexivity |].
  destruct (StatisticalFlagAction_Perform_spec sample_GetCombinedMask
              sample_DilateFlags sample_OperateHorizontally
              sample_OperateVertically
              (StatisticalFlagAction_new sample_constructors)
              sample_artifacts
              {| mask_width := 2; mask_height := 1;
                 mask_values := [[false; true]] |}
              sample_memory sample_memory eq_refl)
    as (_ & Hrun & Hsingle & _).
  eexists _, _. split; [exact Hrun | exact Hsingle].
Defined.

Lemma copy_constructors_witness :
  mem_objects sample_memory !! Strategy_data sample_strategy =
    Some (Obj_StrategyData {| strategyPtr := sample_tree |}) /\
  (exists t : Strategy,
     Strategy_copy sample_strategy sample_memory = Returns t sample_memory /\
     Strategy_data t = Strategy_data sample_strategy /\
     (Strategy_destroy sample_strategy;; Strategy_destroy t) sample_memory =
       Undefined) /\
  (exists (j : ImageSet) (m' : Memory),
     ImageSet_copy sample_input sample_memory = Returns j m' /\
     ImageSet_data j <> ImageSet_data sample_input).
Proof.
  split; [reflexivity |].
  destruct (copy_constructors sample_memory
              sample_strategy {| strategyPtr := sample_tree |}
              sample_input {| images := [Some 1%positive] |}
              3%positive {| mask := Some 1%positive |}
              sample_statistics {| _implementation := 1%positive |}
              eq_refl eq_refl eq_refl eq_refl)
    as ((t & Hcopy & Hsame & _ & Hdouble) & (j & m' & Hj & Hw & _) & _).
  split.
  - exists t. auto.
  - exists j, m'. split; [exact Hj |]. apply Hw.
Defined.

(** ** More properties of the default-strategy builder *)

Section DefaultStrategy_structure.
Variable new : Constructors.
Variable undeclared : UndeclaredFlags.
Variable defaultResolution : double.

Lemma LoadSingleStrategy_app block n kt cp cf rc :
  LoadSingleStrategy new block n kt cp cf rc =
  block ++ LoadSingleStrategy new [] n kt cp cf rc.
Proof.
  unfold LoadSingleStrategy, Add.
  destruct kt, cp, cf, rc; cbn [negb app]; rewrite <- ?app_assoc; reflexivity.
Qed.

(** X1.  [LoadStrategy] keeps the actions the block already holds, in
    their order, and appends to them exactly the children of the root
    that [CreateStrategy] builds for the same arguments. *)
Theorem LoadStrategy_appends (strategy : list Action)
  (telescopeId : TelescopeId) (flags : Z)
  (frequency timeRes frequencyRes : double) :
  LoadStrategy new undeclared strategy telescopeId flags frequency timeRes
    frequencyRes =
  strategy ++
  children_of
    (CreateStrategy new undeclared telescopeId flags frequency timeRes
       frequencyRes).
Proof. unfold LoadStrategy. apply LoadSingleStrategy_app. Qed.


Lemma CreateStrategy_decisions (telescopeId : TelescopeId) (flags : Z)
  (frequency timeRes frequencyRes : double) :
  CreateStrategy new undeclared telescopeId flags frequency timeRes
    frequencyRes =
  Action_Strategy
    (LoadSingleStrategy new [] (iterationCount_of flags)
       (keepTransients_of flags) (calPassband_of undeclared telescopeId flags)
       (clearFlags_of flags) (resetContaminated_of flags)).
Proof. reflexivity. Qed.

(** A flag that shares no bit with [mask] does not change the test of
    [mask]. *)
Lemma land_lor_disjoint (flags g mask : Z) :
  Z.land g mask = 0%Z -> Z.land (Z.lor flags g) mask = Z.land flags mask.
Proof.
  intros H. rewrite Z.land_lor_distr_l, H. apply Z.lor_0_r.
Qed.

(** X2.  The tree does not depend on the frequency, on the two
    resolutions, on which telescope other than MWA is named, or on any
    of the flags LOW_FREQUENCY, HIGH_FREQUENCY, FAST, OFF_AXIS_SOURCES,
    UNSENSITIVE and SENSITIVE, as long as such a flag shares no bit with
    the two bandwidth flags the builder tests. *)
Theorem default_strategy_ignores (telescopeId telescopeId' : TelescopeId)
  (flags g : Z) (frequency timeRes frequencyRes : double)
  (frequency' timeRes' frequencyRes' : double) :
  (telescopeId = MWA_TELESCOPE <-> telescopeId' = MWA_TELESCOPE) ->
  In g [StrategyFlags.LOW_FREQUENCY; StrategyFlags.HIGH_FREQUENCY;
        StrategyFlags.FAST; StrategyFlags.OFF_AXIS_SOURCES;
        StrategyFlags.UNSENSITIVE; StrategyFlags.SENSITIVE] ->
  Z.land g (SMALL_BANDWIDTH undeclared) = 0%Z ->
  Z.land g (LARGE_BANDWIDTH undeclared) = 0%Z ->
  CreateStrategy new undeclared telescopeId (Z.lor flags g) frequency
    timeRes frequencyRes =
  CreateStrategy new undeclared telescopeId' flags frequency' timeRes'
    frequencyRes'.
Proof.
  intros Htel Hg Hsmall Hlarge.
  rewrite !CreateStrategy_decisions.
  assert (forall mask,
            In mask [StrategyFlags.TRANSIENTS; StrategyFlags.ROBUST;
                     StrategyFlags.GUI_FRIENDLY; StrategyFlags.CLEAR_FLAGS] ->
            Z.land (Z.lor flags g) mask = Z.land flags mask) as Hmask.
  { intros mask Hmask. apply land_lor_disjoint.
    cbn in Hg, Hmask.
    repeat (destruct Hg as [<- | Hg]; [|]); try contradiction;
      repeat (destruct Hmask as [<- | Hmask]; [|]); try contradiction;
      reflexivity. }
  unfold iterationCount_of, keepTransients_of, clearFlags_of,
    resetContaminated_of, calPassband_of, FLAG_ROBUST, FLAG_TRANSIENTS,
    FLAG_CLEAR_FLAGS, FLAG_GUI_FRIENDLY, FLAG_SMALL_BANDWIDTH,
    FLAG_LARGE_BANDWIDTH.
  rewrite !(Hmask StrategyFlags.TRANSIENTS) by (cbn; auto).
  rewrite !(Hmask StrategyFlags.ROBUST) by (cbn; auto).
  rewrite !(Hmask StrategyFlags.GUI_FRIENDLY) by (cbn; auto).
  rewrite !(Hmask StrategyFlags.CLEAR_FLAGS) by (cbn; auto).
  rewrite !(land_lor_disjoint flags g _ Hsmall).
  rewrite !(land_lor_disjoint flags g _ Hlarge).
  assert (TelescopeId_eqb telescopeId MWA_TELESCOPE =
          TelescopeId_eqb telescopeId' MWA_TELESCOPE) as ->.
  { destruct telescopeId, telescopeId'; try reflexivity;
      destruct Htel as [H1 H2];
      first [ discriminate (H1 eq_refl) | discriminate (H2 eq_refl) ]. }
  reflexivity.
Qed.

Lemma LoadSingleStrategy_TimeSelection n kt cp cf rc :
  List.filter is_TimeSelection
    (flat_map subactions (LoadSingleStrategy new [] n kt cp cf rc)) =
  (if kt then @nil Action else [Action_TimeSelection; Action_TimeSelection]) /\
  List.filter is_FrequencySelection
    (flat_map subactions (LoadSingleStrategy new [] n kt cp cf rc)) =
  [Action_FrequencySelection].
Proof. destruct kt, cp, cf, rc; split; reflexivity. Qed.

(** X3.  The tree holds one frequency selection whatever the flags, and
    two time selections (one in the iteration, one at the root) unless
    TRANSIENTS is set, in which case it holds none. *)
Theorem time_selection_unless_transients (telescopeId : TelescopeId)
  (flags : Z) (frequency timeRes frequencyRes : double) :
  let tree :=
    CreateStrategy new undeclared telescopeId flags frequency timeRes
      frequencyRes in
  length (List.filter is_TimeSelection (subactions tree)) =
    (if flag_set flags StrategyFlags.TRANSIENTS then 0 else 2) /\
  length (List.filter is_FrequencySelection (subactions tree)) = 1.
Proof.
  cbn zeta. rewrite CreateStrategy_decisions.
  cbn [subactions List.filter is_TimeSelection is_FrequencySelection].
  destruct (LoadSingleStrategy_TimeSelection (iterationCount_of flags)
              (keepTransients_of flags)
              (calPassband_of undeclared telescopeId flags)
              (clearFlags_of flags) (resetContaminated_of flags))
    as [-> ->].
  unfold keepTransients_of, flag_set, FLAG_TRANSIENTS.
  destruct (negb _); split; reflexivity.
Qed.

Lemma LoadSingleStrategy_filter (n : Z) (kt cp cf rc : bool) :
  let changeResAction :=
    SetFrequencyDecreaseFactor 3
      (SetTimeDecreaseFactor (if kt then 1 else 3)%Z
         (ChangeResolutionAction_new new)) in
  let hpAction :=
    SetMode StoreRevised
      (SetWindowHeight 31
         (SetVKernelSigmaSq 5%R
            (if kt
             then SetWindowWidth 1 (HighPassFilterAction_new new)
             else SetWindowWidth 21
                    (SetHKernelSigmaSq 2.5%R
                       (HighPassFilterAction_new new))))) in
  List.filter is_ChangeResolution
    (flat_map subactions (LoadSingleStrategy new [] n kt cp cf rc)) =
  [Action_ChangeResolution changeResAction [Action_HighPassFilter hpAction]]
  /\
  List.filter is_HighPassFilter
    (flat_map subactions (LoadSingleStrategy new [] n kt cp cf rc)) =
  [Action_HighPassFilter hpAction].
Proof. destruct kt, cp, cf, rc; split; reflexivity. Qed.

(** X4.  The tree holds one change of resolution, whose only child is
    the one high-pass filter of the tree.  Frequency is decreased by 3,
    the window is 31 high, the vertical kernel is 5.0 and the mode is
    StoreRevised; with TRANSIENTS time is not decreased (factor 1), the
    window is 1 wide and the horizontal kernel is left as constructed;
    without, the factor is 3, the width 21 and the kernel 2.5. *)
Theorem background_fit_parameters (telescopeId : TelescopeId)
  (flags : Z) (frequency timeRes frequencyRes : double) :
  let tree :=
    CreateStrategy new undeclared telescopeId flags frequency timeRes
      frequencyRes in
  let transients := flag_set flags StrategyFlags.TRANSIENTS in
  exists (c : ChangeResolutionAction) (h : HighPassFilterAction),
    List.filter is_ChangeResolution (subactions tree) =
      [Action_ChangeResolution c [Action_HighPassFilter h]] /\
    List.filter is_HighPassFilter (subactions tree) =
      [Action_HighPassFilter h] /\
    _timeDecreaseFactor c = (if transients then 1 else 3)%Z /\
    _frequencyDecreaseFactor c = 3%Z /\
    _windowWidth h = (if transients then 1 else 21)%Z /\
    _windowHeight h = 31%Z /\
    _hKernelSigmaSq h =
      (if transients then _hKernelSigmaSq (HighPassFilterAction_new new)
       else 2.5%R) /\
    _vKernelSigmaSq h = 5%R /\
    _mode h = StoreRevised.
Proof.
  cbn zeta. rewrite CreateStrategy_decisions.
  cbn [subactions List.filter is_ChangeResolution is_HighPassFilter].
  destruct (LoadSingleStrategy_filter (iterationCount_of flags)
              (keepTransients_of flags)
              (calPassband_of undeclared telescopeId flags)
              (clearFlags_of flags) (resetContaminated_of flags))
    as [Hc Hh].
  cbn zeta in Hc, Hh. rewrite Hc, Hh.
  eexists _, _. split; [reflexivity |]. split; [reflexivity |].
  unfold keepTransients_of, flag_set, FLAG_TRANSIENTS.
  destruct (negb _); repeat split.
Qed.

Lemma LoadSingleStrategy_head n kt cp cf rc :
  head (LoadSingleStrategy new [] n kt cp cf rc) =
    Some (if rc then Action_SetImage
          else Action_SetFlagging (SetFlaggingAction_new new)) /\
  length (LoadSingleStrategy new [] n kt cp cf rc) =
    6 + (if rc then 1 else 0) + (if kt then 0 else 1) + (if cf then 0 else 1).
Proof. destruct kt, cp, cf, rc; split; reflexivity. Qed.

(** X5.  The root's first child is a SetImage action with GUI_FRIENDLY
    and a default SetFlagging action without; the root has six children
    plus one for GUI_FRIENDLY, one unless TRANSIENTS, and one unless
    CLEAR_FLAGS or GUI_FRIENDLY. *)
Theorem root_children (telescopeId : TelescopeId)
  (flags : Z) (frequency timeRes frequencyRes : double) :
  let tree :=
    CreateStrategy new undeclared telescopeId flags frequency timeRes
      frequencyRes in
  let gui := flag_set flags StrategyFlags.GUI_FRIENDLY in
  let clear := flag_set flags StrategyFlags.CLEAR_FLAGS in
  let transients := flag_set flags StrategyFlags.TRANSIENTS in
  head (children_of tree) =
    Some (if gui then Action_SetImage
          else Action_SetFlagging (SetFlaggingAction_new new)) /\
  length (children_of tree) =
    6 + (if gui then 1 else 0) + (if transients then 0 else 1)
      + (if clear || gui then 0 else 1).
Proof.
  cbn zeta. rewrite CreateStrategy_decisions. cbn [children_of].
  destruct (LoadSingleStrategy_head (iterationCount_of flags)
              (keepTransients_of flags)
              (calPassband_of undeclared telescopeId flags)
              (clearFlags_of flags) (resetContaminated_of flags))
    as [-> ->].
  split; reflexivity.
Qed.

(** X6.  [LoadFullStrategy] appends two actions to the destination: a
    ForEachBaseline block that holds the children of the default tree
    followed by WriteFlags, an antenna flag-count plot and a frequency
    flag-count plot; and a BaselineSelection that is not a preparation
    step. *)
Theorem LoadFullStrategy_shape (destination : list Action)
  (telescopeId : TelescopeId) (flags : Z)
  (frequency timeRes frequencyRes : double) :
  LoadFullStrategy new undeclared destination telescopeId flags frequency
    timeRes frequencyRes =
  destination ++
  [Action_ForEachBaseline
     (children_of
        (CreateStrategy new undeclared telescopeId flags frequency timeRes
           frequencyRes) ++
      [Action_WriteFlags;
       Action_Plot {| _plotKind := AntennaFlagCountPlot |};
       Action_Plot {| _plotKind := FrequencyFlagCountPlot |}]);
   Action_BaselineSelection {| _preparationStep := false |}].
Proof.
  unfold LoadFullStrategy, Add. cbn [children_of CreateStrategy].
  rewrite <- !app_assoc. reflexivity.
Qed.

(** X7.  [MakeStrategy] allocates one new wrapper and changes nothing
    else; the tree it stores is the default tree for the telescope and
    the flags, in which none of the three numbers passed plays a role. *)
Theorem MakeStrategy_tree (telescopeId : TelescopeId) (strategyFlags : Z)
  (frequency timeRes frequencyRes : double) (m : Memory) :
  let _data := fresh (dom (mem_objects m)) in
  let tree :=
    CreateStrategy new undeclared telescopeId strategyFlags 0%R 0%R 0%R in
  mem_objects m !! _data = None /\
  MakeStrategy new undeclared defaultResolution telescopeId strategyFlags
    frequency timeRes frequencyRes m =
  Returns {| Strategy_data := _data |}
    {| mem_images := mem_images m; mem_masks := mem_masks m;
       mem_objects :=
         <[_data := Obj_StrategyData {| strategyPtr := tree |}]>
           (mem_objects m) |}.
Proof.
  cbn zeta. split; [apply not_elem_of_dom, is_fresh |].
  unfold MakeStrategy, Strategy_new. rewrite CreateStrategy_decisions.
  reflexivity.
Qed.

End DefaultStrategy_structure.


(** ** More properties of the facade *)

(** The loop of the two constructors, in full: the images it allocates
    are new and distinct, and nothing else changes. *)
Lemma fill_loop_fresh (I : Image2D) (data : addr) (n : nat) :
  forall (start : nat) (m : Memory) (L : list Image2DPtr),
  mem_objects m !! data = Some (Obj_ImageSetData {| images := L |}) ->
  start + n <= length L ->
  exists (ps : list addr) (L' : list Image2DPtr),
    for_loop start n
      (fun i => image ← (p ← new_image I; mret (Some p));
                set_image data i image) m =
    Returns tt
      {| mem_images :=
           list_to_map ((fun p => (p, I)) <$> ps) ∪ mem_images m;
         mem_masks := mem_masks m;
         mem_objects :=
           <[data := Obj_ImageSetData {| images := L' |}]> (mem_objects m) |} /\
    length ps = n /\ NoDup ps /\
    (forall p, p ∈ ps -> mem_images m !! p = None) /\
    length L' = length L /\
    (forall i, i < start \/ start + n <= i -> L' !! i = L !! i) /\
    (forall i p, ps !! i = Some p -> L' !! (start + i) = Some (Some p)).
Proof.
  induction n as [|n IH]; intros start m L Hobj Hlen.
  - exists [], L. cbn. rewrite (left_id_L ∅ (∪)).
    rewrite insert_id by exact Hobj. destruct m.
    repeat split; try done; try constructor.
    intros p Hp. inversion Hp.
  - cbn [for_loop].
    set (p := fresh (dom (mem_images m))).
    assert (mem_images m !! p = None) as Hfresh
      by apply not_elem_of_dom, is_fresh.
    destruct (lookup_lt_is_Some_2 L start) as [q Hq]; [lia|].
    set (m2 := {| mem_images := <[p := I]> (mem_images m);
                  mem_masks := mem_masks m;
                  mem_objects :=
                    <[data := Obj_ImageSetData
                                {| images := <[start := Some p]> L |}]>
                      (mem_objects m) |}).
    assert ((image ← (p ← new_image I; mret (Some p));
             set_image data start image) m = Returns tt m2) as Hbody.
    { unfold set_image, get_ImageSetData, read_object, write_object,
        at_index, new_image.
      unfold mbind, M_bind, mret, M_ret. cbn.
      rewrite Hobj. cbn. rewrite Hq. cbn. rewrite Hobj. reflexivity. }
    destruct (IH (S start) m2 (<[start := Some p]> L))
      as (ps & L' & Hrun & Hn & Hnd & Hnew & Hl & Hout & Hin).
    { cbn. apply lookup_insert_eq. }
    { rewrite length_insert. lia. }
    assert (p ∉ ps) as Hp.
    { intros Hp. apply Hnew in Hp. cbn in Hp.
      rewrite lookup_insert_eq in Hp. discriminate. }
    exists (p :: ps), L'.
    split; [| split; [| split; [| split; [| split; [| split]]]]].
    + erewrite bind_Returns by exact Hbody. rewrite Hrun. cbn.
      f_equal. f_equal.
      * rewrite <- insert_union_l. symmetry. apply insert_union_r.
        apply not_elem_of_list_to_map_1. rewrite <- list_fmap_compose.
        cbn. rewrite list_fmap_id. exact Hp.
      * apply insert_insert_eq.
    + cbn. lia.
    + constructor; assumption.
    + intros p' [-> | Hin']%elem_of_cons; [exact Hfresh |].
      apply Hnew in Hin'. cbn in Hin'.
      apply lookup_insert_None in Hin'. tauto.
    + rewrite Hl. apply length_insert.
    + intros i Hi'. rewrite Hout by lia. apply list_lookup_insert_ne. lia.
    + intros [|i] p' Hi'; cbn in Hi'.
      * injection Hi' as <-. rewrite Nat.add_0_r, Hout by lia.
        apply list_lookup_insert_eq. lia.
      * replace (start + S i) with (S start + i) by lia. apply Hin, Hi'.
Qed.

(** Both constructors, for a valid count, in full. *)
Lemma construct_fresh (limits : VectorLimits) (I : Image2D) (count : nat)
  (m : Memory) :
  valid_count count ->
  exists ps : list addr,
    (_data ← new_ImageSetData limits count;
     assertValidCount count;;
     for_loop 0 count
       (fun i => image ← (p ← new_image I; mret (Some p));
                 set_image _data i image);;
     mret {| ImageSet_data := _data |}) m =
    Returns {| ImageSet_data := fresh (dom (mem_objects m)) |}
      {| mem_images :=
           list_to_map ((fun p => (p, I)) <$> ps) ∪ mem_images m;
         mem_masks := mem_masks m;
         mem_objects :=
           <[fresh (dom (mem_objects m)) :=
               Obj_ImageSetData {| images := Some <$> ps |}]>
             (mem_objects m) |} /\
    length ps = count /\ NoDup ps /\
    (forall p, p ∈ ps -> mem_images m !! p = None).
Proof.
  intros Hc.
  set (d := fresh (dom (mem_objects m))).
  set (m1 := {| mem_images := mem_images m; mem_masks := mem_masks m;
                mem_objects :=
                  <[d := Obj_ImageSetData {| images := replicate count None |}]>
                    (mem_objects m) |}).
  destruct (fill_loop_fresh I d count 0 m1 (replicate count None))
    as (ps & L & Hrun & Hn & Hnd & Hnew & Hl & _ & Hin).
  { cbn. apply lookup_insert_eq. }
  { rewrite length_replicate. lia. }
  rewrite length_replicate in Hl.
  assert (L = Some <$> ps) as ->.
  { apply list_eq. intros i. rewrite list_lookup_fmap.
    destruct (ps !! i) as [p|] eqn:Hp; cbn.
    - apply (Hin i p Hp).
    - apply lookup_ge_None. apply lookup_ge_None in Hp. lia. }
  exists ps. split; [| auto].
  erewrite bind_Returns
    by (apply new_ImageSetData_fits; apply valid_count_fits; exact Hc).
  erewrite bind_Returns by (apply assertValidCount_valid; exact Hc).
  erewrite bind_Returns by exact Hrun.
  cbn. unfold mret, M_ret. f_equal. f_equal. apply insert_insert_eq.
Qed.

Section ImageSet_lifecycle.
Variable limits : VectorLimits.
Variable unset_values : nat -> nat -> list (list float).

(** X8.  For a valid count both forms of [MakeImageSet] allocate one new
    wrapper and [count] new, pairwise distinct images of the given
    contents, store the images' addresses in order, and leave every
    other object, image and mask as it was. *)
Theorem MakeImageSet_allocates (width height count : nat)
  (initialValue : float) (m : Memory) :
  valid_count count ->
  constructed m count
    {| image_width := width; image_height := height;
       image_values := grid width height initialValue |}
    (MakeImageSet_set limits width height count initialValue m) /\
  constructed m count
    {| image_width := width; image_height := height;
       image_values := unset_values width height |}
    (MakeImageSet limits unset_values width height count m).
Proof.
  intros Hc. split.
  - destruct (construct_fresh limits
                {| image_width := width; image_height := height;
                   image_values := grid width height initialValue |}
                count m Hc) as (ps & Hrun & Hn & Hnd & Hnew).
    exists ps. repeat split; try assumption.
    apply not_elem_of_dom, is_fresh.
  - destruct (construct_fresh limits
                {| image_width := width; image_height := height;
                   image_values := unset_values width height |}
                count m Hc) as (ps & Hrun & Hn & Hnd & Hnew).
    exists ps. repeat split; try assumption.
    apply not_elem_of_dom, is_fresh.
Qed.

Lemma ImageSet_ImageBuffer_valid m input L w h i p :
  valid_ImageSet m input L w h -> L !! i = Some (Some p) ->
  ImageSet_ImageBuffer input i m = Returns p m.
Proof.
  intros (Ho & _ & Hi) Hp.
  destruct (Hi i _ Hp) as (p' & I & [= <-] & HI & _).
  unfold ImageSet_ImageBuffer, get_ImageSetData, read_object, at_index,
    read_image.
  unfold mbind, M_bind, mret, M_ret. rewrite Ho. cbn. rewrite Hp. cbn.
  rewrite HI. reflexivity.
Qed.

Lemma ImageSet_ImageBuffer_out_of_range m input L w h i :
  valid_ImageSet m input L w h -> length L <= i ->
  ImageSet_ImageBuffer input i m = Undefined.
Proof.
  intros (Ho & _ & Hi) Hlen. apply lookup_ge_None in Hlen.
  unfold ImageSet_ImageBuffer, get_ImageSetData, read_object, at_index.
  unfold mbind, M_bind, mret, M_ret. rewrite Ho. cbn. rewrite Hlen.
  reflexivity.
Qed.

(** X9.  On the image set [MakeImageSet] returns, [Width], [Height] and
    [ImageCount] give back the three arguments; [ImageBuffer] returns
    for every index below the count and is an access outside the vector
    for every other index. *)
Theorem MakeImageSet_accessors (width height count : nat) (m : Memory) :
  valid_count count ->
  exists (s : ImageSet) (m' : Memory),
    MakeImageSet limits unset_values width height count m =
      Returns s m' /\
    ImageSet_Width s m' = Returns width m' /\
    ImageSet_Height s m' = Returns height m' /\
    ImageSet_ImageCount s m' = Returns count m' /\
    forall i : nat,
      if decide (i < count)
      then exists a : addr, ImageSet_ImageBuffer s i m' = Returns a m'
      else ImageSet_ImageBuffer s i m' = Undefined.
Proof.
  intros Hc.
  destruct (construct_valid limits
              {| image_width := width; image_height := height;
                 image_values := unset_values width height |} count m Hc)
    as (s & m' & L & Hrun & Hv & Hl & _).
  exists s, m'. split; [exact Hrun |].
  split; [eapply ImageSet_Width_valid; exact Hv |].
  split; [eapply ImageSet_Height_valid; exact Hv |].
  split; [rewrite <- Hl; eapply ImageSet_ImageCount_valid; exact Hv |].
  intros i. destruct (decide (i < count)) as [Hi | Hi].
  - destruct (lookup_lt_is_Some_2 L i) as [q Hq]; [lia |].
    destruct Hv as (Ho & Hcnt & Himg).
    destruct (Himg i q Hq) as (p & I & -> & _).
    exists p. eapply ImageSet_ImageBuffer_valid; [| exact Hq].
    split; [exact Ho | split; [exact Hcnt | exact Himg]].
  - eapply ImageSet_ImageBuffer_out_of_range; [exact Hv | lia].
Qed.

(** Validity depends on the wrapper and on the images only. *)
Lemma valid_ImageSet_objects m m' input input' L w h :
  valid_ImageSet m input L w h ->
  mem_objects m' !! ImageSet_data input' =
    Some (Obj_ImageSetData {| images := L |}) ->
  mem_images m' = mem_images m ->
  valid_ImageSet m' input' L w h.
Proof.
  intros (_ & Hc & Hi) Ho Heq. split; [exact Ho |]. split; [exact Hc |].
  rewrite Heq. exact Hi.
Qed.

Lemma ImageSet_ImageBuffer_same m a b L w h i :
  valid_ImageSet m a L w h -> valid_ImageSet m b L w h ->
  ImageSet_ImageBuffer a i m = ImageSet_ImageBuffer b i m.
Proof.
  intros Ha Hb. destruct (L !! i) as [q|] eqn:Hq.
  - destruct Ha as (Hoa & Hca & Hia).
    destruct (Hia i q Hq) as (p & I & -> & _).
    rewrite (ImageSet_ImageBuffer_valid m a L w h i p), 
      (ImageSet_ImageBuffer_valid m b L w h i p); try done.
  - apply lookup_ge_None in Hq.
    rewrite (ImageSet_ImageBuffer_out_of_range m a L w h i),
      (ImageSet_ImageBuffer_out_of_range m b L w h i); done.
Qed.

(** X10.  The copy of an image set is an image set of the same images:
    no image is allocated, [ImageBuffer] of the copy is [ImageBuffer] of
    the source at every index, and the copy is still a valid image set
    after the source is destroyed. *)
Theorem ImageSet_copy_shares_images (source : ImageSet)
  (L : list Image2DPtr) (width height : nat) (m : Memory) :
  valid_ImageSet m source L width height ->
  exists (copy : ImageSet) (m' m'' : Memory),
    ImageSet_copy source m = Returns copy m' /\
    mem_images m' = mem_images m /\ mem_masks m' = mem_masks m /\
    valid_ImageSet m' source L width height /\
    valid_ImageSet m' copy L width height /\
    (forall i : nat,
       ImageSet_ImageBuffer copy i m' = ImageSet_ImageBuffer source i m') /\
    ImageSet_destroy source m' = Returns tt m'' /\
    valid_ImageSet m'' copy L width height.
Proof.
  intros Hv. pose proof Hv as (Ho & Hc & Hi).
  set (d := fresh (dom (mem_objects m))).
  assert (mem_objects m !! d = None) as Hd
    by apply not_elem_of_dom, is_fresh.
  assert (d <> ImageSet_data source) as Hne by congruence.
  set (m' := {| mem_images := mem_images m; mem_masks := mem_masks m;
                mem_objects :=
                  <[d := Obj_ImageSetData {| images := L |}]>
                    (mem_objects m) |}).
  assert (valid_ImageSet m' source L width height) as Hs'.
  { eapply valid_ImageSet_objects; [exact Hv | | reflexivity].
    cbn. rewrite lookup_insert_ne by exact Hne. exact Ho. }
  assert (valid_ImageSet m' {| ImageSet_data := d |} L width height) as Hc'.
  { eapply valid_ImageSet_objects; [exact Hv | | reflexivity].
    cbn. apply lookup_insert_eq. }
  exists {| ImageSet_data := d |}, m'. eexists.
  split; [| split; [reflexivity | split; [reflexivity |
    split; [exact Hs' | split; [exact Hc' | split; [| split]]]]]].
  - unfold ImageSet_copy, get_ImageSetData, read_object.
    unfold mbind, M_bind, mret, M_ret. rewrite Ho. reflexivity.
  - intros i. eapply ImageSet_ImageBuffer_same; eassumption.
  - unfold ImageSet_destroy, delete_object.
    destruct Hs' as (-> & _). reflexivity.
  - eapply valid_ImageSet_objects; [exact Hv | | reflexivity].
    cbn. rewrite lookup_delete_ne by congruence. apply lookup_insert_eq.
Qed.

(** X11.  Assignment makes the target hold the images of the source (of
    the source's size, whatever the target held); only the target's
    wrapper is written, and afterwards [ImageBuffer] agrees on the two
    at every index. *)
Theorem ImageSet_assign_shares_images (self source : ImageSet)
  (L L' : list Image2DPtr) (width height width' height' : nat)
  (m : Memory) :
  valid_ImageSet m self L width height ->
  valid_ImageSet m source L' width' height' ->
  let m' :=
    {| mem_images := mem_images m; mem_masks := mem_masks m;
       mem_objects :=
         <[ImageSet_data self := Obj_ImageSetData {| images := L' |}]>
           (mem_objects m) |} in
  ImageSet_assign self source m = Returns tt m' /\
  valid_ImageSet m' self L' width' height' /\
  valid_ImageSet m' source L' width' height' /\
  forall i : nat,
    ImageSet_ImageBuffer self i m' = ImageSet_ImageBuffer source i m'.
Proof.
  intros Hself Hsource m'.
  pose proof Hself as (Ho & _). pose proof Hsource as (Ho' & _).
  assert (valid_ImageSet m' self L' width' height') as H1.
  { eapply valid_ImageSet_objects; [exact Hsource | | reflexivity].
    cbn. apply lookup_insert_eq. }
  assert (valid_ImageSet m' source L' width' height') as H2.
  { eapply valid_ImageSet_objects; [exact Hsource | | reflexivity].
    cbn. destruct (decide (ImageSet_data self = ImageSet_data source))
      as [-> | Hne].
    - apply lookup_insert_eq.
    - rewrite lookup_insert_ne by exact Hne. exact Ho'. }
  split; [| split; [exact H1 | split; [exact H2 |]]].
  - unfold ImageSet_assign, get_ImageSetData, read_object, write_object.
    unfold mbind, M_bind, mret, M_ret. rewrite Ho'. cbn. rewrite Ho. cbn.
    rewrite Ho. reflexivity.
  - intros i. eapply ImageSet_ImageBuffer_same; eassumption.
Qed.
End ImageSet_lifecycle.


(** X12.  Assigning to the copy of a strategy assigns to the strategy
    itself, since the two share one wrapper; assigning to the copy of an
    image set leaves the image set as it was. *)
Theorem Strategy_assign_through_copy (s u : Strategy) (sd ud : StrategyData)
  (i k : ImageSet) (id kd : ImageSetData) (m : Memory) :
  mem_objects m !! Strategy_data s = Some (Obj_StrategyData sd) ->
  mem_objects m !! Strategy_data u = Some (Obj_StrategyData ud) ->
  mem_objects m !! ImageSet_data i = Some (Obj_ImageSetData id) ->
  mem_objects m !! ImageSet_data k = Some (Obj_ImageSetData kd) ->
  (t ← Strategy_copy s;
   Strategy_assign t u;;
   get_StrategyData (Strategy_data s)) m =
    Returns ud
      {| mem_images := mem_images m; mem_masks := mem_masks m;
         mem_objects :=
           <[Strategy_data s := Obj_StrategyData ud]> (mem_objects m) |} /\
  exists m' : Memory,
    (j ← ImageSet_copy i;
     ImageSet_assign j k;;
     get_ImageSetData (ImageSet_data i)) m = Returns id m'.
Proof.
  intros Hs Hu Hi Hk. split.
  - unfold Strategy_copy, Strategy_assign, get_StrategyData, read_object,
      write_object.
    unfold mbind, M_bind, mret, M_ret. cbn.
    rewrite Hu. cbn. rewrite Hs. cbn. rewrite Hs. cbn.
    rewrite lookup_insert_eq. destruct ud. reflexivity.
  - set (d := fresh (dom (mem_objects m))).
    assert (mem_objects m !! d = None) as Hd
      by apply not_elem_of_dom, is_fresh.
    assert (d <> ImageSet_data i) as Hni by congruence.
    assert (d <> ImageSet_data k) as Hnk by congruence.
    eexists.
    unfold ImageSet_copy, ImageSet_assign, get_ImageSetData, read_object,
      write_object, new_object.
    unfold mbind, M_bind, mret, M_ret. cbn.
    rewrite Hi. cbn. fold d.
    rewrite (lookup_insert_ne _ d (ImageSet_data k)) by exact Hnk.
    rewrite Hk. cbn. rewrite lookup_insert_eq. cbn.
    rewrite lookup_insert_eq. cbn.
    rewrite lookup_insert_ne by exact Hni.
    rewrite (lookup_insert_ne _ d (ImageSet_data i)) by exact Hni.
    rewrite Hi. reflexivity.
Qed.

Section Strategy_aliasing.
Variable TimeFrequencyData_0 : TimeFrequencyData.
Variable GetCombinedMask : FlagCoverage -> list Mask2D -> Mask2D.
Variable Perform : Action -> ArtifactSet -> M ArtifactSet.

(** X13.  Once a copy of a strategy was destroyed, [Run] with the
    strategy itself reads a deleted wrapper. *)
Theorem Run_after_copy_destroyed (strategy : Strategy) (sd : StrategyData)
  (input : ImageSet) (L : list Image2DPtr) (width height : nat)
  (m : Memory) :
  valid_ImageSet m input L width height ->
  mem_objects m !! Strategy_data strategy = Some (Obj_StrategyData sd) ->
  (copy ← Strategy_copy strategy;
   Strategy_destroy copy;;
   Run TimeFrequencyData_0 GetCombinedMask Perform strategy input) m =
  Undefined.
Proof.
  intros Hv Hs. pose proof Hv as (Ho & _).
  set (m1 := {| mem_images := mem_images m; mem_masks := mem_masks m;
                mem_objects := delete (Strategy_data strategy)
                                 (mem_objects m) |}).
  assert (valid_ImageSet m1 input L width height) as Hv1.
  { eapply valid_ImageSet_objects; [exact Hv | | reflexivity].
    cbn. rewrite lookup_delete_ne by congruence. exact Ho. }
  erewrite bind_Returns by reflexivity.
  assert (Strategy_destroy {| Strategy_data := Strategy_data strategy |} m
          = Returns tt m1) as Hd.
  { unfold Strategy_destroy, delete_object. cbn. rewrite Hs. reflexivity. }
  erewrite bind_Returns by exact Hd.
  unfold Run.
  erewrite bind_Returns by (apply Run_install_valid; exact Hv1).
  apply bind_Undefined.
  unfold get_StrategyData, read_object, mbind, M_bind. cbn.
  rewrite lookup_delete_eq. reflexivity.
Qed.

End Strategy_aliasing.


(** The three accessors of a flag mask whose wrapper and mask are
    allocated. *)
Lemma FlagMask_accessors (f p : addr) (k : Mask2D) (m : Memory) :
  mem_objects m !! f = Some (Obj_FlagMaskData {| mask := Some p |}) ->
  mem_masks m !! p = Some k ->
  FlagMask_Width {| FlagMask_data := Some f |} m = Returns (mask_width k) m /\
  FlagMask_Height {| FlagMask_data := Some f |} m =
    Returns (mask_height k) m /\
  FlagMask_Buffer {| FlagMask_data := Some f |} m =
    Returns (mask_values k) m.
Proof.
  intros Hf Hp.
  unfold FlagMask_Width, FlagMask_Height, FlagMask_Buffer, get_FlagMaskData,
    read_object, read_mask.
  unfold mbind, M_bind, mret, M_ret. cbn. rewrite Hf. cbn. rewrite Hp.
  auto.
Qed.

(** X14.  The copy of a flag mask has a wrapper of its own that refers to
    the same mask: no mask is allocated, and [Width], [Height] and
    [Buffer] of the copy still return the mask's after the source is
    destroyed. *)
Theorem FlagMask_copy_shares_mask (f p : addr) (k : Mask2D) (m : Memory) :
  mem_objects m !! f = Some (Obj_FlagMaskData {| mask := Some p |}) ->
  mem_masks m !! p = Some k ->
  exists (g : addr) (m' m'' : Memory),
    FlagMask_copy {| FlagMask_data := Some f |} m =
      Returns {| FlagMask_data := Some g |} m' /\
    g <> f /\ mem_masks m' = mem_masks m /\
    mem_objects m' !! g = Some (Obj_FlagMaskData {| mask := Some p |}) /\
    FlagMask_Buffer {| FlagMask_data := Some g |} m' =
      Returns (mask_values k) m' /\
    FlagMask_destroy {| FlagMask_data := Some f |} m' = Returns tt m'' /\
    FlagMask_Width {| FlagMask_data := Some g |} m'' =
      Returns (mask_width k) m'' /\
    FlagMask_Height {| FlagMask_data := Some g |} m'' =
      Returns (mask_height k) m'' /\
    FlagMask_Buffer {| FlagMask_data := Some g |} m'' =
      Returns (mask_values k) m''.
Proof.
  intros Hf Hp.
  set (g := fresh (dom (mem_objects m))).
  assert (mem_objects m !! g = None) as Hg
    by apply not_elem_of_dom, is_fresh.
  assert (g <> f) as Hne by congruence.
  set (m' := {| mem_images := mem_images m; mem_masks := mem_masks m;
                mem_objects :=
                  <[g := Obj_FlagMaskData {| mask := Some p |}]>
                    (mem_objects m) |}).
  set (m'' := {| mem_images := mem_images m; mem_masks := mem_masks m;
                 mem_objects := delete f (mem_objects m') |}).
  assert (mem_objects m' !! g =
          Some (Obj_FlagMaskData {| mask := Some p |})) as Hg'
    by apply lookup_insert_eq.
  assert (mem_objects m'' !! g =
          Some (Obj_FlagMaskData {| mask := Some p |})) as Hg''.
  { cbn. rewrite lookup_delete_ne by congruence. exact Hg'. }
  exists g, m', m''.
  split; [| split; [exact Hne | split; [reflexivity | split; [exact Hg' |]]]].
  - unfold FlagMask_copy, get_FlagMaskData, read_object.
    unfold mbind, M_bind, mret, M_ret. cbn. rewrite Hf. reflexivity.
  - split; [apply (FlagMask_accessors g p k m' Hg' Hp) |].
    split.
    + unfold FlagMask_destroy, delete_object. cbn.
      rewrite lookup_insert_ne by exact Hne. rewrite Hf. reflexivity.
    + apply (FlagMask_accessors g p k m'' Hg'' Hp).
Qed.

Section StatisticalFlagAction_outcomes.
Variable GetCombinedMask : FlagCoverage -> list Mask2D -> Mask2D.
Variable DilateFlags : nat -> nat -> Mask2D -> Mask2D.
Variable OperateHorizontally : double -> Mask2D -> Mask2D.
Variable OperateVertically : double -> Mask2D -> Mask2D.

(** X15.  Two statistical flag actions in sequence: the global mask
    of the contaminated data is then the rewriting by the second of the
    rewriting by the first of the single mask; no mask that existed
    before is changed, and images, wrappers, original data, revised data
    and the images of the contaminated data are as before. *)
Theorem StatisticalFlagAction_Perform_twice
  (self self' : StatisticalFlagAction) (artifacts : ArtifactSet)
  (single : Mask2D) (m : Memory) :
  GetSingleMask GetCombinedMask (ContaminatedData artifacts) m =
    Returns single m ->
  let statistical (a : StatisticalFlagAction) (k : Mask2D) :=
    OperateVertically (_minimumGoodFrequencyRatio a)
      (OperateHorizontally (_minimumGoodTimeRatio a)
         (DilateFlags (_enlargeTimeSize a) (_enlargeFrequencySize a) k)) in
  exists (artifacts' : ArtifactSet) (m' : Memory),
    sequence
      (StatisticalFlagAction_Perform GetCombinedMask DilateFlags
         OperateHorizontally OperateVertically self)
      (StatisticalFlagAction_Perform GetCombinedMask DilateFlags
         OperateHorizontally OperateVertically self')
      artifacts m = Returns artifacts' m' /\
    GetSingleMask GetCombinedMask (ContaminatedData artifacts') m' =
      Returns (statistical self' (statistical self single)) m' /\
    mem_masks m ⊆ mem_masks m' /\
    mem_images m' = mem_images m /\ mem_objects m' = mem_objects m /\
    OriginalData artifacts' = OriginalData artifacts /\
    RevisedData artifacts' = RevisedData artifacts /\
    _images (ContaminatedData artifacts') =
      _images (ContaminatedData artifacts).
Proof.
  intros Hsingle statistical.
  pose proof (StatisticalFlagAction_Perform_Returns GetCombinedMask
                DilateFlags OperateHorizontally OperateVertically self
                artifacts single m Hsingle) as H1.
  set (p := fresh (dom (mem_masks m))) in *.
  assert (mem_masks m !! p = None) as Hp
    by apply not_elem_of_dom, is_fresh.
  match type of H1 with _ = Returns ?A ?M => set (A1 := A) in *;
    set (m1 := M) in * end.
  assert (GetSingleMask GetCombinedMask (ContaminatedData A1) m1 =
          Returns (statistical self single) m1) as Hsingle1.
  { unfold GetSingleMask, read_mask. cbn. rewrite lookup_insert_eq.
    reflexivity. }
  pose proof (StatisticalFlagAction_Perform_Returns GetCombinedMask
                DilateFlags OperateHorizontally OperateVertically self'
                A1 _ m1 Hsingle1) as H2.
  set (q := fresh (dom (mem_masks m1))) in *.
  assert (mem_masks m1 !! q = None) as Hq
    by apply not_elem_of_dom, is_fresh.
  eexists _, _. split.
  { unfold sequence. erewrite bind_Returns by exact H1. exact H2. }
  split.
  { unfold GetSingleMask, read_mask. cbn. rewrite lookup_insert_eq.
    reflexivity. }
  split.
  { cbn. etrans; [apply (insert_subseteq _ p); exact Hp |].
    apply insert_subseteq. exact Hq. }
  repeat split.
Qed.
End StatisticalFlagAction_outcomes.


Section Run_idle.
Variable TimeFrequencyData_0 : TimeFrequencyData.
Variable GetCombinedMask : FlagCoverage -> list Mask2D -> Mask2D.
Variable Perform : Action -> ArtifactSet -> M ArtifactSet.

Lemma GetSingleMask_layout (L : list Image2DPtr) (k : Mask2D) (p : addr)
  (m : Memory) :
  valid_count (length L) -> mem_masks m !! p = Some k ->
  GetSingleMask GetCombinedMask (layout L (length L) (Some p)) m =
  Returns
    (match length L with
     | 1 | 2 => k
     | n => GetCombinedMask IndividualPolarisationFlagCoverage
              (replicate (n / 2) k)
     end) m.
Proof.
  intros Hc Hp.
  destruct (valid_count_cases L Hc)
    as [(a & ->) | [(a & b & ->) | [(a & b & c & d & ->) |
        (a & b & c & d & e & f & g & i & ->)]]];
    unfold GetSingleMask, layout, read_mask; cbn;
    unfold mbind, M_bind, mret, M_ret, read_mask; cbn; rewrite ?Hp;
    reflexivity.
Qed.

(** X16.  When the root action does nothing, [Run] returns a flag mask
    of the size of the input whose flags are those of the unflagged
    mask [Run] installed: all false for one or two images, and for four
    or eight what [GetCombinedMask] makes of two or four unflagged
    masks. *)
Theorem Run_of_idle_root (strategy : Strategy) (root : Action)
  (input : ImageSet) (L : list Image2DPtr) (width height : nat)
  (m : Memory) :
  valid_ImageSet m input L width height ->
  mem_objects m !! Strategy_data strategy =
    Some (Obj_StrategyData {| strategyPtr := root |}) ->
  (forall (artifacts : ArtifactSet) (m0 : Memory),
     Perform root artifacts m0 = Returns artifacts m0) ->
  let unflagged :=
    {| mask_width := width; mask_height := height;
       mask_values := grid width height false |} in
  let single :=
    match length L with
    | 1 | 2 => unflagged
    | n => GetCombinedMask IndividualPolarisationFlagCoverage
             (replicate (n / 2) unflagged)
    end in
  exists (flagMask : FlagMask) (m' : Memory),
    Run TimeFrequencyData_0 GetCombinedMask Perform strategy input m =
      Returns flagMask m' /\
    FlagMask_Width flagMask m' = Returns (mask_width single) m' /\
    FlagMask_Height flagMask m' = Returns (mask_height single) m' /\
    FlagMask_Buffer flagMask m' = Returns (mask_values single) m'.
Proof.
  intros Hv Hs Hidle unflagged single.
  assert (get_StrategyData (Strategy_data strategy) (Run_memory m width height)
          = Returns {| strategyPtr := root |} (Run_memory m width height))
    as Hget.
  { unfold get_StrategyData, read_object, mbind, M_bind. cbn.
    rewrite Hs. reflexivity. }
  assert (GetSingleMask GetCombinedMask
            (layout L (length L) (Some (fresh (dom (mem_masks m)))))
            (Run_memory m width height) =
          Returns single (Run_memory m width height)) as Hsingle.
  { apply GetSingleMask_layout; [apply Hv |]. cbn. apply lookup_insert_eq. }
  eexists _, _. split.
  { unfold Run.
    erewrite bind_Returns by (apply Run_install_valid; exact Hv).
    erewrite bind_Returns by exact Hget.
    erewrite bind_Returns by apply Hidle.
    unfold Run_result.
    erewrite bind_Returns by exact Hsingle.
    reflexivity. }
  apply FlagMask_accessors
    with (p := fresh (dom (mem_masks (Run_memory m width height)))).
  - cbn. apply lookup_insert_eq.
  - cbn. apply lookup_insert_eq.
Qed.
End Run_idle.


(** ** Properties of the quality statistics *)

Lemma FlagMask_BufferAddress_allocated (f p : addr) (k : Mask2D)
  (m : Memory) :
  mem_objects m !! f = Some (Obj_FlagMaskData {| mask := Some p |}) ->
  mem_masks m !! p = Some k ->
  FlagMask_BufferAddress {| FlagMask_data := Some f |} m = Returns p m.
Proof.
  intros Hf Hp.
  unfold FlagMask_BufferAddress, get_FlagMaskData, read_object, read_mask.
  unfold mbind, M_bind, mret, M_ret. cbn. rewrite Hf. cbn. rewrite Hp.
  reflexivity.
Qed.

Section Statistics_properties.
Variable StatisticsCollection : Type.
Variable StatisticsCollection_new : nat -> StatisticsCollection.
Variable InitializeBand :
  nat -> list double -> StatisticsCollection -> StatisticsCollection.
Variable Add_sample :
  Memory -> Sample -> StatisticsCollection -> StatisticsCollection.
Variable Add_collection :
  StatisticsCollection -> StatisticsCollection -> StatisticsCollection.
Variable Image2D_Stride : Image2D -> nat.
Variable Mask2D_Stride : Mask2D -> nat.

Section Collect_loops.
Variable m : Memory.
Variable times : list double.
Variable imageSet : ImageSet.
Variable images : list addr.
Variable width height : nat.
Variable f c isRFI origFlags : addr.
Variable kr kc : Mask2D.
Variable antenna1 antenna2 nChannels imageStride maskStride : nat.
Hypothesis Hv : valid_ImageSet m imageSet (Some <$> images) width height.
Hypothesis Hf :
  mem_objects m !! f = Some (Obj_FlagMaskData {| mask := Some isRFI |}).
Hypothesis Hr : mem_masks m !! isRFI = Some kr.
Hypothesis Hc :
  mem_objects m !! c = Some (Obj_FlagMaskData {| mask := Some origFlags |}).
Hypothesis Ho : mem_masks m !! origFlags = Some kc.

Local Abbreviation step polarization real imag :=
  (collect_time_step StatisticsCollection Add_sample times imageSet
    {| FlagMask_data := Some f |} {| FlagMask_data := Some c |}
    antenna1 antenna2 nChannels imageStride maskStride polarization real
     imag).
Local Abbreviation sample polarization real imag :=
  (expected_sample times images isRFI origFlags antenna1 antenna2 nChannels
     imageStride maskStride polarization real imag).

Lemma collect_time_step_Returns polarization real imag t stats :
  real < length images -> imag < length images -> t < length times ->
  step polarization real imag t stats m =
  Returns (Add_sample m (sample polarization real imag t) stats) m.
Proof using Hv Hf Hr Hc Ho.
  intros Hreal Himag Ht.
  destruct (lookup_lt_is_Some_2 times t Ht) as [time Htime].
  destruct (lookup_lt_is_Some_2 images real Hreal) as [pr Hpr].
  destruct (lookup_lt_is_Some_2 images imag Himag) as [pi Hpi].
  unfold collect_time_step.
  assert (at_index times t m = Returns time m) as H1.
  { unfold at_index. rewrite Htime. reflexivity. }
  erewrite bind_Returns by exact H1.
  erewrite bind_Returns
    by (eapply ImageSet_ImageBuffer_valid;
        [exact Hv | rewrite list_lookup_fmap, Hpr; reflexivity]).
  erewrite bind_Returns
    by (eapply ImageSet_ImageBuffer_valid;
        [exact Hv | rewrite list_lookup_fmap, Hpi; reflexivity]).
  erewrite bind_Returns
    by (eapply FlagMask_BufferAddress_allocated; [exact Hf | exact Hr]).
  erewrite bind_Returns
    by (eapply FlagMask_BufferAddress_allocated; [exact Hc | exact Ho]).
  erewrite bind_Returns by reflexivity.
  unfold expected_sample. rewrite Htime.
  rewrite (list_lookup_total_correct _ _ _ Hpr),
    (list_lookup_total_correct _ _ _ Hpi). reflexivity.
Qed.

Lemma collect_time_step_Undefined polarization real imag t stats :
  length times <= t -> step polarization real imag t stats m = Undefined.
Proof using Type.
  intros Ht. apply lookup_ge_None in Ht.
  unfold collect_time_step. apply bind_Undefined.
  unfold at_index. rewrite Ht. reflexivity.
Qed.

Lemma time_loop_Returns polarization real imag n :
  real < length images -> imag < length images ->
  forall start stats, start + n <= length times ->
  for_loop_with start n (step polarization real imag) stats m =
  Returns
    (foldl (fun s x => Add_sample m x s) stats
       (map (sample polarization real imag) (seq start n))) m.
Proof using Hv Hf Hr Hc Ho.
  intros Hreal Himag.
  induction n as [|n IH]; intros start stats Hlen; [reflexivity |].
  cbn [for_loop_with seq map foldl].
  erewrite bind_Returns
    by (apply collect_time_step_Returns; [exact Hreal | exact Himag | lia]).
  apply IH. lia.
Qed.

Lemma time_loop_Undefined polarization real imag n :
  real < length images -> imag < length images ->
  forall start stats, start <= length times < start + n ->
  for_loop_with start n (step polarization real imag) stats m = Undefined.
Proof using Hv Hf Hr Hc Ho.
  intros Hreal Himag.
  induction n as [|n IH]; intros start stats Hlen; [lia |].
  cbn [for_loop_with].
  destruct (decide (start = length times)) as [-> | Hne].
  - apply bind_Undefined. apply collect_time_step_Undefined. lia.
  - erewrite bind_Returns
      by (apply collect_time_step_Returns; [exact Hreal | exact Himag | lia]).
    apply IH. lia.
Qed.

Lemma polarization_loop_Returns n :
  width <= length times ->
  forall start stats, (start + n) * 2 <= length images ->
  for_loop_with start n
    (fun polarization stats =>
       width ← ImageSet_Width imageSet;
       for_loop_with 0 width
         (step polarization (polarization * 2) (polarization * 2 + 1)) stats)
    stats m =
  Returns
    (foldl (fun s x => Add_sample m x s) stats
       (flat_map
          (fun polarization =>
             map (sample polarization (polarization * 2)
                    (polarization * 2 + 1)) (seq 0 width))
          (seq start n))) m.
Proof using Hv Hf Hr Hc Ho.
  intros Hw.
  induction n as [|n IH]; intros start stats Hlen; [reflexivity |].
  cbn [for_loop_with seq flat_map]. rewrite foldl_app.
  assert ((width ← ImageSet_Width imageSet;
           for_loop_with 0 width
             (step start (start * 2) (start * 2 + 1)) stats) m =
          Returns
            (foldl (fun s x => Add_sample m x s) stats
               (map (sample start (start * 2) (start * 2 + 1))
                  (seq 0 width))) m) as Hinner.
  { erewrite bind_Returns by (eapply ImageSet_Width_valid; exact Hv).
    apply time_loop_Returns; lia. }
  erewrite bind_Returns by exact Hinner.
  apply IH. lia.
Qed.

End Collect_loops.

Lemma expected_samples_length times images isRFI origFlags antenna1 antenna2
  nChannels imageStride maskStride width :
  length
    (expected_samples times images isRFI origFlags antenna1 antenna2
       nChannels imageStride maskStride width) =
  width * (if length images =? 1 then 1 else length images / 2).
Proof.
  unfold expected_samples. destruct (length images =? 1).
  - rewrite length_map, length_seq. lia.
  - assert (forall (g : nat -> nat -> Sample) n start,
              length (flat_map (fun pol => map (g pol) (seq 0 width))
                        (seq start n)) = width * n) as H.
    { intros g n. induction n as [|n IH]; intros start; cbn [seq flat_map].
      - cbn. lia.
      - rewrite length_app, IH, length_map, length_seq. lia. }
    apply (H (fun pol =>
                expected_sample times images isRFI origFlags antenna1
                  antenna2 nChannels imageStride maskStride pol (pol * 2)
                  (pol * 2 + 1))).
Qed.

(** [CollectStatistics] on an image set, two flag masks and a statistics
    object that are all allocated. *)
Lemma CollectStatistics_outcome (destination : QualityStatistics)
  (a : addr) (imp : QualityStatisticsDataImp StatisticsCollection)
  (imageSet : ImageSet) (images : list addr) (p0 : addr) (I0 : Image2D)
  (width height : nat) (f c isRFI origFlags : addr) (kr kc : Mask2D)
  (antenna1 antenna2 : nat)
  (imps : gmap addr (QualityStatisticsDataImp StatisticsCollection))
  (m : Memory) :
  valid_ImageSet m imageSet (Some <$> images) width height ->
  images !! 0 = Some p0 -> mem_images m !! p0 = Some I0 ->
  mem_objects m !! f = Some (Obj_FlagMaskData {| mask := Some isRFI |}) ->
  mem_masks m !! isRFI = Some kr ->
  mem_objects m !! c = Some (Obj_FlagMaskData {| mask := Some origFlags |}) ->
  mem_masks m !! origFlags = Some kc ->
  mem_objects m !! QualityStatistics_data destination =
    Some (Obj_QualityStatisticsData {| _implementation := a |}) ->
  imps !! a = Some imp ->
  CollectStatistics StatisticsCollection Add_sample Image2D_Stride
    Mask2D_Stride destination imageSet {| FlagMask_data := Some f |}
    {| FlagMask_data := Some c |} antenna1 antenna2 imps m =
  if decide (width <= length (scanTimes _ imp)) then
    Returns
      (<[a := with_statistics _
                (foldl (fun s x => Add_sample m x s) (statistics _ imp)
                   (expected_samples (scanTimes _ imp) images isRFI origFlags
                      antenna1 antenna2 height (Image2D_Stride I0)
                      (Mask2D_Stride kr) width))
                imp]> imps) m
  else Undefined.
Proof.
  intros Hv Hp0 HI0 Hf Hr Hc Ho Hd Ha.
  pose proof Hv as (Hobj & Hcount & Himg).
  rewrite length_fmap in Hcount.
  unfold CollectStatistics.
  erewrite bind_Returns by (eapply ImageSet_Height_valid; exact Hv).
  assert (ImageSet_HorizontalStride Image2D_Stride imageSet m =
          Returns (Image2D_Stride I0) m) as Hstride.
  { unfold ImageSet_HorizontalStride, get_ImageSetData, read_object,
      at_index, read_image.
    unfold mbind, M_bind, mret, M_ret. rewrite Hobj. cbn.
    rewrite list_lookup_fmap, Hp0. cbn. rewrite HI0. reflexivity. }
  erewrite bind_Returns by exact Hstride.
  assert (FlagMask_HorizontalStride Mask2D_Stride {| FlagMask_data := Some f |}
            m = Returns (Mask2D_Stride kr) m) as Hmstride.
  { unfold FlagMask_HorizontalStride, get_FlagMaskData, read_object,
      read_mask.
    unfold mbind, M_bind, mret, M_ret. cbn. rewrite Hf. cbn. rewrite Hr.
    reflexivity. }
  erewrite bind_Returns by exact Hmstride.
  assert (get_implementation _ imps destination m = Returns (a, imp) m)
    as Himp.
  { unfold get_implementation, get_QualityStatisticsData, read_object.
    unfold mbind, M_bind, mret, M_ret. rewrite Hd. cbn. rewrite Ha.
    reflexivity. }
  erewrite bind_Returns by exact Himp. cbv beta iota zeta.
  erewrite bind_Returns by (eapply ImageSet_ImageCount_valid; exact Hv).
  rewrite length_fmap. unfold expected_samples.
  destruct (decide (width <= length (scanTimes _ imp))) as [Hw | Hw].
  - destruct (length images =? 1) eqn:Hone.
    + apply Nat.eqb_eq in Hone.
      erewrite bind_Returns; [reflexivity |].
      erewrite bind_Returns by (eapply ImageSet_Width_valid; exact Hv).
      eapply time_loop_Returns; try eassumption; lia.
    + erewrite bind_Returns; [reflexivity |].
      eapply polarization_loop_Returns; try eassumption.
      destruct Hcount as [E | [E | [E | E]]]; rewrite E; cbn; lia.
  - apply bind_Undefined.
    destruct (length images =? 1) eqn:Hone.
    + apply Nat.eqb_eq in Hone.
      erewrite bind_Returns by (eapply ImageSet_Width_valid; exact Hv).
      eapply time_loop_Undefined; try eassumption; lia.
    + apply Nat.eqb_neq in Hone.
      assert (2 <= length images) as Htwo
        by (destruct Hcount as [E | [E | [E | E]]]; lia).
      assert (exists n, length images / 2 = S n) as [n ->].
      { destruct Hcount as [E | [E | [E | E]]]; rewrite E in Hone |- *;
          cbn; eauto; lia. }
      cbn [for_loop_with]. apply bind_Undefined.
      erewrite bind_Returns by (eapply ImageSet_Width_valid; exact Hv).
      eapply time_loop_Undefined; try eassumption; lia.
Qed.



(** X19.  After [self = source], [self += rhs] adds the collection of
    [rhs] to the implementation of [source], and the sum is what
    [source] reads afterwards. *)
Theorem QualityStatistics_assign_shares (self source rhs : QualityStatistics)
  (a b r : addr) (impb impr : QualityStatisticsDataImp StatisticsCollection)
  (imps : gmap addr (QualityStatisticsDataImp StatisticsCollection))
  (m : Memory) :
  mem_objects m !! QualityStatistics_data self =
    Some (Obj_QualityStatisticsData {| _implementation := a |}) ->
  mem_objects m !! QualityStatistics_data source =
    Some (Obj_QualityStatisticsData {| _implementation := b |}) ->
  mem_objects m !! QualityStatistics_data rhs =
    Some (Obj_QualityStatisticsData {| _implementation := r |}) ->
  QualityStatistics_data rhs <> QualityStatistics_data self ->
  imps !! b = Some impb -> imps !! r = Some impr ->
  let m' :=
    {| mem_images := mem_images m; mem_masks := mem_masks m;
       mem_objects :=
         <[QualityStatistics_data self :=
             Obj_QualityStatisticsData {| _implementation := b |}]>
           (mem_objects m) |} in
  (QualityStatistics_assign self source;;
   imps' ← QualityStatistics_add _ Add_collection self rhs imps;
   get_implementation _ imps' source) m =
  Returns
    (b, with_statistics _
          (Add_collection (statistics _ impb) (statistics _ impr)) impb) m'.
Proof.
  intros Hself Hsource Hrhs Hne Hb Hr m'.
  assert (QualityStatistics_assign self source m = Returns tt m') as Hassign.
  { unfold QualityStatistics_assign, get_QualityStatisticsData, read_object,
      write_object.
    unfold mbind, M_bind, mret, M_ret. rewrite Hsource. cbn. rewrite Hself.
    cbn. rewrite Hself. reflexivity. }
  erewrite bind_Returns by exact Hassign.
  assert (mem_objects m' !! QualityStatistics_data self =
          Some (Obj_QualityStatisticsData {| _implementation := b |}))
    as Hself' by apply lookup_insert_eq.
  assert (mem_objects m' !! QualityStatistics_data rhs =
          Some (Obj_QualityStatisticsData {| _implementation := r |}))
    as Hrhs'.
  { cbn. rewrite lookup_insert_ne by congruence. exact Hrhs. }
  assert (mem_objects m' !! QualityStatistics_data source =
          Some (Obj_QualityStatisticsData {| _implementation := b |}))
    as Hsource'.
  { cbn. destruct (decide (QualityStatistics_data self =
                           QualityStatistics_data source)) as [E | E].
    - rewrite E. apply lookup_insert_eq.
    - rewrite lookup_insert_ne by exact E. exact Hsource. }
  unfold QualityStatistics_add, get_implementation,
    get_QualityStatisticsData, read_object.
  unfold mbind, M_bind, mret, M_ret.
  rewrite Hself'. cbn [_implementation]. rewrite Hb.
  rewrite Hrhs'. cbn [_implementation]. rewrite Hr.
  rewrite Hsource'. cbn [_implementation]. rewrite lookup_insert_eq.
  reflexivity.
Qed.

End Statistics_properties.

(** ** The further theorems with a hypothesis, at the sample values *)

Lemma default_strategy_ignores_witness :
  (LOFAR_TELESCOPE = MWA_TELESCOPE <-> WSRT_TELESCOPE = MWA_TELESCOPE) /\
  In StrategyFlags.FAST
    [StrategyFlags.LOW_FREQUENCY; StrategyFlags.HIGH_FREQUENCY;
     StrategyFlags.FAST; StrategyFlags.OFF_AXIS_SOURCES;
     StrategyFlags.UNSENSITIVE; StrategyFlags.SENSITIVE] /\
  Z.land StrategyFlags.FAST (SMALL_BANDWIDTH sample_undeclared) = 0%Z /\
  Z.land StrategyFlags.FAST (LARGE_BANDWIDTH sample_undeclared) = 0%Z /\
  CreateStrategy sample_constructors sample_undeclared LOFAR_TELESCOPE
    (Z.lor StrategyFlags.TRANSIENTS StrategyFlags.FAST) 150%R 1%R 2%R =
  CreateStrategy sample_constructors sample_undeclared WSRT_TELESCOPE
    StrategyFlags.TRANSIENTS 0%R 0%R 0%R.
Proof.
  assert (LOFAR_TELESCOPE = MWA_TELESCOPE <-> WSRT_TELESCOPE = MWA_TELESCOPE)
    as Htel by (split; discriminate).
  assert (In StrategyFlags.FAST
            [StrategyFlags.LOW_FREQUENCY; StrategyFlags.HIGH_FREQUENCY;
             StrategyFlags.FAST; StrategyFlags.OFF_AXIS_SOURCES;
             StrategyFlags.UNSENSITIVE; StrategyFlags.SENSITIVE]) as Hg
    by (cbn; auto).
  split; [exact Htel |]. split; [exact Hg |].
  split; [reflexivity |]. split; [reflexivity |].
  apply (default_strategy_ignores sample_constructors sample_undeclared
           LOFAR_TELESCOPE WSRT_TELESCOPE StrategyFlags.TRANSIENTS
           StrategyFlags.FAST 150%R 1%R 2%R 0%R 0%R 0%R Htel Hg eq_refl
           eq_refl).
Defined.

Lemma MakeImageSet_allocates_witness :
  valid_count 2 /\
  constructed empty_memory 2
    {| image_width := 3; image_height := 1;
       image_values := grid 3 1 0%R |}
    (MakeImageSet_set sample_limits 3 1 2 0%R empty_memory) /\
  constructed empty_memory 2
    {| image_width := 3; image_height := 1;
       image_values := sample_unset_values 3 1 |}
    (MakeImageSet sample_limits sample_unset_values 3 1 2 empty_memory).
Proof.
  assert (valid_count 2) as H by (unfold valid_count; lia).
  split; [exact H |].
  apply (MakeImageSet_allocates sample_limits sample_unset_values 3 1 2 0%R empty_memory H).
Defined.

Lemma MakeImageSet_accessors_witness :
  valid_count 2 /\
  exists (s : ImageSet) (m' : Memory),
    MakeImageSet sample_limits sample_unset_values 3 1 2 empty_memory = Returns s m' /\
    ImageSet_Width s m' = Returns 3 m' /\
    ImageSet_ImageCount s m' = Returns 2 m' /\
    (exists a : addr, ImageSet_ImageBuffer s 1 m' = Returns a m') /\
    ImageSet_ImageBuffer s 2 m' = Undefined.
Proof.
  assert (valid_count 2) as H by (unfold valid_count; lia).
  split; [exact H |].
  destruct (MakeImageSet_accessors sample_limits sample_unset_values 3 1 2 empty_memory H)
    as (s & m' & Hrun & Hw & _ & Hc & Hi).
  exists s, m'. split; [exact Hrun |]. split; [exact Hw |].
  split; [exact Hc |]. split; [exact (Hi 1) | exact (Hi 2)].
Defined.

Lemma ImageSet_copy_shares_images_witness :
  valid_ImageSet sample_memory sample_input [Some 1%positive] 2 1 /\
  exists (copy : ImageSet) (m' m'' : Memory),
    ImageSet_copy sample_input sample_memory = Returns copy m' /\
    ImageSet_ImageBuffer copy 0 m' = ImageSet_ImageBuffer sample_input 0 m' /\
    ImageSet_destroy sample_input m' = Returns tt m'' /\
    valid_ImageSet m'' copy [Some 1%positive] 2 1.
Proof.
  split; [exact sample_input_valid |].
  destruct (ImageSet_copy_shares_images sample_input [Some 1%positive] 2 1
              sample_memory sample_input_valid)
    as (copy & m' & m'' & Hcopy & _ & _ & _ & _ & Hsame & Hdestroy & Hvalid).
  exists copy, m', m''. split; [exact Hcopy |]. split; [apply Hsame |].
  split; [exact Hdestroy | exact Hvalid].
Defined.

Lemma sample_memory_3_valid :
  valid_ImageSet sample_memory_3 sample_input [Some 1%positive] 2 1 /\
  valid_ImageSet sample_memory_3 sample_input_2
    [Some 2%positive; Some 3%positive] 3 1.
Proof.
  split.
  - split; [reflexivity |]. split; [left; reflexivity |].
    intros [|i] q Hq; [| destruct i; discriminate Hq].
    injection Hq as <-. exists 1%positive, sample_image. repeat split.
  - split; [reflexivity |]. split; [right; left; reflexivity |].
    intros [|[|i]] q Hq; [| | destruct i; discriminate Hq].
    + injection Hq as <-. exists 2%positive, (sample_wide_image 5%R).
      repeat split.
    + injection Hq as <-. exists 3%positive, (sample_wide_image 6%R).
      repeat split.
Qed.

Lemma ImageSet_assign_shares_images_witness :
  valid_ImageSet sample_memory_3 sample_input [Some 1%positive] 2 1 /\
  valid_ImageSet sample_memory_3 sample_input_2
    [Some 2%positive; Some 3%positive] 3 1 /\
  ImageSet_ImageCount sample_input sample_memory_3 =
    Returns 1 sample_memory_3 /\
  ImageSet_ImageBuffer sample_input 1 sample_memory_3 = Undefined /\
  exists m' : Memory,
    ImageSet_assign sample_input sample_input_2 sample_memory_3 =
      Returns tt m' /\
    valid_ImageSet m' sample_input [Some 2%positive; Some 3%positive] 3 1 /\
    valid_ImageSet m' sample_input_2
      [Some 2%positive; Some 3%positive] 3 1 /\
    ImageSet_ImageBuffer sample_input 1 m' =
      ImageSet_ImageBuffer sample_input_2 1 m' /\
    ImageSet_ImageBuffer sample_input_2 1 m' = Returns 3%positive m'.
Proof.
  destruct sample_memory_3_valid as [H1 H2].
  split; [exact H1 |]. split; [exact H2 |].
  split; [reflexivity |]. split; [reflexivity |].
  destruct (ImageSet_assign_shares_images sample_input sample_input_2
              [Some 1%positive] [Some 2%positive; Some 3%positive] 2 1 3 1
              sample_memory_3 H1 H2)
    as (Hassign & Hself & Hsource & Hsame).
  eexists. split; [exact Hassign |]. split; [exact Hself |].
  split; [exact Hsource |]. split; [apply Hsame | reflexivity].
Defined.

Lemma sample_trees_differ : sample_tree_2 <> sample_tree.
Proof.
  intros H. apply (f_equal (fun t => length (children_of t))) in H.
  vm_compute in H. discriminate H.
Qed.

Lemma Strategy_assign_through_copy_witness :
  mem_objects sample_memory_3 !! Strategy_data sample_strategy =
    Some (Obj_StrategyData {| strategyPtr := sample_tree |}) /\
  mem_objects sample_memory_3 !! Strategy_data sample_strategy_2 =
    Some (Obj_StrategyData {| strategyPtr := sample_tree_2 |}) /\
  mem_objects sample_memory_3 !! ImageSet_data sample_input =
    Some (Obj_ImageSetData {| images := [Some 1%positive] |}) /\
  mem_objects sample_memory_3 !! ImageSet_data sample_input_2 =
    Some (Obj_ImageSetData
            {| images := [Some 2%positive; Some 3%positive] |}) /\
  sample_tree_2 <> sample_tree /\
  (exists m' : Memory,
     (t ← Strategy_copy sample_strategy;
      Strategy_assign t sample_strategy_2;;
      get_StrategyData (Strategy_data sample_strategy)) sample_memory_3 =
     Returns {| strategyPtr := sample_tree_2 |} m') /\
  (exists m' : Memory,
     (j ← ImageSet_copy sample_input;
      ImageSet_assign j sample_input_2;;
      get_ImageSetData (ImageSet_data sample_input)) sample_memory_3 =
     Returns {| images := [Some 1%positive] |} m').
Proof.
  do 4 (split; [reflexivity |]). split; [exact sample_trees_differ |].
  destruct (Strategy_assign_through_copy sample_strategy sample_strategy_2
              {| strategyPtr := sample_tree |}
              {| strategyPtr := sample_tree_2 |}
              sample_input sample_input_2
              {| images := [Some 1%positive] |}
              {| images := [Some 2%positive; Some 3%positive] |}
              sample_memory_3 eq_refl eq_refl eq_refl eq_refl)
    as (Hstrategy & m' & Himages).
  split; [eexists; exact Hstrategy | exists m'; exact Himages].
Defined.

Lemma Run_after_copy_destroyed_witness :
  valid_ImageSet sample_memory sample_input [Some 1%positive] 2 1 /\
  mem_objects sample_memory !! Strategy_data sample_strategy =
    Some (Obj_StrategyData {| strategyPtr := sample_tree |}) /\
  (copy ← Strategy_copy sample_strategy;
   Strategy_destroy copy;;
   Run sample_TimeFrequencyData_0 sample_GetCombinedMask sample_Perform
     sample_strategy sample_input) sample_memory = Undefined.
Proof.
  split; [exact sample_input_valid |]. split; [reflexivity |].
  apply (Run_after_copy_destroyed sample_TimeFrequencyData_0
           sample_GetCombinedMask sample_Perform sample_strategy
           {| strategyPtr := sample_tree |} sample_input [Some 1%positive]
           2 1 sample_memory sample_input_valid eq_refl).
Defined.

Lemma FlagMask_copy_shares_mask_witness :
  mem_objects sample_memory !! 3%positive =
    Some (Obj_FlagMaskData {| mask := Some 1%positive |}) /\
  mem_masks sample_memory !! 1%positive =
    Some {| mask_width := 2; mask_height := 1;
            mask_values := [[false; true]] |} /\
  exists (g : addr) (m' m'' : Memory),
    FlagMask_copy {| FlagMask_data := Some 3%positive |} sample_memory =
      Returns {| FlagMask_data := Some g |} m' /\
    FlagMask_destroy {| FlagMask_data := Some 3%positive |} m' =
      Returns tt m'' /\
    FlagMask_Buffer {| FlagMask_data := Some g |} m'' =
      Returns [[false; true]] m''.
Proof.
  split; [reflexivity |]. split; [reflexivity |].
  destruct (FlagMask_copy_shares_mask 3%positive 1%positive
              {| mask_width := 2; mask_height := 1;
                 mask_values := [[false; true]] |}
              sample_memory eq_refl eq_refl)
    as (g & m' & m'' & Hcopy & _ & _ & _ & _ & Hdestroy & _ & _ & Hbuffer).
  exists g, m', m''. split; [exact Hcopy |].
  split; [exact Hdestroy | exact Hbuffer].
Defined.

Lemma StatisticalFlagAction_Perform_twice_witness :
  GetSingleMask sample_GetCombinedMask (ContaminatedData sample_artifacts_2)
    sample_memory_3 =
    Returns {| mask_width := 2; mask_height := 1;
               mask_values := [[true; false]] |} sample_memory_3 /\
  (exists (artifacts1 : ArtifactSet) (m1 : Memory),
     StatisticalFlagAction_Perform sample_GetCombinedMask sample_DilateFlags
       sample_OperateHorizontally sample_OperateVertically
       (StatisticalFlagAction_new sample_constructors) sample_artifacts_2
       sample_memory_3 = Returns artifacts1 m1 /\
     GetSingleMask sample_GetCombinedMask (ContaminatedData artifacts1) m1 =
       Returns {| mask_width := 2; mask_height := 1;
                  mask_values := [[false; true]] |} m1) /\
  exists (artifacts' : ArtifactSet) (m' : Memory),
    sequence
      (StatisticalFlagAction_Perform sample_GetCombinedMask
         sample_DilateFlags sample_OperateHorizontally
         sample_OperateVertically
         (StatisticalFlagAction_new sample_constructors))
      (StatisticalFlagAction_Perform sample_GetCombinedMask
         sample_DilateFlags sample_OperateHorizontally
         sample_OperateVertically
         (StatisticalFlagAction_new sample_constructors))
      sample_artifacts_2 sample_memory_3 = Returns artifacts' m' /\
    GetSingleMask sample_GetCombinedMask (ContaminatedData artifacts') m' =
      Returns {| mask_width := 2; mask_height := 1;
                 mask_values := [[false; false]] |} m' /\
    mem_masks m' !! 2%positive =
      Some {| mask_width := 2; mask_height := 1;
              mask_values := [[true; false]] |}.
Proof.
  split; [reflexivity |].
  split; [eexists _, _; split; reflexivity |].
  destruct (StatisticalFlagAction_Perform_twice sample_GetCombinedMask
              sample_DilateFlags sample_OperateHorizontally
              sample_OperateVertically
              (StatisticalFlagAction_new sample_constructors)
              (StatisticalFlagAction_new sample_constructors)
              sample_artifacts_2
              {| mask_width := 2; mask_height := 1;
                 mask_values := [[true; false]] |}
              sample_memory_3 eq_refl)
    as (artifacts' & m' & Hrun & Hsingle & Hmasks & _).
  exists artifacts', m'. split; [exact Hrun |]. split; [exact Hsingle |].
  eapply lookup_weaken; [| exact Hmasks]. reflexivity.
Defined.

Lemma Run_of_idle_root_witness :
  valid_ImageSet sample_memory sample_input [Some 1%positive] 2 1 /\
  mem_objects sample_memory !! Strategy_data sample_strategy =
    Some (Obj_StrategyData {| strategyPtr := sample_tree |}) /\
  (forall (artifacts : ArtifactSet) (m0 : Memory),
     sample_idle_Perform sample_tree artifacts m0 = Returns artifacts m0) /\
  exists (flagMask : FlagMask) (m' : Memory),
    Run sample_TimeFrequencyData_0 sample_GetCombinedMask
      sample_idle_Perform sample_strategy sample_input sample_memory =
      Returns flagMask m' /\
    FlagMask_Width flagMask m' = Returns 2 m' /\
    FlagMask_Height flagMask m' = Returns 1 m' /\
    FlagMask_Buffer flagMask m' = Returns [[false; false]] m'.
Proof.
  assert (forall (artifacts : ArtifactSet) (m0 : Memory),
            sample_idle_Perform sample_tree artifacts m0 =
            Returns artifacts m0) as Hidle by reflexivity.
  split; [exact sample_input_valid |]. split; [reflexivity |].
  split; [exact Hidle |].
  apply (Run_of_idle_root sample_TimeFrequencyData_0 sample_GetCombinedMask
           sample_idle_Perform sample_strategy sample_tree sample_input
           [Some 1%positive] 2 1 sample_memory sample_input_valid eq_refl
           Hidle).
Defined.



Lemma QualityStatistics_assign_shares_witness :
  mem_objects sample_memory_3 !! 5%positive =
    Some (Obj_QualityStatisticsData {| _implementation := 2%positive |}) /\
  mem_objects sample_memory_3 !! QualityStatistics_data sample_statistics =
    Some (Obj_QualityStatisticsData {| _implementation := 1%positive |}) /\
  mem_objects sample_memory_3 !! 8%positive =
    Some (Obj_QualityStatisticsData {| _implementation := 3%positive |}) /\
  8%positive <> 5%positive /\
  sample_implementations_2 !! 1%positive =
    Some {| scanTimes := [10%R; 20%R]; statistics := [sample_Sample 1] |} /\
  sample_implementations_2 !! 3%positive =
    Some {| scanTimes := [40%R]; statistics := [sample_Sample 3] |} /\
  get_implementation _ sample_implementations_2 sample_statistics
    sample_memory_3 =
    Returns
      (1%positive,
       {| scanTimes := [10%R; 20%R]; statistics := [sample_Sample 1] |})
      sample_memory_3 /\
  exists m' : Memory,
    (QualityStatistics_assign {| QualityStatistics_data := 5%positive |}
       sample_statistics;;
     imps' ← QualityStatistics_add (list Sample) (fun a b => a ++ b)
               {| QualityStatistics_data := 5%positive |}
               {| QualityStatistics_data := 8%positive |}
               sample_implementations_2;
     get_implementation _ imps' sample_statistics) sample_memory_3 =
    Returns
      (1%positive,
       {| scanTimes := [10%R; 20%R];
          statistics := [sample_Sample 1; sample_Sample 3] |}) m'.
Proof.
  assert (8%positive <> 5%positive) as Hne by discriminate.
  do 3 (split; [reflexivity |]). split; [exact Hne |].
  do 3 (split; [reflexivity |]).
  eexists.
  apply (QualityStatistics_assign_shares (list Sample) (fun a b => a ++ b)
           {| QualityStatistics_data := 5%positive |} sample_statistics
           {| QualityStatistics_data := 8%positive |} 2%positive 1%positive
           3%positive
           {| scanTimes := [10%R; 20%R]; statistics := [sample_Sample 1] |}
           {| scanTimes := [40%R]; statistics := [sample_Sample 3] |}
           sample_implementations_2 sample_memory_3 eq_refl eq_refl eq_refl
           Hne eq_refl eq_refl).
Defined.

